(** * Fixit: wire codec, message store, session tracker, history log, fuzzer

    A shallow embedding of the string-level core of the Fixit FIX client
    (fixit/utils/common.py, fixit/core/message_store.py,
    fixit/fix/base_application.py, fixit/core/fixit_client.py,
    fixit/utils/writer.py and the message commands delete, send, edit and
    fuzz under fixit/core/commands/message) and the properties established
    about it.

    Conventions of the embedding:
    - a Python [str] is a [string]; characters are restricted to the code
      points below 256, which covers every FIX wire message;
    - a Python [int] is a [Z];
    - a [dict] is a [gmap]; a [list] is a [list];
    - a raised exception is the [Raise] constructor of [Res];
    - the printable delimiter [SOH_UNI['value']] is a mutable global of the
      program and is passed explicitly as a single character. *)

From Stdlib Require Import ZArith Lia List Ascii String DecimalString Decimal
  DecimalZ DecimalPos DecimalN.
From stdpp Require Import gmap strings.

Open Scope string_scope.
Open Scope Z_scope.

(** ** Exceptions *)

Inductive exn : Type :=
  | KeyError
  | ValueError
  | IndexError
  | AttributeError
  | TypeError
  | FieldNotFound
  | OverflowError
  | UnicodeDecodeError
  | ReError.

Inductive Res (A : Type) : Type :=
  | Ok (a : A)
  | Raise (e : exn).

Arguments Ok {A} a.
Arguments Raise {A} e.

Definition bind {A B : Type} (r : Res A) (k : A -> Res B) : Res B :=
  match r with
  | Ok a => k a
  | Raise e => Raise e
  end.

Notation "'let*' x ':=' r 'in' k" := (bind r (fun x => k))
  (at level 10, x name, r at level 100, k at level 200).

(** A Python value of one of the two types the codec is called with. *)
Inductive pyval : Type :=
  | PInt (z : Z)
  | PStr (s : string).

(** ** Python string primitives *)

Module PyStr.

Definition ord (c : ascii) : Z := Z.of_N (N_of_ascii c).

(** [chr(n)], for the code points the embedding has. *)
Definition chr (n : nat) : string := String (ascii_of_nat n) "".

(** [s.split(sep)] for a one-character separator. *)
Fixpoint split (sep : ascii) (s : string) : list string :=
  match s with
  | "" => [""]
  | String c s' =>
      if Ascii.eqb c sep then "" :: split sep s'
      else match split sep s' with
           | [] => [String c ""]
           | f :: fs => String c f :: fs
           end
  end.

(** [sep.join(l)]. *)
Definition join (sep : ascii) (l : list string) : string :=
  String.concat (String sep "") l.

(** [s.startswith(p)]. *)
Definition startswith (p s : string) : bool := String.prefix p s.

(** [s.endswith(c)] for a one-character suffix. *)
Fixpoint endswith (c : ascii) (s : string) : bool :=
  match s with
  | "" => false
  | String a "" => Ascii.eqb a c
  | String _ s' => endswith c s'
  end.

(** [s.replace(old, new)] for one-character [old] and [new]. *)
Fixpoint replace_char (old new : ascii) (s : string) : string :=
  match s with
  | "" => ""
  | String c s' =>
      String (if Ascii.eqb c old then new else c) (replace_char old new s')
  end.

(** [s.replace(old, new)] for a non-empty [old]; [skip] counts the
    characters of a matched [old] still to be dropped. *)
Fixpoint replace_go (old new : string) (skip : nat) (s : string) : string :=
  match s with
  | "" => ""
  | String c s' =>
      match skip with
      | S k => replace_go old new k s'
      | O =>
          if String.prefix old s
          then new +:+ replace_go old new (Nat.pred (String.length old)) s'
          else String c (replace_go old new O s')
      end
  end.

Definition replace (old new s : string) : string := replace_go old new O s.

(** [sub in s]. *)
Definition contains (sub s : string) : bool :=
  match String.index 0 sub s with
  | Some _ => true
  | None => false
  end.

Definition isdigit (c : ascii) : bool :=
  ((48 <=? N_of_ascii c) && (N_of_ascii c <=? 57))%N.

(** The characters below 256 with a Unicode numeric value: the ASCII
    digits, the superscripts 1 2 3 and the fractions 1/4 1/2 3/4. *)
Definition isnumeric_char (c : ascii) : bool :=
  isdigit c ||
  existsb (N.eqb (N_of_ascii c)) [178; 179; 185; 188; 189; 190]%N.

Fixpoint all_chars (p : ascii -> bool) (s : string) : bool :=
  match s with
  | "" => true
  | String c s' => p c && all_chars p s'
  end.

(** [s.isnumeric()]. *)
Definition isnumeric (s : string) : bool :=
  negb (String.eqb s "") && all_chars isnumeric_char s.

(** [str(z)]. *)
Definition str (z : Z) : string := NilZero.string_of_int (Z.to_int z).

Definition digits_value (body : string) : Res Z :=
  if negb (String.eqb body "") && all_chars isdigit body then
    match NilEmpty.uint_of_string body with
    | Some u => Ok (Z.of_uint u)
    | None => Raise ValueError
    end
  else Raise ValueError.

(** [int(s)] on a string of ASCII digits with an optional sign; any
    other string is a [ValueError] here.  (Python also strips blanks and
    accepts underscores between digits; no caller below can pass such a
    string.) *)
Definition int (s : string) : Res Z :=
  match s with
  | "" => Raise ValueError
  | String c s' =>
      if Ascii.eqb c "-" then
        match digits_value s' with
        | Ok z => Ok (- z)
        | Raise e => Raise e
        end
      else if Ascii.eqb c "+" then digits_value s'
      else digits_value s
  end.

(** [c.upper()] for a character below 256: the ASCII letters, the
    Latin-1 letters 224..254 (the division sign 247 is no letter) and the
    sharp s, whose capital is two letters.  The capitals of the micro
    sign (181) and of y with diaeresis (255) lie beyond code point 255:
    the two characters stand for them. *)
Definition upper_char (c : ascii) : string :=
  let n := N_of_ascii c in
  if ((97 <=? n) && (n <=? 122))%N then String (ascii_of_N (n - 32)) ""
  else if (n =? 223)%N then "SS"
  else if ((224 <=? n) && (n <=? 254) && negb (n =? 247))%N
  then String (ascii_of_N (n - 32)) ""
  else String c "".

(** [s.upper()]. *)
Fixpoint upper (s : string) : string :=
  match s with
  | "" => ""
  | String c s' => upper_char c +:+ upper s'
  end.

(** The white space of [str.strip] and of [int] among the characters
    below 256: blank, tab, line feed, vertical tab, form feed, carriage
    return, the four separators 28..31, NEXT LINE (133) and NO-BREAK
    SPACE (160). *)
Definition isspace (c : ascii) : bool :=
  let n := N_of_ascii c in
  (N.eqb n 32 || ((9 <=? n) && (n <=? 13)) || ((28 <=? n) && (n <=? 31))
   || N.eqb n 133 || N.eqb n 160)%N.

Fixpoint lstrip (s : string) : string :=
  match s with
  | "" => ""
  | String c s' => if isspace c then lstrip s' else s
  end.

Fixpoint rstrip (s : string) : string :=
  match s with
  | "" => ""
  | String c s' =>
      match rstrip s' with
      | "" => if isspace c then "" else String c ""
      | r => String c r
      end
  end.

(** [s.strip()]. *)
Definition strip (s : string) : string := rstrip (lstrip s).

Fixpoint zeros (n : nat) : string :=
  match n with
  | O => ""
  | S k => String "0" (zeros k)
  end.

(** [s.zfill(width)]: zeros go after a leading sign. *)
Definition zfill (width : nat) (s : string) : string :=
  let pad := zeros (width - String.length s)%nat in
  match s with
  | String c s' =>
      if Ascii.eqb c "+" || Ascii.eqb c "-" then String c (pad +:+ s')
      else pad +:+ s
  | "" => pad
  end.

(** [f"{v}"]. *)
Definition format (v : pyval) : string :=
  match v with
  | PInt z => str z
  | PStr s => s
  end.

(** [int(v)]. *)
Definition to_int (v : pyval) : Res Z :=
  match v with
  | PInt z => Ok z
  | PStr s => int s
  end.

(** [s.split(sep, 1)]: one split at most, at the first separator. *)
Fixpoint split1 (sep : ascii) (s : string) : list string :=
  match s with
  | "" => [""]
  | String c s' =>
      if Ascii.eqb c sep then [""; s']
      else match split1 sep s' with
           | [] => [String c ""]
           | f :: fs => String c f :: fs
           end
  end.

(** Decimal digits with single underscores between them, as [int]
    accepts them; the result is the digits alone. *)
Fixpoint ungroup (after_digit : bool) (s : string) : option string :=
  match s with
  | "" => if after_digit then Some "" else None
  | String c s' =>
      if isdigit c then
        match ungroup true s' with
        | Some r => Some (String c r)
        | None => None
        end
      else if Ascii.eqb c "_" && after_digit then ungroup false s'
      else None
  end.

Definition grouped_digits_value (t : string) : Res Z :=
  match ungroup false t with
  | Some d => digits_value d
  | None => Raise ValueError
  end.

(** [int(s)] on any string of the embedding: white space around, a sign,
    digits with single underscores between them. *)
Definition int_literal (s : string) : Res Z :=
  match strip s with
  | "" => Raise ValueError
  | String c t =>
      if Ascii.eqb c "-" then
        match grouped_digits_value t with
        | Ok z => Ok (- z)
        | Raise e => Raise e
        end
      else if Ascii.eqb c "+" then grouped_digits_value t
      else grouped_digits_value (String c t)
  end.


(** [s[n:]] for a non-negative [n]. *)
Fixpoint from_index (n : nat) (s : string) : string :=
  match n, s with
  | O, _ => s
  | S k, "" => ""
  | S k, String _ s' => from_index k s'
  end.

End PyStr.

(** ** Python list primitives *)

Module PyList.

(** An index of a slice or of [insert], brought into [0 .. n]. *)
Definition clamp (n i : Z) : Z :=
  if i <? 0 then Z.max (n + i) 0 else Z.min i n.

(** [l[start:stop]]. *)
Definition slice {A : Type} (start stop : Z) (l : list A) : list A :=
  let n := Z.of_nat (length l) in
  let i := clamp n start in
  let j := clamp n stop in
  take (Z.to_nat (j - i)) (drop (Z.to_nat i) l).



(** [l[i]], an [IndexError] out of range. *)
Definition item {A : Type} (i : Z) (l : list A) : Res A :=
  let n := Z.of_nat (length l) in
  let k := if i <? 0 then n + i else i in
  if (0 <=? k) && (k <? n) then
    match l !! Z.to_nat k with
    | Some x => Ok x
    | None => Raise IndexError
    end
  else Raise IndexError.

(** [l.remove(x)]: the first occurrence goes, a [ValueError] when there
    is none. *)
Fixpoint remove {A : Type} (eqb : A -> A -> bool) (x : A) (l : list A)
  : Res (list A) :=
  match l with
  | [] => Raise ValueError
  | y :: l' =>
      if eqb y x then Ok l'
      else match remove eqb x l' with
           | Ok r => Ok (y :: r)
           | Raise e => Raise e
           end
  end.

End PyList.

(** ** fixit/core/constants.py *)

Definition SOH_BIN : ascii := "001"%char.
Definition DELIM_UNI : ascii := "="%char.
Definition DELIM_BIN : ascii := "061"%char.
(** The two characters around [REPLACE_ME] are NOT SIGN, code point 172. *)
Definition TARGET_FLAG : string :=
  String "172" (String "172" "REPLACE_ME") +:+ String "172" (String "172" "").
Definition INVALID : string := "INVALID".
Definition UNKNOWN : string := "UNKNOWN".
Definition MANUAL_RECON_INT : Z := 0.
Definition DEFAULT_LOGON_TIMEOUT : Z := 10.
Definition DEFAULT_LOGOUT_TIMEOUT : Z := 2.
Definition DEFAULT_RECONNECT_INTERVAL : Z := 30.

(** ** fixit/utils/common.py *)

Module Utils.

Section Codec.

(** The current value of [SOH_UNI['value']]. *)
Variable SOH_UNI : ascii.

(** [bytes_to_ascii] on a [str]: the [decode] attribute is missing, the
    [AttributeError] is swallowed and the string comes back as it is. *)
Definition bytes_to_ascii (s : string) : string := s.

(** The delimiter a raw message is taken to use. *)
Definition detect_SOH (message : string) : ascii :=
  if PyStr.endswith SOH_UNI message then SOH_UNI else SOH_BIN.

(** The loop [for c in ...: checksum += ord(c)]. *)
Fixpoint sum_ord (checksum : Z) (s : string) : Z :=
  match s with
  | "" => checksum
  | String c s' => sum_ord (checksum + PyStr.ord c) s'
  end.

Definition msg_str_calc_chksum (message : string) : Res string :=
  let message := PyStr.replace_char SOH_UNI SOH_BIN message in
  match String.index 0 (String SOH_BIN "10=") message with
  | None => Raise ValueError
  | Some i =>
      let checksum := sum_ord 0 (String.substring 0 i message) in
      Ok (PyStr.zfill 3 (PyStr.str (checksum mod 256 + 1)))
  end.

(** The search loop of [msg_str_get_field].  On the first field that
    starts with the tag the source evaluates [field.solit("=", 1)[1]];
    [str] has no attribute [solit], so that is an [AttributeError]. *)
Fixpoint get_field_loop (tag : string) (fields : list string)
  : Res (option string) :=
  match fields with
  | [] => Ok None
  | field :: rest =>
      if PyStr.startswith tag field then Raise AttributeError
      else get_field_loop tag rest
  end.

Definition msg_str_get_field (message : string) (field_num : pyval)
  : Res string :=
  let* field_num := PyStr.to_int field_num in
  let message := bytes_to_ascii message in
  let SOH := detect_SOH message in
  let* field_value :=
    get_field_loop (PyStr.str field_num +:+ "=") (PyStr.split SOH message) in
  match field_value with
  | None => Raise FieldNotFound
  | Some v => Ok v
  end.

(** The replacement loop of [msg_str_set_field]: the first field that
    starts with the tag is overwritten, then [break]. *)
Fixpoint set_field_loop (tag new_field : string) (msg_fields : list string)
  : list string :=
  match msg_fields with
  | [] => []
  | field :: rest =>
      if PyStr.startswith tag field then new_field :: rest
      else field :: set_field_loop tag new_field rest
  end.

Definition msg_str_set_field (message : string) (field_num value : pyval)
  : string :=
  let SOH := detect_SOH message in
  let msg_fields := PyStr.split SOH message in
  let tag := PyStr.format field_num +:+ "=" in
  PyStr.join SOH
    (set_field_loop tag (tag +:+ PyStr.format value) msg_fields).

(** [msg_str_calc_length]: the fields are those between printable
    delimiters, whatever delimiter the message uses. *)
Definition msg_str_calc_length (message : string) : Z :=
  let msg_fields := PyStr.split SOH_UNI message in
  Z.of_nat
    (String.length
       (PyStr.join SOH_UNI (PyList.slice 2 (-2) msg_fields)
        +:+ String SOH_UNI "")).


(** The loop of [msg_str_remove_field]: the fields that do not start
    with the tag are appended to [new_msg]. *)
Fixpoint remove_field_loop (tag : string) (msg_fields new_msg : list string)
  : list string :=
  match msg_fields with
  | [] => new_msg
  | field :: rest =>
      remove_field_loop tag rest
        (if negb (PyStr.startswith tag field) then (new_msg ++ [field])%list
         else new_msg)
  end.

Definition msg_str_remove_field (message : string) (field_num : pyval)
  : string :=
  let SOH := detect_SOH message in
  let msg_fields := PyStr.split SOH message in
  PyStr.join SOH
    (remove_field_loop (PyStr.format field_num +:+ "=") msg_fields []).

End Codec.

End Utils.


(** ** fixit/core/message_store.py *)

Definition YES : string := "YES".
Definition NO : string := "NO".
Definition ALL : string := "ALL".
Definition YES_ALL : string := "YES_ALL".
Definition NO_ALL : string := "NO_ALL".

Module MessageStore.

(** The dictionary stored per message: keys [id], [type], [msg]. *)
Record msg_obj : Type := MsgObj {
  id : string;
  type : string;
  msg : string
}.

(** The two attributes of a [MessageStore] instance. *)
Record t : Type := Make {
  store : gmap string msg_obj;
  auto_resp : option string
}.

(** Every entry is stored under its own [id], as [update_store] writes
    it. *)
Definition consistent (st : gmap string msg_obj) : bool :=
  forallb (fun p => String.eqb (id (snd p)) (fst p)) (map_to_list st).

Definition set_auto_resp (self : t) (r : string) : t :=
  Make (store self) (Some r).

Definition mem (self : t) (store_id : string) : bool :=
  bool_decide (is_Some (store self !! store_id)).

Definition str_in (x : string) (l : list string) : bool :=
  existsb (String.eqb x) l.

Definition opt_in (x : option string) (l : list string) : bool :=
  match x with
  | Some v => str_in v l
  | None => false
  end.

(** [remove]: [self.store.pop(store_id)], a [KeyError] on a missing key. *)
Definition remove (self : t) (store_id : string) : Res t :=
  match store self !! store_id with
  | Some _ => Ok (Make (delete store_id (store self)) (auto_resp self))
  | None => Raise KeyError
  end.

(** The console: each element is what one call of [writer.prompt] returns,
    the list of words typed.  An exhausted console never answers. *)
Definition console : Type := list (list string).

(** The [while response not in [...]] loop of [_overwrite].  A reply with
    [YES] or [NO] in it returns; after any other reply, or after the
    swallowed [IndexError] of an empty reply, the test holds again. *)
Fixpoint prompt_loop (self : t) (inp : console) : option (bool * t * console) :=
  match inp with
  | [] => None
  | reply :: inp' =>
      match reply with
      | [] => prompt_loop self inp'
      | word :: _ =>
          let response := PyStr.strip (PyStr.upper word) in
          if PyStr.contains YES response then
            Some (true,
                  if PyStr.contains ALL response
                  then set_auto_resp self YES_ALL else self,
                  inp')
          else if PyStr.contains NO response then
            Some (false,
                  if PyStr.contains ALL response
                  then set_auto_resp self NO_ALL else self,
                  inp')
          else prompt_loop self inp'
      end
  end.

Definition _overwrite (self : t) (store_id : string)
    (user_input : option (list string)) (inp : console)
  : option (bool * t * console) :=
  if mem self store_id && negb (opt_in (auto_resp self) [YES_ALL; NO_ALL]) then
    let self :=
      match user_input with
      | Some (u0 :: _) =>
          if str_in u0 [YES_ALL; NO_ALL]
          then set_auto_resp self (hd "" (PyStr.split " " u0))
          else self
      | _ => self
      end in
    if opt_in (auto_resp self) [YES_ALL] then Some (true, self, inp)
    else if opt_in (auto_resp self) [NO_ALL] then Some (false, self, inp)
    else prompt_loop self inp
  else Some (false, self, inp).

(** One round of the [while store_id in self.store] loop. *)
Definition next_id (stored_id : string) : Res string :=
  let parts := PyStr.split ":" stored_id in
  let* qualifier := PyStr.int (List.last parts "") in
  let prefix := PyStr.join ":" (removelast parts) in
  Ok (prefix +:+ ":" +:+ PyStr.str (qualifier + 1)).

(** The loop itself; [fuel] bounds the number of rounds. *)
Fixpoint validate_loop (fuel : nat) (st : gmap string msg_obj)
    (store_id : string) : option (Res string) :=
  match st !! store_id with
  | None => Some (Ok store_id)
  | Some obj =>
      match fuel with
      | O => None
      | S fuel' =>
          match next_id (id obj) with
          | Ok store_id' => validate_loop fuel' st store_id'
          | Raise e => Some (Raise e)
          end
      end
  end.

Definition _validate_MsgStoreID (fuel : nat) (self : t) (store_id : string)
    (user_input : option (list string)) (inp : console)
  : option (Res string * t * console) :=
  match _overwrite self store_id user_input inp with
  | None => None
  | Some (true, self, inp) => Some (Ok store_id, self, inp)
  | Some (false, self, inp) =>
      let store_id :=
        if negb (PyStr.isnumeric (List.last (PyStr.split ":" store_id) ""))
        then store_id +:+ ":1" else store_id in
      match validate_loop fuel (store self) store_id with
      | None => None
      | Some r => Some (r, self, inp)
      end
  end.

Section Client.

(** The protocol-engine side of [cli.client]: the message objects, their
    classification by the loaded data dictionaries, the BeginString
    header field and the rendering [msg_to_str]. *)
Variable Message : Type.
Variable get_message_type : Message -> string * string.
Variable BeginString : Message -> string.
Variable msg_to_str : Message -> string.

Definition gen_MsgStoreID (message : Message) : string :=
  let '(msg_type, msg_type_name) := get_message_type message in
  BeginString message +:+ ":" +:+ msg_type_name +:+ "-" +:+ msg_type +:+ ":1".

Definition update_store (fuel : nat) (self : t) (message : Message)
    (user_input : option (list string)) (store_id : option string)
    (inp : console)
  : option (Res string * t * console) :=
  let '(msg_type, msg_type_name) := get_message_type message in
  let store_id :=
    match store_id with
    | None => gen_MsgStoreID message
    | Some i => i
    end in
  match _validate_MsgStoreID fuel self store_id user_input inp with
  | None => None
  | Some (Raise e, self, inp) => Some (Raise e, self, inp)
  | Some (Ok store_id, self, inp) =>
      let obj :=
        MsgObj store_id
               (msg_type +:+ " (" +:+ msg_type_name +:+ ")")
               (msg_to_str message) in
      Some (Ok store_id,
            Make (<[id obj := obj]> (store self)) (auto_resp self),
            inp)
  end.

End Client.

End MessageStore.

(** ** fixit/core/commands/message/message_delete.py *)

Module Delete.

Import MessageStore.

(** [while response not in ["YES", "NO"]]: ask again.  Here an empty
    reply is an uncaught [IndexError]. *)
Fixpoint confirm_loop (response : string) (inp : console)
  : option (Res string * console) :=
  if str_in response ["YES"; "NO"] then Some (Ok response, inp)
  else
    match inp with
    | [] => None
    | [] :: inp' => Some (Raise IndexError, inp')
    | (word :: _) :: inp' => confirm_loop (PyStr.strip (PyStr.upper word)) inp'
    end.

(** [run], after argument parsing: [store_id] is [args.store_id] and
    [args_trail] the remaining words.  The third component of the result
    is what was written to the operator. *)
Definition run (self : t) (store_id : string) (args_trail : list string)
    (inp : console) : option (Res unit * t * list string) :=
  if mem self store_id then
    match args_trail with
    | [] => Some (Raise IndexError, self, [])
    | a0 :: _ =>
        match confirm_loop (PyStr.upper a0) inp with
        | None => None
        | Some (Raise e, _) => Some (Raise e, self, [])
        | Some (Ok response, _) =>
            if String.eqb response "YES" then
              match remove self store_id with
              | Ok self' => Some (Ok tt, self', [store_id +:+ " Deleted!"])
              | Raise e => Some (Raise e, self, [])
              end
            else Some (Ok tt, self, [])
        end
    end
  else Some (Ok tt, self, [store_id +:+ " not found"]).

End Delete.

(** ** fixit/fix/base_application.py (with what it calls in fixit_client.py) *)

Definition ADM_I : string := "<- IN (ADM): ".
Definition ADM_O : string := "-> OUT(ADM): ".
Definition APP_I : string := "<- IN (APP): ".
Definition APP_O : string := "-> OUT(APP): ".

Definition MsgType_Heartbeat : string := "0".
Definition MsgType_Logout : string := "5".
Definition MsgType_Logon : string := "A".

Definition tag_MsgSeqNum : Z := 34.
Definition tag_TargetSubID : Z := 57.
Definition tag_Text : Z := 58.
Definition tag_TestReqID : Z := 112.
Definition tag_SenderLocationID : Z := 142.
Definition tag_Username : Z := 553.
Definition tag_Password : Z := 554.
Definition tag_NextExpectedMsgSeqNum : Z := 789.
Definition tag_NewPassword : Z := 925.
Definition tag_DefaultApplExtID : Z := 1407.

Definition RECONNECT_INTERVAL : string := "ReconnectInterval".
Definition LOGON_TIMEOUT : string := "LogonTimeout".
Definition LOGOUT_TIMEOUT : string := "LogoutTimeout".

Definition r_MsgseqNum : string := "^.*(MsgSeqNum).*expecting ([0-9]+).*$".
Definition r_NextExpectedMsgSeqNum : string :=
  "^.*(NextExpectedMsgSeqNum).*expecting ([0-9]+).*$".

Module App.

(** A [quickfix.Message]: the fields of its header and of its body. *)
Record Message : Type := Msg {
  header : gmap Z string;
  body : gmap Z string
}.

Definition setField (tag : Z) (v : string) (m : Message) : Message :=
  Msg (header m) (<[tag := v]> (body m)).

Definition removeField (tag : Z) (m : Message) : Message :=
  Msg (header m) (delete tag (body m)).

Definition setHeaderField (tag : Z) (v : string) (m : Message) : Message :=
  Msg (<[tag := v]> (header m)) (body m).

Definition getField (tag : Z) (m : Message) : Res string :=
  match body m !! tag with
  | Some v => Ok v
  | None => Raise FieldNotFound
  end.

(** The local variable [message] of [_log_message] is rebound from the
    message object to the queued string on interception. *)
Inductive message_ref : Type :=
  | AsMessage (m : Message)
  | AsStr (s : string).

(** The dictionary [msg_obj] of [_log_message]; [id] is the key added
    last, absent while the rows of the log file are written. *)
Record msg_obj : Type := MsgObj {
  time : string;
  uuid : string;
  state : string;
  route : string;
  type : string;
  msg : string;
  notes : string;
  id : option Z
}.

(** [map(str, msg_obj.values())] before [id] is added. *)
Definition row (o : msg_obj) : list string :=
  [time o; uuid o; state o; route o; type o; msg o; notes o].

(** Calls made on the engine's session object. *)
Inductive engine_call : Type :=
  | CallLogon (sessionID : string)
  | CallLogout (sessionID : string)
  | CallSetNextSenderMsgSeqNum (sessionID : string) (n : Z).

(** What the application does not decide: the delimiter option, the
    engine's dictionaries and rendering, the codecs and the regular
    expression library of Python, the sources of time stamps and uuids,
    the file system, and the engine's answers over time.  The oracles
    indexed by [nat] are read at the current [tick] of the state.
    [unicode_escape] is [bytes.decode("unicode_escape")], [None] where it
    raises [UnicodeDecodeError]; [re_search pattern text] is
    [re.search(pattern, text, re.IGNORECASE)] being a match, [None] where
    it raises [re.error]. *)
Record Env : Type := MkEnv {
  SOH_UNI : ascii;
  get_message_type : Message -> string * string;
  get_message_type_str : string -> string * string;
  toString : Message -> string;
  unicode_escape : string -> option string;
  colour : string -> string;
  gen_timestamp_at : nat -> string;
  gen_uuid_at : nat -> string;
  can_append : string -> bool;
  re_search : string -> string -> option bool;
  re_search_group2 : string -> string -> option string;
  isLoggedOn_at : nat -> bool;
  perf_counter_at : nat -> Z
}.

(** The class attributes of [BaseFixApplication] that the functions below
    read or write, the engine's sessions, the log files and the tick. *)
Record t : Type := Make {
  sessions : gmap string string;
  session_settings : gmap string (gmap string string);
  session_message_log : gmap string (list msg_obj);
  session_message_count : gmap string Z;
  session_message_log_file : gmap string string;
  session_attempting_logon : gmap string bool;
  session_logon_attempts : gmap string Z;
  session_NextExpSeqNum : gmap string (option Z);
  session_NextSenderSeqNum : gmap string (option Z);
  session_loggedon : gmap string bool;
  session_seqNum : gmap string Z;
  username : option string;
  password : option string;
  newpassword : option string;
  config_recon_int : Z;
  message_queue : list string;
  ignored_messages : list string;
  engine_sessions : gmap string Z;
  engine_calls : list engine_call;
  files : gmap string (list (list string));
  tick : nat
}.

Definition set_session_settings v (a : t) : t :=
  Make (sessions a) v (session_message_log a) (session_message_count a)
    (session_message_log_file a) (session_attempting_logon a)
    (session_logon_attempts a) (session_NextExpSeqNum a)
    (session_NextSenderSeqNum a) (session_loggedon a) (session_seqNum a)
    (username a) (password a) (newpassword a) (config_recon_int a)
    (message_queue a) (ignored_messages a) (engine_sessions a)
    (engine_calls a) (files a) (tick a).

Definition set_session_message_log v (a : t) : t :=
  Make (sessions a) (session_settings a) v (session_message_count a)
    (session_message_log_file a) (session_attempting_logon a)
    (session_logon_attempts a) (session_NextExpSeqNum a)
    (session_NextSenderSeqNum a) (session_loggedon a) (session_seqNum a)
    (username a) (password a) (newpassword a) (config_recon_int a)
    (message_queue a) (ignored_messages a) (engine_sessions a)
    (engine_calls a) (files a) (tick a).

Definition set_session_message_count v (a : t) : t :=
  Make (sessions a) (session_settings a) (session_message_log a) v
    (session_message_log_file a) (session_attempting_logon a)
    (session_logon_attempts a) (session_NextExpSeqNum a)
    (session_NextSenderSeqNum a) (session_loggedon a) (session_seqNum a)
    (username a) (password a) (newpassword a) (config_recon_int a)
    (message_queue a) (ignored_messages a) (engine_sessions a)
    (engine_calls a) (files a) (tick a).

Definition set_session_attempting_logon v (a : t) : t :=
  Make (sessions a) (session_settings a) (session_message_log a)
    (session_message_count a) (session_message_log_file a) v
    (session_logon_attempts a) (session_NextExpSeqNum a)
    (session_NextSenderSeqNum a) (session_loggedon a) (session_seqNum a)
    (username a) (password a) (newpassword a) (config_recon_int a)
    (message_queue a) (ignored_messages a) (engine_sessions a)
    (engine_calls a) (files a) (tick a).

Definition set_session_logon_attempts v (a : t) : t :=
  Make (sessions a) (session_settings a) (session_message_log a)
    (session_message_count a) (session_message_log_file a)
    (session_attempting_logon a) v (session_NextExpSeqNum a)
    (session_NextSenderSeqNum a) (session_loggedon a) (session_seqNum a)
    (username a) (password a) (newpassword a) (config_recon_int a)
    (message_queue a) (ignored_messages a) (engine_sessions a)
    (engine_calls a) (files a) (tick a).

Definition set_session_NextExpSeqNum v (a : t) : t :=
  Make (sessions a) (session_settings a) (session_message_log a)
    (session_message_count a) (session_message_log_file a)
    (session_attempting_logon a) (session_logon_attempts a) v
    (session_NextSenderSeqNum a) (session_loggedon a) (session_seqNum a)
    (username a) (password a) (newpassword a) (config_recon_int a)
    (message_queue a) (ignored_messages a) (engine_sessions a)
    (engine_calls a) (files a) (tick a).

Definition set_session_NextSenderSeqNum v (a : t) : t :=
  Make (sessions a) (session_settings a) (session_message_log a)
    (session_message_count a) (session_message_log_file a)
    (session_attempting_logon a) (session_logon_attempts a)
    (session_NextExpSeqNum a) v (session_loggedon a) (session_seqNum a)
    (username a) (password a) (newpassword a) (config_recon_int a)
    (message_queue a) (ignored_messages a) (engine_sessions a)
    (engine_calls a) (files a) (tick a).

Definition set_session_seqNum v (a : t) : t :=
  Make (sessions a) (session_settings a) (session_message_log a)
    (session_message_count a) (session_message_log_file a)
    (session_attempting_logon a) (session_logon_attempts a)
    (session_NextExpSeqNum a) (session_NextSenderSeqNum a)
    (session_loggedon a) v
    (username a) (password a) (newpassword a) (config_recon_int a)
    (message_queue a) (ignored_messages a) (engine_sessions a)
    (engine_calls a) (files a) (tick a).

Definition set_engine_sessions v (a : t) : t :=
  Make (sessions a) (session_settings a) (session_message_log a)
    (session_message_count a) (session_message_log_file a)
    (session_attempting_logon a) (session_logon_attempts a)
    (session_NextExpSeqNum a) (session_NextSenderSeqNum a)
    (session_loggedon a) (session_seqNum a)
    (username a) (password a) (newpassword a) (config_recon_int a)
    (message_queue a) (ignored_messages a) v
    (engine_calls a) (files a) (tick a).

Definition set_engine_calls v (a : t) : t :=
  Make (sessions a) (session_settings a) (session_message_log a)
    (session_message_count a) (session_message_log_file a)
    (session_attempting_logon a) (session_logon_attempts a)
    (session_NextExpSeqNum a) (session_NextSenderSeqNum a)
    (session_loggedon a) (session_seqNum a)
    (username a) (password a) (newpassword a) (config_recon_int a)
    (message_queue a) (ignored_messages a) (engine_sessions a)
    v (files a) (tick a).

Definition set_files v (a : t) : t :=
  Make (sessions a) (session_settings a) (session_message_log a)
    (session_message_count a) (session_message_log_file a)
    (session_attempting_logon a) (session_logon_attempts a)
    (session_NextExpSeqNum a) (session_NextSenderSeqNum a)
    (session_loggedon a) (session_seqNum a)
    (username a) (password a) (newpassword a) (config_recon_int a)
    (message_queue a) (ignored_messages a) (engine_sessions a)
    (engine_calls a) v (tick a).

Definition set_tick v (a : t) : t :=
  Make (sessions a) (session_settings a) (session_message_log a)
    (session_message_count a) (session_message_log_file a)
    (session_attempting_logon a) (session_logon_attempts a)
    (session_NextExpSeqNum a) (session_NextSenderSeqNum a)
    (session_loggedon a) (session_seqNum a)
    (username a) (password a) (newpassword a) (config_recon_int a)
    (message_queue a) (ignored_messages a) (engine_sessions a)
    (engine_calls a) (files a) v.

(** Two states agree on the sequence tracker of the sessions, on the
    settings and on the engine. *)
Definition same_tracker (a a' : t) : Prop :=
  session_NextSenderSeqNum a' = session_NextSenderSeqNum a
  /\ session_NextExpSeqNum a' = session_NextExpSeqNum a
  /\ session_loggedon a' = session_loggedon a
  /\ session_logon_attempts a' = session_logon_attempts a
  /\ session_attempting_logon a' = session_attempting_logon a
  /\ session_settings a' = session_settings a
  /\ engine_sessions a' = engine_sessions a
  /\ engine_calls a' = engine_calls a
  /\ username a' = username a
  /\ password a' = password a
  /\ newpassword a' = newpassword a
  /\ dom (session_message_count a') = dom (session_message_count a).

Definition set_session_loggedon v (a : t) : t :=
  Make (sessions a) (session_settings a) (session_message_log a)
    (session_message_count a) (session_message_log_file a)
    (session_attempting_logon a) (session_logon_attempts a)
    (session_NextExpSeqNum a) (session_NextSenderSeqNum a)
    v (session_seqNum a)
    (username a) (password a) (newpassword a) (config_recon_int a)
    (message_queue a) (ignored_messages a) (engine_sessions a)
    (engine_calls a) (files a) (tick a).

Definition set_ignored_messages v (a : t) : t :=
  Make (sessions a) (session_settings a) (session_message_log a)
    (session_message_count a) (session_message_log_file a)
    (session_attempting_logon a) (session_logon_attempts a)
    (session_NextExpSeqNum a) (session_NextSenderSeqNum a)
    (session_loggedon a) (session_seqNum a)
    (username a) (password a) (newpassword a) (config_recon_int a)
    (message_queue a) v (engine_sessions a)
    (engine_calls a) (files a) (tick a).

Definition set_message_queue v (a : t) : t :=
  Make (sessions a) (session_settings a) (session_message_log a)
    (session_message_count a) (session_message_log_file a)
    (session_attempting_logon a) (session_logon_attempts a)
    (session_NextExpSeqNum a) (session_NextSenderSeqNum a)
    (session_loggedon a) (session_seqNum a)
    (username a) (password a) (newpassword a) (config_recon_int a)
    v (ignored_messages a) (engine_sessions a)
    (engine_calls a) (files a) (tick a).

(** Two states agree on the histories of the sessions and on their
    counters. *)
Definition same_history (a a' : t) : Prop :=
  session_message_log a' = session_message_log a
  /\ session_message_count a' = session_message_count a.

(** The history of a session is numbered by position: the entry at
    position [i] carries the history id [i], and the counter holds the
    last id given, -1 while the history is empty. *)
Definition history_numbered (a : t) (sessionID : string) : bool :=
  match session_message_log a !! sessionID,
        session_message_count a !! sessionID with
  | Some log, Some n =>
      (n =? Z.of_nat (length log) - 1)
      && forallb
           (fun p =>
              match id (snd p) with
              | Some i => i =? Z.of_nat (fst p)
              | None => false
              end)
           (combine (seq 0 (length log)) log)
  | _, _ => false
  end.

(** What a logging call may do to the history of a session: nothing;
    or the counter goes up by one and the entry with that id is appended,
    which fails after the counter when the session has no history. *)
Definition history_step (a a' : t) (sessionID : string) : Prop :=
  same_history a a'
  \/ exists n,
       session_message_count a !! sessionID = Some n
       /\ session_message_count a'
          = <[sessionID := n + 1]> (session_message_count a)
       /\ ((session_message_log a' = session_message_log a
            /\ session_message_log a !! sessionID = None)
           \/ exists log o,
                session_message_log a !! sessionID = Some log
                /\ session_message_log a'
                   = <[sessionID := (log ++ [o])%list]> (session_message_log a)
                /\ id o = Some (n + 1)).

(** A method: it reads and writes the application and may raise. *)
Definition M (A : Type) : Type := t -> Res A * t.

Definition ret {A : Type} (x : A) : M A := fun a => (Ok x, a).

Definition raise {A : Type} (e : exn) : M A := fun a => (Raise e, a).

Definition mbind {A B : Type} (c : M A) (k : A -> M B) : M B :=
  fun a =>
    match c a with
    | (Ok x, a') => k x a'
    | (Raise e, a') => (Raise e, a')
    end.

Definition lift {A : Type} (r : Res A) : M A := fun a => (r, a).

Definition get {A : Type} (f : t -> A) : M A := fun a => (Ok (f a), a).

Definition modify (f : t -> t) : M unit := fun a => (Ok tt, f a).

(** [d[k]], a [KeyError] on a missing key. *)
Definition item {V : Type} (d : gmap string V) (k : string) : Res V :=
  match d !! k with
  | Some v => Ok v
  | None => Raise KeyError
  end.

Notation "'let!' x ':=' c 'in' k" := (mbind c (fun x => k))
  (at level 10, x name, c at level 100, k at level 200).

(** [perf_counter()] is read in milliseconds. *)
Definition ticks_per_second : Z := 1000.


(** [int(timeout) if timeout != INVALID else DEFAULT_LOGOUT_TIMEOUT]. *)
Definition logout_threshhold (timeout : string) : Res Z :=
  if String.eqb timeout INVALID then Ok DEFAULT_LOGOUT_TIMEOUT
  else PyStr.int timeout.

Definition hex_digit (n : N) : ascii :=
  if (n <? 10)%N then ascii_of_N (48 + n) else ascii_of_N (87 + n).

(** [f"{ord(char):02x}"]. *)
Definition hex2 (c : ascii) : string :=
  let n := N_of_ascii c in
  String (hex_digit (n / 16)) (String (hex_digit (n mod 16)) "").

(** [char in string.printable or char in string.whitespace]. *)
Definition printable (c : ascii) : bool :=
  let n := N_of_ascii c in
  (((32 <=? n) && (n <=? 126)) || ((9 <=? n) && (n <=? 13)))%N.

Section Methods.

Variable E : Env.

(** Session creation ([_initialize_session]) copies the engine's settings
    object and creates the log file; it is taken as given.  It only runs
    for a session that has no message counter yet. *)
Variable _initialize_session : string -> M unit.

Definition next_tick : M nat :=
  fun a => (Ok (tick a), set_tick (S (tick a)) a).

Definition gen_timestamp : M string :=
  let! n := next_tick in ret (gen_timestamp_at E n).

Definition gen_uuid : M string :=
  let! n := next_tick in ret (gen_uuid_at E n).

Definition perf_counter : M Z :=
  let! n := next_tick in ret (perf_counter_at E n).

(** [sessionID.toString()], where [sessionID] may be [None]. *)
Definition toString_of (sessionID : option string) : M string :=
  match sessionID with
  | Some sid => ret sid
  | None => raise AttributeError
  end.

Definition _get_sessionID (session_num : string) : M (option string) :=
  get (fun a => sessions a !! session_num).

(** The sessions are visited in key order; session numbers map to
    distinct session ids. *)
Definition _get_session_num (sessionID : option string) : M string :=
  fun a =>
    match map_to_list (sessions a) with
    | [] => (Ok UNKNOWN, a)
    | l =>
        match sessionID with
        | None => (Raise AttributeError, a)
        | Some sid =>
            match List.find (fun p => String.eqb sid (snd p)) l with
            | Some p => (Ok (fst p), a)
            | None => (Ok UNKNOWN, a)
            end
        end
    end.

Definition get_session_config (key session_num : string) : M string :=
  let! sessionID := _get_sessionID session_num in
  let! sid := toString_of sessionID in
  get (fun a =>
         match session_settings a !! sid with
         | Some d => default INVALID (d !! key)
         | None => INVALID
         end).

(** [setString] for a [str], [setInt] for an [int]; a missing settings
    dictionary is a swallowed [KeyError]. *)
Definition set_session_config (key : string) (value : pyval)
    (session_num : string) : M unit :=
  let! sessionID := _get_sessionID session_num in
  let! sid := toString_of sessionID in
  modify (fun a =>
            match session_settings a !! sid with
            | Some d =>
                set_session_settings
                  (<[sid := <[key := PyStr.format value]> d]>
                     (session_settings a)) a
            | None => a
            end).

(** [fix.Session.lookupSession(sessionID)], then a method call on the
    result: [None] has no methods. *)
Definition lookupSession (sessionID : option string) : M string :=
  match sessionID with
  | None => raise TypeError
  | Some sid =>
      fun a =>
        match engine_sessions a !! sid with
        | Some _ => (Ok sid, a)
        | None => (Raise AttributeError, a)
        end
  end.

Definition engine_do (c : engine_call) : M unit :=
  modify (fun a => set_engine_calls (engine_calls a ++ [c])%list a).

Definition isLoggedOn (session_num : string) : M bool :=
  let! sessionID := _get_sessionID session_num in
  let! _ := lookupSession sessionID in
  let! n := next_tick in
  ret (isLoggedOn_at E n).

(** [logout] up to the polling loop: [None] for the early return,
    otherwise the threshold in seconds. *)
Definition logout_begin (session_num : string) : M (option Z) :=
  let! sessionID := _get_sessionID session_num in
  let! num := _get_session_num sessionID in
  let! _ := set_session_config RECONNECT_INTERVAL (PInt MANUAL_RECON_INT) num in
  let! sid := toString_of sessionID in
  let! attempting := fun a => (item (session_attempting_logon a) sid, a) in
  if attempting : bool then ret None
  else
    let! s := lookupSession sessionID in
    let! _ := engine_do (CallLogout s) in
    let! timeout := get_session_config LOGOUT_TIMEOUT session_num in
    let! threshhold := lift (logout_threshhold timeout) in
    ret (Some threshhold).

(** [while self.isLoggedOn(session_num) is True]; one unit of [fuel] per
    [time.sleep(POLL_TIME)]. *)
Fixpoint logout_loop (fuel : nat) (session_num : string)
    (starttime threshhold : Z) (a : t) : option (Res unit * t) :=
  match isLoggedOn session_num a with
  | (Raise e, a) => Some (Raise e, a)
  | (Ok false, a) => Some (Ok tt, a)
  | (Ok true, a) =>
      match perf_counter a with
      | (Raise e, a) => Some (Raise e, a)
      | (Ok now, a) =>
          if threshhold * ticks_per_second <? now - starttime
          then Some (Ok tt, a)
          else
            match fuel with
            | O => None
            | S fuel' => logout_loop fuel' session_num starttime threshhold a
            end
      end
  end.

Definition logout (fuel : nat) (session_num : string) (a : t)
  : option (Res unit * t) :=
  match logout_begin session_num a with
  | (Raise e, a) => Some (Raise e, a)
  | (Ok None, a) => Some (Ok tt, a)
  | (Ok (Some threshhold), a) =>
      match perf_counter a with
      | (Raise e, a) => Some (Raise e, a)
      | (Ok starttime, a) =>
          logout_loop fuel session_num starttime threshhold a
      end
  end.

Fixpoint encode_chars (message : string) : string :=
  match message with
  | "" => ""
  | String c rest =>
      (if printable c then String c ""
       else if Ascii.eqb c SOH_BIN || Ascii.eqb c (SOH_UNI E) then String c ""
       else "\0x" +:+ hex2 c) +:+ encode_chars rest
  end.

Definition msg_encode_binary_chars (message : string) : string :=
  encode_chars message.

(** [msg_to_str(message)] with [binary=False]. *)
Definition msg_to_str (message : message_ref) : string :=
  let message :=
    match message with
    | AsMessage m => toString E m
    | AsStr s => s
    end in
  msg_encode_binary_chars (PyStr.replace_char SOH_BIN (SOH_UNI E) message).

Definition _log_to_file (sessionID : string) (o : msg_obj) : M msg_obj :=
  let! now := gen_timestamp in
  let o := MsgObj now (uuid o) (state o) (route o) (type o) (msg o)
                  (notes o) (id o) in
  let! log_file := fun a => (item (session_message_log_file a) sessionID, a) in
  let! _ :=
    modify (fun a =>
              if can_append E log_file
              then set_files
                     (<[log_file := (default [] (files a !! log_file) ++ [row o])%list]>
                        (files a)) a
              else a) in
  ret o.

Definition _gen_HistoryID (sessionID : string) : M Z :=
  let! n := fun a => (item (session_message_count a) sessionID, a) in
  let! _ :=
    modify (fun a =>
              set_session_message_count
                (<[sessionID := n + 1]> (session_message_count a)) a) in
  ret (n + 1).

(** [msg_route[:-2]]. *)
Definition drop_last2 (s : string) : string :=
  String.substring 0 (String.length s - 2) s.

(** [Utils.bytes_to_ascii] on the [bytes] of a queued item: only an
    [AttributeError] is caught there, the [UnicodeDecodeError] of a
    malformed escape goes up. *)
Definition bytes_to_ascii_queued (item0 : string) : M string :=
  match unicode_escape E item0 with
  | Some decoded => ret decoded
  | None => raise UnicodeDecodeError
  end.

(** The interception step of [_log_message]: with a queued item the
    original is written as INTERCEPTED and the dictionary is turned into
    the entry of the replacement; with an empty queue nothing happens. *)
Definition intercept (sessionID : string) (message : message_ref)
    (o : msg_obj) : M (message_ref * msg_obj) :=
  let! queue := get message_queue in
  match queue with
  | [] => ret (message, o)
  | item0 :: _ =>
      let! decoded := bytes_to_ascii_queued item0 in
      let message := AsStr decoded in
      let o := MsgObj (time o) (uuid o) "INTERCEPTED" (route o) (type o)
                      (msg o) (notes o) (id o) in
      let! o := _log_to_file sessionID o in
      let o := MsgObj (time o) (uuid o) (state o) (route o) (type o)
                      (Utils.bytes_to_ascii (msg_to_str message))
                      (notes o) (id o) in
      let o := MsgObj (time o) (uuid o) "SENT" (route o) (type o) (msg o)
                      (notes o) (id o) in
      let o := MsgObj (time o) (uuid o) (state o) (route o) (type o) (msg o)
                      ("Modified version of " +:+ uuid o) (id o) in
      let! u := gen_uuid in
      let o := MsgObj (time o) u (state o) (route o) (type o) (msg o)
                      (notes o) (id o) in
      ret (message, o)
  end.

(** The look-up of TestReqID (112) at the end of [_log_message]. *)
Definition test_req_lookup (message : message_ref) : Res string :=
  match message with
  | AsStr s => Utils.msg_str_get_field (SOH_UNI E) s (PInt tag_TestReqID)
  | AsMessage m => getField tag_TestReqID m
  end.

(** The end of [_log_message]: the entry gets its history id and is
    appended to the session log. *)
Definition record_entry (sessionID : string) (o : msg_obj) : M unit :=
  let! i := _gen_HistoryID sessionID in
  let o := MsgObj (time o) (uuid o) (state o) (route o) (type o)
                  (msg o) (notes o) (Some i) in
  let! log := fun a => (item (session_message_log a) sessionID, a) in
  modify (fun a =>
            set_session_message_log
              (<[sessionID := (log ++ [o])%list]> (session_message_log a)) a).

(** The TestReqID check: a message without the field is skipped when
    its type is an ignored one; any other error of the look-up goes
    up. *)
Definition append_history (msg_type : string) (message : message_ref)
    (sessionID : string) (o : msg_obj) : M unit :=
  fun a =>
    match test_req_lookup message with
    | Raise FieldNotFound =>
        if MessageStore.str_in msg_type (ignored_messages a) then (Ok tt, a)
        else record_entry sessionID o a
    | Raise e => (Raise e, a)
    | Ok _ => record_entry sessionID o a
    end.

Definition _log_message (msg_route : string) (message : Message)
    (sessionID : string) : M unit :=
  let! count := get session_message_count in
  let! _ :=
    match count !! sessionID with
    | None => _initialize_session sessionID
    | Some _ => ret tt
    end in
  let! session_num := _get_session_num (Some sessionID) in
  let msg_type := fst (get_message_type E message) in
  let msg_type_name := snd (get_message_type E message) in
  let msg_type_name_c := colour E msg_type_name in
  let! s := lookupSession (Some sessionID) in
  let! seqNum := fun a => (item (engine_sessions a) s, a) in
  let! _ :=
    modify (fun a => set_session_seqNum (<[sessionID := seqNum]> (session_seqNum a)) a) in
  let! now := gen_timestamp in
  let! u := gen_uuid in
  let o := MsgObj now u "SENT" (drop_last2 msg_route)
                  (msg_type +:+ " (" +:+ msg_type_name +:+ ")")
                  (msg_to_str (AsMessage message)) "" None in
  let! mo := intercept sessionID (AsMessage message) o in
  let message := fst mo in
  let! o := _log_to_file sessionID (snd mo) in
  let o := MsgObj (time o) (uuid o) (state o) (route o)
                  (msg_type +:+ " (" +:+ msg_type_name_c +:+ ")")
                  (msg o) (notes o) (id o) in
  append_history msg_type message sessionID o.

(** Truth value of an override, [None] or the [int] that [fromAdmin]
    has recorded: [None] and [0] are false. *)
Definition truthy (v : option Z) : bool :=
  match v with
  | Some z => negb (z =? 0)
  | None => false
  end.

(** [v not in ["", None]]. *)
Definition not_blank (v : option string) : bool :=
  match v with
  | Some s => negb (String.eqb s "")
  | None => false
  end.

(** [self.session_settings[sessionID].getString(key)] under
    [except fix.ConfigError]: [None] for the swallowed error. *)
Definition try_getString (sessionID key : string) : M (option string) :=
  let! d := fun a => (item (session_settings a) sessionID, a) in
  ret (d !! key).

(** "if username and password found, insert into the logon message". *)
Definition set_credentials (message : Message) : M Message :=
  let! u := get username in
  let message :=
    if not_blank u then setField tag_Username (default "" u) message
    else message in
  let! p := get password in
  let message :=
    if not_blank p then setField tag_Password (default "" p) message
    else message in
  let! np := get newpassword in
  let message :=
    if not_blank np then setField tag_NewPassword (default "" np) message
    else message in
  ret message.

(** "Correct Sequence Number if required". *)
Definition correct_sender_seq (sessionID : string) (message : Message)
  : M Message :=
  let! sender := fun a => (item (session_NextSenderSeqNum a) sessionID, a) in
  if truthy sender then
    let v := default 0 sender in
    let! s := lookupSession (Some sessionID) in
    let! _ := engine_do (CallSetNextSenderMsgSeqNum s v) in
    let! _ :=
      modify (fun a => set_engine_sessions (<[s := v]> (engine_sessions a)) a) in
    let! _ :=
      modify (fun a =>
                set_session_NextSenderSeqNum
                  (<[sessionID := None]> (session_NextSenderSeqNum a)) a) in
    ret (setHeaderField tag_MsgSeqNum (PyStr.str v) message)
  else ret message.

(** "Correct next expected seq number if required"; "If the session is
    logged on, clear this field - only needed once". *)
Definition correct_expected_seq (sessionID : string) (message : Message)
  : M Message :=
  let! expected := fun a => (item (session_NextExpSeqNum a) sessionID, a) in
  if truthy expected then
    let v := default 0 expected in
    let message := setField tag_NextExpectedMsgSeqNum (PyStr.str v) message in
    let! loggedon := fun a => (item (session_loggedon a) sessionID, a) in
    if loggedon : bool then
      let! _ :=
        modify (fun a =>
                  set_session_NextExpSeqNum
                    (<[sessionID := None]> (session_NextExpSeqNum a)) a) in
      ret (removeField tag_NextExpectedMsgSeqNum message)
    else ret message
  else ret message.

(** DefaultApplExtID, TargetSubID and SenderLocationID, "if present in
    config". *)
Definition set_configured_fields (sessionID : string) (message : Message)
  : M Message :=
  let! ext := try_getString sessionID "DefaultApplExtID" in
  let! message :=
    match ext with
    | Some v =>
        let! z := lift (PyStr.int v) in
        ret (setField tag_DefaultApplExtID (PyStr.str z) message)
    | None => ret message
    end in
  let! sub := try_getString sessionID "TargetSubID" in
  let message :=
    match sub with
    | Some v => setHeaderField tag_TargetSubID v message
    | None => message
    end in
  let! loc := try_getString sessionID "SenderLocationID" in
  let message :=
    match loc with
    | Some v => setHeaderField tag_SenderLocationID v message
    | None => message
    end in
  ret message.

(** The Logon branch of [toAdmin]: [None] when it returns early. *)
Definition toAdmin_logon (message : Message) (sessionID : string)
  : M (option Message) :=
  let! _ :=
    modify (fun a =>
              set_session_attempting_logon
                (<[sessionID := true]> (session_attempting_logon a)) a) in
  let! n := fun a => (item (session_logon_attempts a) sessionID, a) in
  let! _ :=
    modify (fun a =>
              set_session_logon_attempts
                (<[sessionID := n + 1]> (session_logon_attempts a)) a) in
  if 5 <=? n + 1 then
    let! s := lookupSession (Some sessionID) in
    let! _ := engine_do (CallLogout s) in
    ret None
  else
    let! message := set_credentials message in
    let! message := correct_sender_seq sessionID message in
    let! message := correct_expected_seq sessionID message in
    let! message := set_configured_fields sessionID message in
    ret (Some message).

(** [toAdmin]; the result is the message object as the engine gets it
    back. *)
Definition toAdmin (message : Message) (sessionID : string) : M Message :=
  fun a =>
    match engine_sessions a !! sessionID with
    | None => (Ok message, a)
    | Some _ =>
        (let! r :=
           if String.eqb (fst (get_message_type E message)) MsgType_Logon
           then toAdmin_logon message sessionID
           else ret (Some message) in
         match r with
         | None => ret message
         | Some message =>
             let! _ := _log_message ADM_O message sessionID in
             ret message
         end) a
    end.

(** One of the two checks of the Text field in [fromAdmin]. *)
Definition expecting (pattern text : string) : Res (option Z) :=
  match re_search_group2 E pattern text with
  | Some g =>
      let* n := PyStr.int g in
      Ok (Some (n + 2))
  | None => Ok None
  end.

Definition fromAdmin (message : Message) (sessionID : string) : M unit :=
  let! _ := _log_message ADM_I message sessionID in
  match getField tag_Text message with
  | Raise _ => ret tt
  | Ok text =>
      let! r := lift (expecting r_MsgseqNum text) in
      let! _ :=
        match r with
        | Some v =>
            modify (fun a =>
                      set_session_NextSenderSeqNum
                        (<[sessionID := Some v]> (session_NextSenderSeqNum a)) a)
        | None => ret tt
        end in
      let! r := lift (expecting r_NextExpectedMsgSeqNum text) in
      match r with
      | Some v =>
          modify (fun a =>
                    set_session_NextExpSeqNum
                      (<[sessionID := Some v]> (session_NextExpSeqNum a)) a)
      | None => ret tt
      end
  end.

(** The slice [l[start:]]. *)
Definition slice_from {A : Type} (start : Z) (l : list A) : list A :=
  let n := Z.of_nat (length l) in
  let i := if start <? 0 then Z.max (n + start) 0 else Z.min start n in
  drop (Z.to_nat i) l.

(** [re.search(pattern, text, re.IGNORECASE)] as a truth value. *)
Definition search (pattern text : string) : Res bool :=
  match re_search E pattern text with
  | Some found => Ok found
  | None => Raise ReError
  end.

(** The condition of the list comprehension in
    [get_session_message_log]: the second search is made only when the
    first one finds nothing. *)
Definition log_filter (filter : string) (m : msg_obj) : Res bool :=
  let* found := search (".*" +:+ filter +:+ ".*") (msg m) in
  if found then Ok true
  else search (".*" +:+ filter +:+ ".*")
         (snd (get_message_type_str E (msg m))).

(** The list comprehension itself: the entries are tested in their
    order, and the first error ends it. *)
Fixpoint filter_messages (filter : string) (messages : list msg_obj)
  : Res (list msg_obj) :=
  match messages with
  | [] => Ok []
  | m :: rest =>
      let* keep := log_filter filter m in
      let* kept := filter_messages filter rest in
      Ok (if keep then m :: kept else kept)
  end.

Definition get_session_message_log (session_num filter : string)
    (depth : Z) : M (list msg_obj) :=
  let! sessionID := _get_sessionID session_num in
  let! sid := toString_of sessionID in
  let! messages := fun a => (item (session_message_log a) sid, a) in
  let! filtered_messages := lift (filter_messages filter messages) in
  ret (slice_from (- depth) filtered_messages).

(** [onCreate]: the session is initialized and the engine told to log
    out, so that it does not log on by itself. *)
Definition onCreate (sessionID : string) : M unit :=
  let! _ := _initialize_session sessionID in
  let! s := lookupSession (Some sessionID) in
  engine_do (CallLogout s).

Definition onLogon (sessionID : string) : M unit :=
  let! _ :=
    modify (fun a =>
              set_session_loggedon (<[sessionID := true]> (session_loggedon a)) a) in
  modify (fun a =>
            set_session_logon_attempts
              (<[sessionID := 0]> (session_logon_attempts a)) a).

Definition onLogout (sessionID : string) : M unit :=
  let! attempting := fun a => (item (session_attempting_logon a) sessionID, a) in
  if attempting : bool then ret tt
  else
    modify (fun a =>
              set_session_loggedon (<[sessionID := false]> (session_loggedon a)) a).

(** [toApp] and [fromApp]: the message is logged, nothing else. *)
Definition toApp (message : Message) (sessionID : string) : M unit :=
  _log_message APP_O message sessionID.

Definition fromApp (message : Message) (sessionID : string) : M unit :=
  _log_message APP_I message sessionID.

(** The threshold of [logon], in seconds: the reconnect interval plus
    the logon timeout, each with its default when not configured. *)
Definition logon_threshhold (interval timeout : string) : Res Z :=
  let* i :=
    if String.eqb interval INVALID then Ok DEFAULT_RECONNECT_INTERVAL
    else PyStr.int_literal interval in
  let* t :=
    if String.eqb timeout INVALID then Ok DEFAULT_LOGON_TIMEOUT
    else PyStr.int_literal timeout in
  Ok (i + t).

(** [logon] up to the polling loop: [None] for the early return on a
    session that is logged on, otherwise the session id, the start time
    and the threshold. *)
Definition logon_begin (session_num : string) : M (option (string * Z * Z)) :=
  let! sessionID := _get_sessionID session_num in
  let! loggedon := isLoggedOn session_num in
  if loggedon : bool then ret None
  else
    let! sid := toString_of sessionID in
    let! s := lookupSession sessionID in
    let! _ := engine_do (CallLogon s) in
    let! starttime := perf_counter in
    let! _ :=
      modify (fun a =>
                set_session_attempting_logon
                  (<[sid := true]> (session_attempting_logon a)) a) in
    let! interval := get_session_config RECONNECT_INTERVAL session_num in
    let! timeout := get_session_config LOGON_TIMEOUT session_num in
    let! threshhold := lift (logon_threshhold interval timeout) in
    ret (Some (sid, starttime, threshhold)).

(** [while self.isLoggedOn(session_num) is False]; one unit of [fuel]
    per [time.sleep(POLL_TIME)].  Past the threshold the engine is told
    to log out, "to kill engine auth loop". *)
Fixpoint logon_loop (fuel : nat) (session_num sid : string)
    (starttime threshhold : Z) (a : t) : option (Res unit * t) :=
  match isLoggedOn session_num a with
  | (Raise e, a) => Some (Raise e, a)
  | (Ok true, a) => Some (Ok tt, a)
  | (Ok false, a) =>
      match perf_counter a with
      | (Raise e, a) => Some (Raise e, a)
      | (Ok now, a) =>
          if threshhold * ticks_per_second <? now - starttime
          then Some ((let! s := lookupSession (Some sid) in
                      engine_do (CallLogout s)) a)
          else
            match fuel with
            | O => None
            | S fuel' => logon_loop fuel' session_num sid starttime threshhold a
            end
      end
  end.

(** The end of [logon]: "Revert reconnect interval to original value". *)
Definition logon_end (session_num sid : string) : M unit :=
  let! recon := get config_recon_int in
  let! _ := set_session_config RECONNECT_INTERVAL (PInt recon) session_num in
  modify (fun a =>
            set_session_attempting_logon
              (<[sid := false]> (session_attempting_logon a)) a).

Definition logon (fuel : nat) (session_num : string) (a : t)
  : option (Res unit * t) :=
  match logon_begin session_num a with
  | (Raise e, a) => Some (Raise e, a)
  | (Ok None, a) => Some (Ok tt, a)
  | (Ok (Some (sid, starttime, threshhold)), a) =>
      match logon_loop fuel session_num sid starttime threshhold a with
      | None => None
      | Some (Raise e, a) => Some (Raise e, a)
      | Some (Ok _, a) => Some (logon_end session_num sid a)
      end
  end.

(** [has_session]. *)
Definition has_session (session_num : string) : M bool :=
  let! sessionID := _get_sessionID session_num in
  ret (bool_decide (is_Some sessionID)).

(** [get_next_seq_num]: the engine's expected sender number. *)
Definition get_next_seq_num (session_num : string) : M Z :=
  let! sessionID := _get_sessionID session_num in
  let! s := lookupSession sessionID in
  fun a => (item (engine_sessions a) s, a).

End Methods.

End App.

(** ** fixit/core/commands/message/message_fuzz.py *)

Module Fuzz.

(** The values of one row of the fuzz CSV file. *)
Record fuzz_row : Type := Row {
  index : Z;
  payload : string;
  message : string;
  response : string
}.

Section Fuzz.

Variable E : App.Env.

(** The application as the foreground thread finds it at its [k]-th
    poll: the engine's callback thread appends to the session log in
    between. *)
Variable observe : nat -> App.t.

Definition _valid_field (field : string) : Res bool :=
  let* f := PyStr.int field in
  Ok (negb (existsb (Z.eqb f) [8; 49; 56; 52])).

(** The loop of [_generate_fuzz_data] over [range(n)]. *)
Fixpoint generate_loop (vals : list nat) (values_list : list string)
  : list string :=
  match vals with
  | [] => values_list
  | _val :: rest =>
      generate_loop rest
        (if MessageStore.str_in (PyStr.chr _val)
              [String (App.SOH_UNI E) ""; String SOH_BIN "";
               String DELIM_UNI ""; String DELIM_BIN ""]
         then values_list
         else (values_list ++ [PyStr.chr _val])%list)
  end.

Definition _generate_fuzz_data (n : nat) : list string :=
  generate_loop (seq 0 n) [].

(** The payload set when no dictionary file is given. *)
Definition default_fuzz_dict : list string := _generate_fuzz_data 100.

(** The message sent for one payload. *)
Definition mutate (msg_str_orig : string) (field : string) (_val : string)
    (sending_time : string) : Res string :=
  let* f := PyStr.int field in
  let message :=
    Utils.msg_str_set_field (App.SOH_UNI E) msg_str_orig (PInt f)
      (PStr TARGET_FLAG) in
  let message :=
    Utils.msg_str_set_field (App.SOH_UNI E) message (PInt 52)
      (PStr sending_time) in
  Ok (PyStr.replace TARGET_FLAG (Utils.bytes_to_ascii _val) message).

(** [get_session_message_log(session_num, depth=1)[0]["msg"]] at the
    [k]-th poll. *)
Definition last_message (session_num : string) (k : nat) : Res string :=
  match fst (App.get_session_message_log E session_num ".*" 1 (observe k)) with
  | Raise e => Raise e
  | Ok [] => Raise IndexError
  | Ok (m :: _) => Ok (App.msg m)
  end.

(** The loop [while attempts < 10] with [attempts] and [response] as
    they stand; one unit of [fuel] per [time.sleep].  The body never
    assigns [attempts]. *)
Fixpoint await_response (fuel : nat) (attempts : Z) (response : string)
    (session_num sending_time : string) (k : nat) : option (Res string) :=
  if attempts <? 10 then
    match last_message session_num k with
    | Raise e => Some (Raise e)
    | Ok last =>
        if negb (PyStr.contains sending_time last) then Some (Ok last)
        else
          match fuel with
          | O => None
          | S fuel' =>
              await_response fuel' attempts response session_num
                sending_time (S k)
          end
    end
  else Some (Ok response).

(** What follows the transmission of one mutated message: the wait for
    the response and the row appended to the CSV file. *)
Definition record_response (fuel : nat) (counter : Z)
    (_val message session_num sending_time : string) (k : nat)
  : option (Res fuzz_row) :=
  match await_response fuel 0 "" session_num sending_time k with
  | None => None
  | Some (Raise e) => Some (Raise e)
  | Some (Ok response) => Some (Ok (Row counter _val message response))
  end.

End Fuzz.

End Fuzz.

(** ** fixit/core/fixit_client.py *)

Module FixitClient.

(** The attributes [FixitClient] adds to the application it extends. *)
Record t : Type := Make {
  base : App.t;
  prompting : bool;
  log_heartbeat : bool
}.

Definition set_prompting (value : bool) (self : t) : t :=
  Make (base self) value (log_heartbeat self).

(** [set_log_heartbeat], called with [True] or [False]: the Heartbeat
    type is put on the list of ignored types or taken off it. *)
Definition set_log_heartbeat (value : bool) (self : t) : Res t :=
  let ignored := App.ignored_messages (base self) in
  let* ignored :=
    if negb value then
      if negb (MessageStore.str_in MsgType_Heartbeat ignored)
      then Ok (ignored ++ [MsgType_Heartbeat])%list
      else Ok ignored
    else
      if MessageStore.str_in MsgType_Heartbeat ignored
      then PyList.remove String.eqb MsgType_Heartbeat ignored
      else Ok ignored in
  Ok (Make (App.set_ignored_messages ignored (base self)) (prompting self) value).

Section Client.

Variable E : App.Env.

(** [msg_to_str] with both values of [binary]. *)
Definition msg_to_str (message : App.message_ref) (binary : bool) : string :=
  if binary then
    PyStr.replace_char (App.SOH_UNI E) SOH_BIN
      match message with
      | App.AsMessage m => App.toString E m
      | App.AsStr s => s
      end
  else App.msg_to_str E message.

(** [msg_to_list] on a raw string: the fields, each split at its first
    equals sign. *)
Definition msg_to_list (message : string) : list (list string) :=
  let SOH := Utils.detect_SOH (App.SOH_UNI E) message in
  map (PyStr.split1 "=") (PyStr.split SOH message).

(** The block [if clean_up:] of [send_raw_data]: sequence number, body
    length and checksum are brought up to date, in this order. *)
Definition clean_up (data : string) (nextSeqNum : Z) : Res string :=
  let data :=
    Utils.msg_str_set_field (App.SOH_UNI E) (Utils.bytes_to_ascii data)
      (PStr "34") (PInt nextSeqNum) in
  let data :=
    Utils.msg_str_set_field (App.SOH_UNI E) data (PStr "9")
      (PInt (Utils.msg_str_calc_length (App.SOH_UNI E) data)) in
  let* chksum := Utils.msg_str_calc_chksum (App.SOH_UNI E) data in
  Ok (Utils.msg_str_set_field (App.SOH_UNI E) data (PStr "10") (PStr chksum)).

End Client.

(** *** Expanding a message into its fields *)

(** What a method of this part raises: a built-in exception or
    [InvalidMsgSpecError]. *)
Inductive error : Type :=
  | Builtin (e : exn)
  | InvalidMsgSpecError.

Inductive Outcome (A : Type) : Type :=
  | Returns (a : A)
  | Raises (e : error).

Arguments Returns {A} a.
Arguments Raises {A} e.

Definition lift {A : Type} (r : Res A) : Outcome A :=
  match r with
  | Ok a => Returns a
  | Raise e => Raises (Builtin e)
  end.

(** One row of [msg_expand]. *)
Record field_details : Type := MkDetails {
  field_num : string;
  field_name : string;
  field_val : string
}.

Section Expand.

Variable E : App.Env.

(** [self.msg_data_dict]: the specifications loaded, each one standing
    for its [isMsgType]. *)
Variable msg_data_dict : gmap string (string -> bool).

(** [self.msg_field_dict]: per specification, per field number or field
    name, the attributes recorded. *)
Variable msg_field_dict : gmap string (gmap string (gmap string string)).

(** The first loop of [_get_message_spec_dict]: the value of the first
    field that starts with [35=], as [field.split("=")[1]]. *)
Fixpoint find_msg_type (fields : list string) : Res string :=
  match fields with
  | [] => Ok UNKNOWN
  | field :: rest =>
      if PyStr.startswith "35=" field
      then PyList.item 1 (PyStr.split "=" field)
      else find_msg_type rest
  end.

(** Its second loop, over the specification names in the order of the
    source; [None] when no specification knows the type. *)
Fixpoint find_spec (msg_type : string) (specs : list string)
  : Res (option (string * (string -> bool))) :=
  match specs with
  | [] => Ok None
  | spec_str :: rest =>
      match (msg_data_dict !! spec_str : option (string -> bool)) with
      | None => Raise KeyError
      | Some data_dictionary =>
          if data_dictionary msg_type then Ok (Some (spec_str, data_dictionary))
          else find_spec msg_type rest
      end
  end.

(** [_get_message_spec_dict_from_bs] on a [str]. *)
Definition _get_message_spec_dict_from_bs (message : string)
  : Outcome (string * (string -> bool)) :=
  let message := PyStr.replace (String "010" "") "" message in
  let message :=
    if PyStr.contains (String (App.SOH_UNI E) "") message
    then PyStr.replace_char (App.SOH_UNI E) SOH_BIN message
    else message in
  match PyList.item 0 (PyStr.split SOH_BIN message) with
  | Raise e => Raises (Builtin e)
  | Ok first =>
      let spec := PyStr.from_index 2 first in
      let spec_str := PyStr.replace "." "" spec in
      match (msg_data_dict !! spec_str : option (string -> bool)) with
      | Some data_dictionary => Returns (spec_str, data_dictionary)
      | None => Raises InvalidMsgSpecError
      end
  end.

(** [_get_message_spec_dict] on a [str]. *)
Definition _get_message_spec_dict (message : string)
  : Outcome (string * (string -> bool)) :=
  let message := PyStr.replace (String "010" "") "" message in
  match find_msg_type
          (PyStr.split (App.SOH_UNI E)
             (PyStr.replace_char SOH_BIN (App.SOH_UNI E) message)) with
  | Raise e => Raises (Builtin e)
  | Ok msg_type =>
      match find_spec msg_type
              ["FIXT11"; "FIX50"; "FIX44"; "FIX43"; "FIX42"; "FIX41"; "FIX40"] with
      | Raise e => Raises (Builtin e)
      | Ok (Some found) => Returns found
      | Ok None => _get_message_spec_dict_from_bs message
      end
  end.

(** [self.msg_field_dict[spec][field_num]["name"]], [UNKNOWN] on a
    [KeyError]. *)
Definition lookup_field_name (spec field_num : string) : string :=
  match msg_field_dict !! spec with
  | None => UNKNOWN
  | Some fields =>
      match fields !! field_num with
      | None => UNKNOWN
      | Some attributes => default UNKNOWN (attributes !! "name")
      end
  end.

(** [_get_field_details].  The lookup of the field type that precedes
    the lookup of the name has no effect on the result.  A field of more
    than two parts cannot be unpacked. *)
Fixpoint _get_field_details (message_fields : list (list string)) (spec : string)
  : Res (list field_details) :=
  match message_fields with
  | [] => Ok []
  | field :: rest =>
      match field with
      | [] | [_] => _get_field_details rest spec
      | [num; val] =>
          let* msg_details := _get_field_details rest spec in
          Ok (MkDetails num (lookup_field_name spec num) val :: msg_details)
      | _ => Raise ValueError
      end
  end.

(** [_msg_expand] on a [str]. *)
Definition _msg_expand (message : string) (data_dict : option string)
  : Res (list field_details) :=
  let spec_field_dict :=
    match data_dict with
    | None =>
        match _get_message_spec_dict message with
        | Returns found => Returns (fst found)
        | Raises e => Raises e
        end
    | Some d => Returns d
    end in
  match spec_field_dict with
  | Raises InvalidMsgSpecError => Ok []
  | Raises (Builtin e) => Raise e
  | Returns spec => _get_field_details (msg_to_list E message) spec
  end.

(** [msg_expand] with [output=False], its default: nothing is printed. *)
Definition msg_expand (message : string) (data_dict : option string)
  : Res (list field_details) :=
  _msg_expand message data_dict.

End Expand.

End FixitClient.

(** ** fixit/core/commands/message/message_send.py *)

Module Send.

Section Send.

(** The current value of [SOH_UNI['value']]. *)
Variable SOH_UNI : ascii.

(** [_send_raw_message] up to its call of [send_raw_data]: the result is
    the message handed over.  [now] is what [Utils.gen_timestamp()]
    returns and [next_seq] what [get_next_seq_num] returns, should they
    be asked for. *)
Definition _send_raw_message (message : string) (modifier : list string)
    (now : string) (next_seq : Z) : Res string :=
  let message :=
    if negb (MessageStore.str_in "-UT" modifier)
    then Utils.msg_str_set_field SOH_UNI message (PInt 52) (PStr now)
    else message in
  let message :=
    if negb (MessageStore.str_in "-US" modifier)
    then Utils.msg_str_set_field SOH_UNI message (PInt 34)
           (PStr (PyStr.str next_seq))
    else message in
  let message :=
    if negb (MessageStore.str_in "-UL" modifier)
    then Utils.msg_str_set_field SOH_UNI message (PInt 9)
           (PStr (PyStr.str (Utils.msg_str_calc_length SOH_UNI message)))
    else message in
  if negb (MessageStore.str_in "-UC" modifier) then
    let* chksum := Utils.msg_str_calc_chksum SOH_UNI message in
    Ok (Utils.msg_str_set_field SOH_UNI message (PInt 10) (PStr chksum))
  else Ok message.

End Send.

End Send.

(** ** fixit/core/commands/message/message_edit.py *)

Module Edit.

Section Edit.

Variable E : App.Env.
Variable msg_data_dict : gmap string (string -> bool).
Variable msg_field_dict : gmap string (gmap string (gmap string string)).

(** What is typed at the [k]-th prompt, and what the editor opened at
    the [k]-th interaction gives back ([None]: left without saving). *)
Variable prompt : nat -> string.
Variable click_edit : nat -> string -> option string.



(** The loop of [_expand_message]. *)
Fixpoint expand_rows (message_fields : list FixitClient.field_details)
    (field_str : string) : string :=
  match message_fields with
  | [] => field_str
  | field :: rest =>
      expand_rows rest
        (field_str +:+ FixitClient.field_num field +:+ "("
           +:+ FixitClient.field_name field +:+ ")="
           +:+ FixitClient.field_val field +:+ String "010" "")
  end.

Definition _expand_message (message : string) : Res (option string) :=
  let* message_fields :=
    FixitClient.msg_expand E msg_data_dict msg_field_dict message None in
  if (length message_fields =? 0)%nat then Ok None
  else Ok (Some (expand_rows message_fields "")).

(** How the loop of [_compress_message] ends: with the compressed
    message, or with the text to compress instead. *)
Inductive compress_end : Type :=
  | Compressed (messge_str : string) (k : nat)
  | Amend (new_message : string) (k : nat).

(** The loop of [_compress_message] over the rows of [message]; [k]
    counts the interactions so far. *)
Fixpoint compress_rows (message : string) (rows : list string)
    (messge_str : string) (k : nat) : compress_end :=
  match rows with
  | [] => Compressed messge_str k
  | row :: rest =>
      if (String.length (PyStr.strip row) =? 0)%nat
      then compress_rows message rest messge_str k
      else
        match PyStr.split1 "=" row with
        | [num; val] =>
            let num := List.hd "" (PyStr.split "(" num) in
            compress_rows message rest
              (messge_str +:+ num +:+ "=" +:+ val +:+ String (App.SOH_UNI E) "") k
        | _ =>
            let option := prompt k in
            let remove :=
              match option with
              | "" => false
              | String c _ => PyStr.startswith "R" (PyStr.upper (String c ""))
              end in
            if remove then compress_rows message rest messge_str (S k)
            else Amend (default message (click_edit k message)) (S k)
        end
  end.

(** [_compress_message]; [fuel] bounds the number of times the text is
    amended. *)
Fixpoint _compress_message (fuel : nat) (message : string) (k : nat)
  : option (string * nat) :=
  match fuel with
  | O => None
  | S fuel' =>
      match compress_rows message (PyStr.split "010" message) "" k with
      | Compressed messge_str k' => Some (messge_str, k')
      | Amend new_message k' => _compress_message fuel' new_message k'
      end
  end.

End Edit.

End Edit.

(** ** fixit/utils/writer.py *)

Module Writer.

(** [limit]; [columns] is the second number that [stty size] prints. *)
Definition limit (columns : Z) (text : string) (margin : Z) : string :=
  let width := columns - 3 - margin in
  if Z.of_nat (String.length text) <? width then text
  else
    String.substring 0
      (Z.to_nat (PyList.clamp (Z.of_nat (String.length text)) width)) text
    +:+ "...".

End Writer.

(** ** Reference definitions, written from the specification's wording *)

Module Spec.

(** Sum of the character codes of a string. *)
Definition codes_sum (s : string) : Z :=
  fold_right (fun c acc => PyStr.ord c + acc) 0 (list_ascii_of_string s).

(** The characters of a raw message that come before its first field with
    the given tag, delimiters included. *)
Fixpoint chars_before_field (tag : string) (delim : ascii)
    (fields : list string) : option string :=
  match fields with
  | [] => None
  | f :: fs =>
      if String.prefix tag f then Some ""
      else
        match chars_before_field tag delim fs with
        | Some r => Some (f +:+ String delim r)
        | None => None
        end
  end.

(** computeChecksum as worded: the byte values of all characters
    preceding the 10= field, summed, modulo 256, plus 1, zero-padded to
    three digits. *)
Definition computeChecksum (delim : ascii) (raw : string) : option string :=
  match chars_before_field "10=" delim (PyStr.split delim raw) with
  | Some pre => Some (PyStr.zfill 3 (PyStr.str (codes_sum pre mod 256 + 1)))
  | None => None
  end.

(** The printable range of character codes. *)
Definition printable_codes : list nat := seq 32 95.

(** The generated payload set as worded: every printable single
    character except the active delimiter, SOH and the equals sign. *)
Definition payloads (delim : ascii) : list string :=
  List.filter
    (fun s => negb (MessageStore.str_in s
                      [String delim ""; String SOH_BIN ""; String DELIM_UNI ""]))
    (map PyStr.chr printable_codes).

(** A store id: the prefix [<BeginString>:<MsgTypeName>-<MsgType>] and
    the qualifier. *)
Definition id_prefix (begin_string msg_type_name msg_type : string) : string :=
  begin_string +:+ ":" +:+ msg_type_name +:+ "-" +:+ msg_type.

Definition qualified (prefix : string) (q : Z) : string :=
  prefix +:+ ":" +:+ PyStr.str q.

(** The last [n] elements of a list, all of them when there are fewer. *)
Definition lastn {A : Type} (n : nat) (l : list A) : list A :=
  drop (length l - n)%nat l.

(** A character other than [sep]. *)
Definition differs (sep : ascii) (c : ascii) : bool := negb (Ascii.eqb c sep).

(** The rendering of a checksum value reads back as the value, has three
    characters and only digits. *)
Definition checksum_ok (v : Z) : bool :=
  let out := PyStr.zfill 3 (PyStr.str v) in
  match PyStr.int out with
  | Ok z =>
      (z =? v) && (String.length out =? 3)%nat
      && PyStr.all_chars PyStr.isdigit out
  | Raise _ => false
  end.

End Spec.

(** ** A concrete session, used to run the definitions *)

Module Example.

Definition sid : string := "FIX.4.2:CLIENT->SERVER".

Definition log_file : string :=
  "./logs/20240101-120000-FIX.4.2-CLIENT-SERVER.fixit.message.log".

(** The leading decimal digits of a string. *)
Fixpoint digits_prefix (s : string) : string :=
  match s with
  | "" => ""
  | String c s' => if PyStr.isdigit c then String c (digits_prefix s') else ""
  end.

(** The digits after the last "expecting " that has a digit after it. *)
Fixpoint last_expecting (s : string) : option string :=
  match s with
  | "" => None
  | String _ s' =>
      match last_expecting s' with
      | Some r => Some r
      | None =>
          if String.prefix "expecting " s then
            match digits_prefix (String.substring 10 (String.length s) s) with
            | "" => None
            | d => Some d
            end
          else None
      end
  end.

(** Group 2 of the two patterns of [fromAdmin] on a one-line text: the
    key word, later "expecting " and a number. *)
Definition search_group2 (pattern text : string) : option string :=
  let kw :=
    if String.eqb pattern r_NextExpectedMsgSeqNum
    then "NextExpectedMsgSeqNum" else "MsgSeqNum" in
  match String.index 0 kw text with
  | None => None
  | Some i =>
      last_expecting
        (String.substring (i + String.length kw) (String.length text) text)
  end.

(** [re.search] with [re.IGNORECASE] for a pattern [.*word.*] whose
    [word] is [.*], or free of special characters, or holds an opening
    bracket that nothing closes, escapes or encloses: such a pattern does
    not compile. *)
Definition search (pattern text : string) : option bool :=
  let word := String.substring 2 (String.length pattern - 4) pattern in
  if PyStr.contains "(" word
     && negb (PyStr.contains ")" word || PyStr.contains "\" word
              || PyStr.contains "[" word)
  then None
  else Some (String.eqb word ".*"
             || PyStr.contains (PyStr.upper word) (PyStr.upper text)).

(** The value of a hexadecimal digit. *)
Definition hex_value (c : ascii) : option N :=
  let n := N_of_ascii c in
  if ((48 <=? n) && (n <=? 57))%N then Some (n - 48)%N
  else if ((97 <=? n) && (n <=? 102))%N then Some (n - 87)%N
  else if ((65 <=? n) && (n <=? 70))%N then Some (n - 55)%N
  else None.

(** [bytes.decode("unicode_escape")] on bytes whose escapes are the
    doubled backslash, the escaped quotes, the single-letter escapes and
    [\xhh]: a [\x] without two hexadecimal digits after it does not
    decode, nor does a backslash at the very end. *)
Fixpoint unicode_escape (s : string) : option string :=
  match s with
  | "" => Some ""
  | String "\" "" => None
  | String "\" (String "\" rest) =>
      option_map (String "\") (unicode_escape rest)
  | String "\" (String "'" rest) =>
      option_map (String "'") (unicode_escape rest)
  | String "\" (String "034" rest) =>
      option_map (String "034") (unicode_escape rest)
  | String "\" (String "a" rest) =>
      option_map (String "007") (unicode_escape rest)
  | String "\" (String "b" rest) =>
      option_map (String "008") (unicode_escape rest)
  | String "\" (String "t" rest) =>
      option_map (String "009") (unicode_escape rest)
  | String "\" (String "n" rest) =>
      option_map (String "010") (unicode_escape rest)
  | String "\" (String "v" rest) =>
      option_map (String "011") (unicode_escape rest)
  | String "\" (String "f" rest) =>
      option_map (String "012") (unicode_escape rest)
  | String "\" (String "r" rest) =>
      option_map (String "013") (unicode_escape rest)
  | String "\" (String "x" (String h (String l rest))) =>
      match hex_value h, hex_value l with
      | Some a, Some b =>
          option_map (String (ascii_of_N (16 * a + b))) (unicode_escape rest)
      | _, _ => None
      end
  | String "\" (String "x" _) => None
  | String c rest => option_map (String c) (unicode_escape rest)
  end.

Definition render_fields (fields : list (Z * string)) : string :=
  String.concat ""
    (map (fun p => PyStr.str (fst p) +:+ "=" +:+ snd p +:+ String SOH_BIN "")
         fields).

Definition type_name (msg_type : string) : string :=
  if String.eqb msg_type "A" then "Logon"
  else if String.eqb msg_type "5" then "Logout"
  else if String.eqb msg_type "0" then "Heartbeat"
  else if String.eqb msg_type "D" then "NewOrderSingle"
  else UNKNOWN.

Definition type_of_raw (raw : string) : string :=
  match List.find (String.prefix "35=")
                  (PyStr.split "|" (PyStr.replace_char SOH_BIN "|" raw)) with
  | Some f => String.substring 3 (String.length f) f
  | None => UNKNOWN
  end.

Definition env : App.Env :=
  App.MkEnv
    "|"
    (fun m => let ty := default UNKNOWN (App.header m !! 35) in (ty, type_name ty))
    (fun raw => let ty := type_of_raw raw in (ty, type_name ty))
    (fun m => render_fields (map_to_list (App.header m))
              +:+ render_fields (map_to_list (App.body m)))
    unicode_escape
    (fun s => s)
    (fun n => "20240101-12:00:00.00" +:+ PyStr.str (Z.of_nat n))
    (fun n => "uuid-" +:+ PyStr.str (Z.of_nat n))
    (fun _ => true)
    search
    search_group2
    (fun _ => false)
    (fun n => 100 * Z.of_nat n).

(** The same surroundings with another engine: [logged_on] tells at
    which ticks it reports the session as logged on. *)
Definition with_isLoggedOn (logged_on : nat -> bool) (E : App.Env) : App.Env :=
  App.MkEnv (App.SOH_UNI E) (App.get_message_type E)
    (App.get_message_type_str E) (App.toString E) (App.unicode_escape E)
    (App.colour E) (App.gen_timestamp_at E) (App.gen_uuid_at E)
    (App.can_append E) (App.re_search E) (App.re_search_group2 E)
    logged_on (App.perf_counter_at E).

(** An engine that takes its time: the session is logged on up to tick
    6 and logged out from then on. *)
Definition env_slow_logout : App.Env :=
  with_isLoggedOn (fun n => (n <? 6)%nat) env.

Definition init : string -> App.M unit := fun _ => App.ret tt.

(** One created session, number "0", with a reconnect interval of 30. *)
Definition app0 : App.t :=
  App.Make
    {[ "0" := sid ]}
    {[ sid := {[ RECONNECT_INTERVAL := "30"; LOGOUT_TIMEOUT := "2" ]} ]}
    {[ sid := [] ]}
    {[ sid := -1 ]}
    {[ sid := log_file ]}
    {[ sid := false ]}
    {[ sid := 0 ]}
    {[ sid := None ]}
    {[ sid := None ]}
    {[ sid := false ]}
    ∅
    (Some "") (Some "") (Some "")
    30
    []
    [MsgType_Heartbeat]
    {[ sid := 1 ]}
    []
    {[ log_file := [] ]}
    O.

Definition logon_msg : App.Message :=
  App.Msg {[ 8 := "FIX.4.2"; 35 := "A"; 34 := "1" ]} {[ 98 := "0"; 108 := "30" ]}.

Definition order_msg : App.Message :=
  App.Msg {[ 8 := "FIX.4.2"; 35 := "D"; 34 := "2" ]} {[ 55 := "EUR/USD"; 38 := "10" ]}.




(** The wire form of a message the fuzzer has just sent, stamped with
    [sending_time], and its entry in the session log. *)
Definition sending_time : string := "20240101-12:00:05.000".

Definition sent_entry : App.msg_obj :=
  App.MsgObj "20240101-12:00:05.001" "uuid-7" "SENT" "-> OUT(APP)"
    "D (NewOrderSingle)"
    "8=FIX.4.2|9=5|35=D|52=20240101-12:00:05.000|55=A|10=000|" "" (Some 0).

(** The counterparty stays silent: at every poll the session log ends
    with the message just sent. *)
Definition silent (k : nat) : App.t :=
  App.set_session_message_log {[ sid := [sent_entry] ]} app0.

(** A session log of three orders, numbered from 0. *)
Definition entry (i : Z) : App.msg_obj :=
  App.MsgObj "20240101-12:00:05.001" ("uuid-" +:+ PyStr.str i) "SENT"
    "-> OUT(APP)" "D (NewOrderSingle)"
    ("8=FIX.4.2|9=5|35=D|11=" +:+ PyStr.str i +:+ "|55=A|10=000|") "" (Some i).

Definition three_entries : App.t :=
  App.set_session_message_log {[ sid := [entry 0; entry 1; entry 2] ]} app0.

(** A store with the first and the third NewOrderSingle of a series, the
    second one having been deleted. *)
Definition order_id (q : Z) : string := "FIX.4.2:NewOrderSingle-D:" +:+ PyStr.str q.

Definition gap_store : MessageStore.t :=
  MessageStore.Make
    {[ order_id 1 := MessageStore.MsgObj (order_id 1) "D (NewOrderSingle)" "8=FIX.4.2|35=D|55=A|";
       order_id 3 := MessageStore.MsgObj (order_id 3) "D (NewOrderSingle)" "8=FIX.4.2|35=D|55=C|" ]}
    (Some YES_ALL).

Definition empty_store : MessageStore.t := MessageStore.Make ∅ None.

(** The engine side of the store for NewOrderSingle messages, given as
    their symbol. *)
Definition order_type (symbol : string) : string * string :=
  ("D", "NewOrderSingle").

Definition order_begin_string (symbol : string) : string := "FIX.4.2".

Definition order_raw (symbol : string) : string :=
  "8=FIX.4.2|35=D|55=" +:+ symbol +:+ "|".

Definition save (fuel : nat) (self : MessageStore.t) (symbol : string)
  : option (Res string * MessageStore.t * MessageStore.console) :=
  MessageStore.update_store string order_type order_begin_string order_raw
    fuel self symbol None None [].

(** A store that holds the first NewOrderSingle and has no batch answer. *)
Definition single_store : MessageStore.t :=
  MessageStore.Make
    {[ order_id 1 := MessageStore.MsgObj (order_id 1) "D (NewOrderSingle)" "8=FIX.4.2|35=D|55=A|" ]}
    None.

(** A Heartbeat of the counterparty, not an answer to a TestRequest. *)
Definition heartbeat_msg : App.Message :=
  App.Msg {[ 8 := "FIX.4.2"; 35 := "0"; 34 := "5" ]} ∅.

(** Specifications as [FixitClient] loads them: every specification
    file is there, FIX 4.2 knows the order and the heartbeat, and three
    of its fields are on record, under their numbers and their names. *)
Definition data_dicts : gmap string (string -> bool) :=
  {[ "FIXT11" := fun _ => false; "FIX50" := fun _ => false;
     "FIX44" := fun _ => false; "FIX43" := fun _ => false;
     "FIX42" := fun ty => String.eqb ty "D" || String.eqb ty "0";
     "FIX41" := fun _ => false; "FIX40" := fun _ => false ]}.

Definition field_dicts : gmap string (gmap string (gmap string string)) :=
  {[ "FIX42" :=
       {[ "8" := {[ "name" := "BeginString"; "type" := "STRING" ]};
          "BeginString" := {[ "number" := "8"; "type" := "STRING" ]};
          "35" := {[ "name" := "MsgType"; "type" := "STRING" ]};
          "MsgType" := {[ "number" := "35"; "type" := "STRING" ]};
          "55" := {[ "name" := "Symbol"; "type" := "STRING" ]};
          "Symbol" := {[ "number" := "55"; "type" := "STRING" ]} ]} ]}.

(** An engine that takes its time to log on: the session is logged on
    from tick 6 on. *)
Definition env_slow_logon : App.Env :=
  with_isLoggedOn (fun n => (6 <=? n)%nat) env.

End Example.

(** ** Proof automation *)

(** Reduction of the projections and setters of the application record. *)
Ltac app_simpl :=
  cbn [App.sessions App.session_settings App.session_message_log
       App.session_message_count App.session_message_log_file
       App.session_attempting_logon App.session_logon_attempts
       App.session_NextExpSeqNum App.session_NextSenderSeqNum
       App.session_loggedon App.session_seqNum App.username App.password
       App.newpassword App.config_recon_int App.message_queue
       App.ignored_messages App.engine_sessions App.engine_calls App.files
       App.tick
       App.set_session_settings App.set_session_message_log
       App.set_session_message_count App.set_session_attempting_logon
       App.set_session_logon_attempts App.set_session_NextExpSeqNum
       App.set_session_NextSenderSeqNum App.set_session_seqNum
       App.set_engine_sessions App.set_engine_calls App.set_files App.set_tick
       App.time App.uuid App.state App.route App.type App.msg App.notes App.id
       fst snd] in *.

(** Unfolding of the method monad. *)
Ltac run_monad :=
  repeat progress
    unfold App.gen_timestamp, App.gen_uuid, App.perf_counter, App.next_tick,
      App.mbind, App.ret, App.raise, App.get, App.modify, App.lift, App.item
      in *.

(** Case analysis on the innermost scrutinee of the goal. *)
Ltac break_match :=
  match goal with
  | |- context [match ?x with _ => _ end] =>
      lazymatch x with
      | context [match _ with _ => _ end] => fail
      | _ => destruct x eqn:?
      end
  end.

(** * Properties *)

(** *** Strings *)

Lemma append_cons (x : ascii) (a b : string) :
  String x a +:+ b = String x (a +:+ b).
Proof. reflexivity. Qed.

Lemma append_nil_l (b : string) : "" +:+ b = b.
Proof. reflexivity. Qed.

Lemma append_nil_r (a : string) : a +:+ "" = a.
Proof. induction a as [|x a IH]; [reflexivity | rewrite append_cons, IH; reflexivity]. Qed.

Lemma append_assoc (a b c : string) : (a +:+ b) +:+ c = a +:+ (b +:+ c).
Proof.
  induction a as [|x a IH]; [reflexivity|].
  rewrite !append_cons, IH. reflexivity.
Qed.

Lemma append_length (a b : string) :
  String.length (a +:+ b) = (String.length a + String.length b)%nat.
Proof.
  induction a as [|x a IH]; [reflexivity|].
  rewrite append_cons. simpl. rewrite IH. reflexivity.
Qed.

Lemma substring_append_prefix (a b : string) :
  String.substring 0 (String.length a) (a +:+ b) = a.
Proof.
  induction a as [|x a IH]; [by destruct b|].
  rewrite append_cons. simpl. rewrite IH. reflexivity.
Qed.

Lemma substring_append_skip (a b : string) (n : nat) :
  String.substring (String.length a) n (a +:+ b) = String.substring 0 n b.
Proof.
  induction a as [|x a IH]; [reflexivity|].
  rewrite append_cons. simpl. exact IH.
Qed.

Lemma substring_self_prefix (p r : string) :
  String.substring 0 (String.length p) (p +:+ r) = p.
Proof. apply substring_append_prefix. Qed.

Lemma index_first_occurrence (pat s pre rest : string) :
  pat <> "" ->
  s = pre +:+ pat +:+ rest ->
  (forall j, (j < String.length pre)%nat ->
             String.substring j (String.length pat) s <> pat) ->
  String.index 0 pat s = Some (String.length pre).
Proof.
  intros Hne -> Hfirst.
  assert (Hat : String.substring (String.length pre) (String.length pat)
                  (pre +:+ pat +:+ rest) = pat).
  { rewrite substring_append_skip. apply substring_append_prefix. }
  destruct (String.index 0 pat (pre +:+ pat +:+ rest)) as [m|] eqn:Hi.
  - f_equal.
    destruct (Nat.lt_trichotomy m (String.length pre)) as [Hlt|[->|Hgt]]; [|reflexivity|].
    + exfalso. apply (Hfirst m Hlt). eapply String.index_correct1; eauto.
    + exfalso.
      eapply (String.index_correct2 _ _ _ _ Hi (String.length pre)); [lia|lia|exact Hat].
  - exfalso.
    eapply (String.index_correct3 _ (String.length pre) _ _ Hi); [exact Hne|lia|exact Hat].
Qed.

Lemma sum_ord_codes (acc : Z) (s : string) :
  Utils.sum_ord acc s = acc + Spec.codes_sum s.
Proof.
  revert acc. induction s as [|c s IH]; intros acc; simpl.
  - unfold Spec.codes_sum. simpl. lia.
  - rewrite IH. unfold Spec.codes_sum. simpl. lia.
Qed.

Lemma checksum_ok_all : forallb Spec.checksum_ok (map Z.of_nat (seq 1 256)) = true.
Proof. vm_compute. reflexivity. Qed.

Lemma checksum_rendering (v : Z) :
  1 <= v <= 256 ->
  PyStr.int (PyStr.zfill 3 (PyStr.str v)) = Ok v
  /\ String.length (PyStr.zfill 3 (PyStr.str v)) = 3%nat
  /\ PyStr.all_chars PyStr.isdigit (PyStr.zfill 3 (PyStr.str v)) = true.
Proof.
  intros Hv.
  pose proof checksum_ok_all as H.
  rewrite forallb_forall in H.
  specialize (H v).
  assert (Hin : In v (map Z.of_nat (seq 1 256))).
  { apply in_map_iff. exists (Z.to_nat v). split; [lia|]. apply in_seq. lia. }
  specialize (H Hin). unfold Spec.checksum_ok in H.
  destruct (PyStr.int _) as [z|] eqn:Hz; [|discriminate].
  apply andb_prop in H as [H H3]. apply andb_prop in H as [H1 H2].
  apply Z.eqb_eq in H1. apply Nat.eqb_eq in H2. subst z. auto.
Qed.

(** C3, amended.  Let the message, with every printable delimiter replaced
    by SOH, have its first SOH "10=" after the characters [pre].  Then the
    checksum is the sum of the character codes of [pre] - delimiters count
    as 1, the SOH before "10=" is left out - modulo 256, plus 1, as three
    decimal digits. *)
Theorem msg_str_calc_chksum_value (soh : ascii) (message pre rest : string) :
  PyStr.replace_char soh SOH_BIN message = pre +:+ String SOH_BIN "10=" +:+ rest ->
  (forall j, (j < String.length pre)%nat ->
             String.substring j 4 (PyStr.replace_char soh SOH_BIN message)
             <> String SOH_BIN "10=") ->
  exists out,
    Utils.msg_str_calc_chksum soh message = Ok out
    /\ PyStr.int out = Ok (Spec.codes_sum pre mod 256 + 1)
    /\ String.length out = 3%nat
    /\ PyStr.all_chars PyStr.isdigit out = true.
Proof.
  intros Hdec Hfirst.
  unfold Utils.msg_str_calc_chksum.
  rewrite (index_first_occurrence (String SOH_BIN "10=") _ pre rest);
    [|discriminate|exact Hdec|exact Hfirst].
  rewrite Hdec, substring_append_prefix, sum_ord_codes, Z.add_0_l.
  eexists. split; [reflexivity|].
  apply checksum_rendering.
  pose proof (Z.mod_pos_bound (Spec.codes_sum pre) 256). lia.
Qed.

Lemma not_In_existsb (x : string) (l : list string) :
  existsb (String.eqb x) l = false -> ~ In x l.
Proof.
  intros H Hin.
  assert (existsb (String.eqb x) l = true); [|congruence].
  apply existsb_exists. exists x. split; [exact Hin | apply String.eqb_refl].
Qed.

Lemma In_existsb (x : string) (l : list string) :
  existsb (String.eqb x) l = true -> In x l.
Proof.
  intros H. apply existsb_exists in H as [y [Hy Heq]].
  apply String.eqb_eq in Heq. subst y. exact Hy.
Qed.

(** *** The wire codec *)

Lemma get_field_loop_never_returns (tag : string) (fields : list string) (v : string) :
  Utils.get_field_loop tag fields <> Ok (Some v).
Proof.
  induction fields as [|f fs IH]; simpl; [discriminate|].
  destruct (PyStr.startswith tag f); [discriminate | exact IH].
Qed.

Lemma msg_str_get_field_never_returns (soh : ascii) (message : string)
    (field_num : pyval) (v : string) :
  Utils.msg_str_get_field soh message field_num <> Ok v.
Proof.
  unfold Utils.msg_str_get_field, bind.
  destruct (PyStr.to_int field_num) as [z|e]; [|discriminate].
  destruct (Utils.get_field_loop _ _) as [[w|]|e] eqn:H; try discriminate.
  exfalso. eapply get_field_loop_never_returns; eauto.
Qed.

(** C2. On the message [8=FIX.4.2|9=5|35=A|10=000|], setting tag 35 to "1"
    rewrites that field in place and leaves the others as they were, but
    reading tag 35 back does not return "1": the look-up raises
    [AttributeError], as it does on every message that has the tag. *)
Theorem msg_str_set_then_get_raises :
  Utils.msg_str_set_field "|" "8=FIX.4.2|9=5|35=A|10=000|" (PInt 35) (PStr "1")
    = "8=FIX.4.2|9=5|35=1|10=000|"
  /\ Utils.msg_str_get_field "|" "8=FIX.4.2|9=5|35=1|10=000|" (PInt 35)
    = Raise AttributeError
  /\ (forall soh message field_num v,
        Utils.msg_str_get_field soh message field_num <> Ok v).
Proof.
  split; [vm_compute; reflexivity|].
  split; [vm_compute; reflexivity|].
  apply msg_str_get_field_never_returns.
Qed.

(** C3, as worded, fails: on [8=FIX.4.2|9=5|35=A|10=000|] the characters
    before the 10= field sum to 1315, which gives "036", and the code
    returns "178"; on the same message with SOH delimiters the wording
    gives "179" and the code again "178". *)
Lemma computeChecksum_differs :
  Utils.msg_str_calc_chksum "|" "8=FIX.4.2|9=5|35=A|10=000|" = Ok "178"
  /\ Spec.computeChecksum "|" "8=FIX.4.2|9=5|35=A|10=000|" = Some "036"
  /\ Utils.msg_str_calc_chksum "|"
       (PyStr.replace_char "|" SOH_BIN "8=FIX.4.2|9=5|35=A|10=000|") = Ok "178"
  /\ Spec.computeChecksum SOH_BIN
       (PyStr.replace_char "|" SOH_BIN "8=FIX.4.2|9=5|35=A|10=000|") = Some "179".
Proof. repeat split; vm_compute; reflexivity. Qed.

Lemma msg_str_calc_chksum_value_witness :
  exists out,
    Utils.msg_str_calc_chksum "|" "8=FIX.4.2|9=5|35=A|10=000|" = Ok out
    /\ PyStr.int out
       = Ok (Spec.codes_sum (PyStr.replace_char "|" SOH_BIN "8=FIX.4.2|9=5|35=A") mod 256 + 1)
    /\ String.length out = 3%nat
    /\ PyStr.all_chars PyStr.isdigit out = true.
Proof.
  apply (msg_str_calc_chksum_value "|" "8=FIX.4.2|9=5|35=A|10=000|"
           (PyStr.replace_char "|" SOH_BIN "8=FIX.4.2|9=5|35=A")
           (String "0" (String "0" (String "0" (String SOH_BIN ""))))).
  - vm_compute. reflexivity.
  - intros j Hj.
    do 18 (destruct j as [|j]; [vm_compute; discriminate|]).
    vm_compute in Hj. lia.
Defined.

(** *** The message store *)

(** C8, as worded, fails: removing an id from the empty store raises
    [KeyError] instead of doing nothing. *)
Lemma remove_absent_raises :
  MessageStore.store Example.empty_store !! "FIX.4.2:Logon-A:1" = None
  /\ MessageStore.remove Example.empty_store "FIX.4.2:Logon-A:1" = Raise KeyError
  /\ MessageStore.remove Example.empty_store "FIX.4.2:Logon-A:1"
     <> Ok Example.empty_store.
Proof. split; [reflexivity|]. split; [reflexivity | discriminate]. Qed.

(** C8, amended.  [remove] deletes the entry of a stored id and leaves all
    other entries and the batch answer as they were; on an id that is not
    stored it raises [KeyError].  The delete command tests membership
    first: for an id that is not stored it reports "not found", raises
    nothing and leaves the store unchanged. *)
Theorem remove_present_or_KeyError (self : MessageStore.t) (store_id : string) :
  match MessageStore.store self !! store_id with
  | Some _ =>
      exists self',
        MessageStore.remove self store_id = Ok self'
        /\ MessageStore.store self' !! store_id = None
        /\ (forall k, k <> store_id ->
                      MessageStore.store self' !! k = MessageStore.store self !! k)
        /\ MessageStore.auto_resp self' = MessageStore.auto_resp self
  | None =>
      MessageStore.remove self store_id = Raise KeyError
      /\ forall args_trail inp,
           Delete.run self store_id args_trail inp
           = Some (Ok tt, self, [store_id +:+ " not found"])
  end.
Proof.
  destruct (MessageStore.store self !! store_id) as [obj|] eqn:Hl.
  - eexists. unfold MessageStore.remove. rewrite Hl.
    split; [reflexivity|]. simpl.
    split; [apply lookup_delete_eq|].
    split; [|reflexivity].
    intros k Hk. apply lookup_delete_ne. congruence.
  - unfold MessageStore.remove. rewrite Hl. split; [reflexivity|].
    intros args_trail inp. unfold Delete.run, MessageStore.mem.
    rewrite Hl. rewrite bool_decide_eq_false_2; [reflexivity|].
    intros [x Hx]. discriminate.
Qed.

(** *** The fuzzer *)

Lemma generate_loop_filter (E : App.Env) (vals : list nat) (acc : list string) :
  Fuzz.generate_loop E vals acc
  = (acc ++
     List.filter
       (fun s => negb (MessageStore.str_in s
                         [String (App.SOH_UNI E) ""; String SOH_BIN "";
                          String DELIM_UNI ""; String DELIM_BIN ""]))
       (map PyStr.chr vals))%list.
Proof.
  revert acc. induction vals as [|v vals IH]; intros acc.
  - simpl. by rewrite app_nil_r.
  - cbn [Fuzz.generate_loop map List.filter]. rewrite IH.
    destruct (MessageStore.str_in (PyStr.chr v) _); cbn [negb]; [reflexivity|].
    by rewrite <- app_assoc.
Qed.

(** C10, as worded, fails: with the delimiter "|" the letter "d" (code
    100) is printable and is not generated, and the NUL character (code 0)
    is generated and is not printable. *)
Lemma default_fuzz_dict_not_printable_set :
  In "d" (Spec.payloads "|")
  /\ ~ In "d" (Fuzz.default_fuzz_dict Example.env)
  /\ In (PyStr.chr 0) (Fuzz.default_fuzz_dict Example.env)
  /\ ~ In (PyStr.chr 0) (Spec.payloads "|").
Proof.
  split; [|split; [|split]].
  - apply In_existsb. vm_compute. reflexivity.
  - apply not_In_existsb. vm_compute. reflexivity.
  - apply In_existsb. vm_compute. reflexivity.
  - apply not_In_existsb. vm_compute. reflexivity.
Qed.

(** C10, amended.  Without a dictionary file the payloads are the
    one-character strings of the codes 0 to 99 in increasing order, except
    the active delimiter, SOH and the equals sign. *)
Theorem default_fuzz_dict_codes_below_100 (E : App.Env) :
  Fuzz.default_fuzz_dict E
  = List.filter
      (fun s => negb (MessageStore.str_in s
                        [String (App.SOH_UNI E) ""; String SOH_BIN "";
                         String DELIM_UNI ""]))
      (map PyStr.chr (seq 0 100))
  /\ (forall s, In s (Fuzz.default_fuzz_dict E) <->
                exists v, (v < 100)%nat /\ s = PyStr.chr v
                          /\ s <> String (App.SOH_UNI E) ""
                          /\ s <> String SOH_BIN ""
                          /\ s <> "=")
  /\ (forall s, In s (Fuzz.default_fuzz_dict E) -> String.length s = 1%nat).
Proof.
  assert (Heq : Fuzz.default_fuzz_dict E
                = List.filter
                    (fun s => negb (MessageStore.str_in s
                                      [String (App.SOH_UNI E) ""; String SOH_BIN "";
                                       String DELIM_UNI ""]))
                    (map PyStr.chr (seq 0 100))).
  { unfold Fuzz.default_fuzz_dict, Fuzz._generate_fuzz_data.
    rewrite generate_loop_filter. rewrite app_nil_l.
    apply filter_ext. intros s. unfold MessageStore.str_in. cbn [existsb].
    rewrite !orb_false_r.
    change (String DELIM_BIN "") with (String DELIM_UNI "").
    destruct (String.eqb s (String (App.SOH_UNI E) ""));
      destruct (String.eqb s (String SOH_BIN ""));
      destruct (String.eqb s (String DELIM_UNI "")); reflexivity. }
  assert (Hmem : forall s, In s (Fuzz.default_fuzz_dict E) <->
                exists v, (v < 100)%nat /\ s = PyStr.chr v
                          /\ s <> String (App.SOH_UNI E) ""
                          /\ s <> String SOH_BIN ""
                          /\ s <> "=").
  { intros s. rewrite Heq, filter_In, in_map_iff.
    unfold MessageStore.str_in. cbn [existsb].
    rewrite orb_false_r, !negb_orb, !andb_true_iff.
    rewrite !negb_true_iff, !String.eqb_neq.
    split.
    - intros [[v [Hv Hin]] [H1 [H2 H3]]]. exists v. apply in_seq in Hin.
      split; [lia|]. split; [symmetry; exact Hv|].
      split; [exact H1|]. split; [exact H2 | exact H3].
    - intros [v [Hv [Hs [H1 [H2 H3]]]]].
      split; [|split; [exact H1 | split; [exact H2 | exact H3]]].
      exists v. split; [symmetry; exact Hs|]. apply in_seq. lia. }
  split; [exact Heq|]. split; [exact Hmem|].
  intros s Hs. destruct (proj1 (Hmem s) Hs) as [v [_ [Hv _]]].
  rewrite Hv. reflexivity.
Qed.

(** C1.  With a silent counterparty - the session log keeps ending with
    the message just sent - the wait for a response yields nothing for any
    number of polls, and no row is recorded: the loop tests [attempts < 10]
    and never changes [attempts]. *)
Theorem await_response_never_gives_up :
  forall fuel : nat,
    Fuzz.await_response Example.env Example.silent fuel 0 "" "0"
      Example.sending_time 0 = None
    /\ Fuzz.record_response Example.env Example.silent fuel 0 "a"
         "8=FIX.4.2|9=5|35=D|52=20240101-12:00:05.000|55=a|10=000|" "0"
         Example.sending_time 0 = None.
Proof.
  assert (H : forall fuel k,
             Fuzz.await_response Example.env Example.silent fuel 0 "" "0"
               Example.sending_time k = None).
  { induction fuel as [|fuel IH]; intros k.
    - vm_compute. reflexivity.
    - change (Fuzz.await_response Example.env Example.silent (S fuel) 0 "" "0"
                Example.sending_time k)
        with (if 0 <? 10 then
                match Fuzz.last_message Example.env Example.silent "0" k with
                | Raise e => Some (Raise e)
                | Ok last =>
                    if negb (PyStr.contains Example.sending_time last)
                    then Some (Ok last)
                    else Fuzz.await_response Example.env Example.silent fuel 0 ""
                           "0" Example.sending_time (S k)
                end
              else Some (Ok "")).
      replace (Fuzz.last_message Example.env Example.silent "0" k)
        with (Ok (A:=string) "8=FIX.4.2|9=5|35=D|52=20240101-12:00:05.000|55=A|10=000|")
        by (vm_compute; reflexivity).
      replace (PyStr.contains Example.sending_time
                 "8=FIX.4.2|9=5|35=D|52=20240101-12:00:05.000|55=A|10=000|")
        with true by (vm_compute; reflexivity).
      simpl. apply IH. }
  intros fuel. split; [apply H|].
  unfold Fuzz.record_response. rewrite H. reflexivity.
Qed.

(** *** The history log *)

Lemma lastn_suffix {A : Type} (n : nat) (l : list A) :
  l = (take (length l - n) l ++ Spec.lastn n l)%list.
Proof. unfold Spec.lastn. symmetry. apply take_drop. Qed.

Lemma lastn_length {A : Type} (n : nat) (l : list A) :
  length (Spec.lastn n l) = Nat.min n (length l).
Proof. unfold Spec.lastn. rewrite length_drop. lia. Qed.

Lemma slice_from_neg {A : Type} (depth : Z) (l : list A) :
  0 <= depth ->
  App.slice_from (- depth) l
  = if depth =? 0 then l else Spec.lastn (Z.to_nat depth) l.
Proof.
  intros Hd. unfold App.slice_from, Spec.lastn.
  destruct (Z.eqb_spec depth 0) as [->|Hne].
  - simpl. rewrite Z.min_l by lia. reflexivity.
  - destruct (Z.ltb_spec (- depth) 0) as [_|Hge]; [|lia].
    f_equal. lia.
Qed.

Lemma slice_from_pos {A : Type} (depth : Z) (l : list A) :
  depth < 0 ->
  App.slice_from (- depth) l = drop (Z.to_nat (- depth)) l.
Proof.
  intros Hd. unfold App.slice_from.
  destruct (Z.ltb_spec (- depth) 0) as [Hlt|_]; [lia|].
  destruct (Z.le_gt_cases (- depth) (Z.of_nat (length l))) as [Hle|Hgt].
  - rewrite Z.min_l by exact Hle. reflexivity.
  - rewrite Z.min_r by lia. rewrite Nat2Z.id.
    rewrite !drop_ge by lia. reflexivity.
Qed.

Lemma filter_messages_compiled (E : App.Env) (filter : string)
    (log : list App.msg_obj) :
  (forall text, is_Some (App.re_search E (".*" +:+ filter +:+ ".*") text)) ->
  App.filter_messages E filter log
  = Ok (List.filter
          (fun m =>
             default false
               (App.re_search E (".*" +:+ filter +:+ ".*") (App.msg m))
             || default false
                  (App.re_search E (".*" +:+ filter +:+ ".*")
                     (snd (App.get_message_type_str E (App.msg m)))))
          log).
Proof.
  intros Hvalid. induction log as [|m log IH]; [reflexivity|].
  cbn [App.filter_messages List.filter]. rewrite IH.
  unfold App.log_filter, App.search.
  destruct (Hvalid (App.msg m)) as [b ->].
  destruct (Hvalid (snd (App.get_message_type_str E (App.msg m)))) as [b' ->].
  destruct b, b'; reflexivity.
Qed.

(** C9, as worded, fails on two counts.  A filter that is no regular
    expression makes the query raise instead of returning entries; and
    with a negative depth the query returns neither the last entries nor
    all of them, but the matching entries without the first ones. *)
Lemma get_session_message_log_raises_or_drops_front :
  App.get_session_message_log Example.env "0" "(" 1 (Example.silent 0)
  = (Raise ReError, Example.silent 0)
  /\ App.get_session_message_log Example.env "0" ".*" (-1) Example.three_entries
     = (Ok [Example.entry 1; Example.entry 2], Example.three_entries).
Proof. split; vm_compute; reflexivity. Qed.

(** C9, amended.  For a known session and a filter that compiles, the
    query returns, in log order, the entries whose raw text or
    message-type name is found by [re.search] with [IGNORECASE] for the
    pattern [.*filter.*]: all of them when the depth is 0, the last
    [depth] of them (all, if there are fewer) when the depth is positive,
    and all but the first [-depth] of them when the depth is negative.
    The state is not changed.  When the filter does not compile, the
    query raises [re.error] at the first entry of the log. *)
Theorem get_session_message_log_matching (E : App.Env)
    (session_num sid filter : string) (depth : Z) (a : App.t)
    (log : list App.msg_obj) :
  App.sessions a !! session_num = Some sid ->
  App.session_message_log a !! sid = Some log ->
  ((forall text, is_Some (App.re_search E (".*" +:+ filter +:+ ".*") text)) ->
   App.get_session_message_log E session_num filter depth a
   = (Ok (let matching :=
            List.filter
              (fun m =>
                 default false
                   (App.re_search E (".*" +:+ filter +:+ ".*") (App.msg m))
                 || default false
                      (App.re_search E (".*" +:+ filter +:+ ".*")
                         (snd (App.get_message_type_str E (App.msg m)))))
              log in
          if depth =? 0 then matching
          else if 0 <? depth then Spec.lastn (Z.to_nat depth) matching
          else drop (Z.to_nat (- depth)) matching), a))
  /\ (forall m rest,
        log = m :: rest ->
        App.re_search E (".*" +:+ filter +:+ ".*") (App.msg m) = None ->
        App.get_session_message_log E session_num filter depth a
        = (Raise ReError, a)).
Proof.
  intros Hs Hl. split.
  - intros Hvalid.
    unfold App.get_session_message_log, App.mbind, App._get_sessionID, App.get,
      App.toString_of, App.item, App.ret, App.lift.
    rewrite Hs, Hl, (filter_messages_compiled E filter log Hvalid).
    cbv zeta. f_equal. f_equal.
    destruct (Z.eqb_spec depth 0) as [->|Hne].
    + apply (slice_from_neg 0). lia.
    + destruct (Z.ltb_spec 0 depth) as [Hpos|Hneg].
      * rewrite slice_from_neg by lia.
        destruct (Z.eqb_spec depth 0); [lia|reflexivity].
      * apply slice_from_pos. lia.
  - intros m rest -> Hbad.
    unfold App.get_session_message_log, App.mbind, App._get_sessionID, App.get,
      App.toString_of, App.item, App.ret, App.lift.
    rewrite Hs, Hl. cbn [App.filter_messages].
    unfold App.log_filter, App.search. rewrite Hbad. reflexivity.
Qed.

Lemma get_session_message_log_matching_witness :
  App.get_session_message_log Example.env "0" "order" 1 (Example.silent 0)
  = (Ok (let matching :=
           List.filter
             (fun m =>
                default false
                  (App.re_search Example.env (".*" +:+ "order" +:+ ".*") (App.msg m))
                || default false
                     (App.re_search Example.env (".*" +:+ "order" +:+ ".*")
                        (snd (App.get_message_type_str Example.env (App.msg m)))))
             [Example.sent_entry] in
         if 1 =? 0 then matching
         else if 0 <? 1 then Spec.lastn (Z.to_nat 1) matching
         else drop (Z.to_nat (- 1)) matching), Example.silent 0).
Proof.
  apply (get_session_message_log_matching Example.env "0" Example.sid "order" 1
           (Example.silent 0) [Example.sent_entry]).
  - vm_compute. reflexivity.
  - vm_compute. reflexivity.
  - intros text. vm_compute. eexists. reflexivity.
Defined.

(** *** Splitting, joining and decimal numerals *)


Lemma split_nonempty (sep : ascii) (s : string) : PyStr.split sep s <> [].
Proof.
  destruct s as [|c s]; simpl; [discriminate|].
  destruct (Ascii.eqb c sep); [discriminate|].
  destruct (PyStr.split sep s); discriminate.
Qed.

Lemma split_no_sep (sep : ascii) (s : string) :
  PyStr.all_chars (Spec.differs sep) s = true -> PyStr.split sep s = [s].
Proof.
  induction s as [|c s IH]; simpl; [reflexivity|].
  intros H. apply andb_prop in H as [Hc Hs]. unfold Spec.differs in Hc.
  destruct (Ascii.eqb c sep); [discriminate|].
  rewrite (IH Hs). reflexivity.
Qed.

Lemma split_app_sep (sep : ascii) (a b : string) :
  PyStr.all_chars (Spec.differs sep) b = true ->
  PyStr.split sep (a +:+ String sep b) = (PyStr.split sep a ++ [b])%list.
Proof.
  intros Hb. induction a as [|c a IH].
  - rewrite append_nil_l. simpl. rewrite Ascii.eqb_refl, (split_no_sep _ _ Hb).
    reflexivity.
  - rewrite append_cons. simpl. destruct (Ascii.eqb c sep).
    + rewrite IH. reflexivity.
    + rewrite IH. pose proof (split_nonempty sep a) as Hne.
      destruct (PyStr.split sep a) as [|f fs]; [congruence | reflexivity].
Qed.

Lemma join_split (sep : ascii) (s : string) :
  PyStr.join sep (PyStr.split sep s) = s.
Proof.
  unfold PyStr.join. induction s as [|c s IH]; [reflexivity|].
  simpl. pose proof (split_nonempty sep s) as Hne.
  destruct (Ascii.eqb_spec c sep) as [->|Hc].
  - destruct (PyStr.split sep s) as [|f fs] eqn:Hsp; [congruence|].
    change (String.concat (String sep "") ("" :: f :: fs))
      with ("" +:+ String sep "" +:+ String.concat (String sep "") (f :: fs)).
    rewrite IH. reflexivity.
  - destruct (PyStr.split sep s) as [|f fs] eqn:Hsp; [congruence|].
    destruct fs as [|g gs].
    + simpl in *. congruence.
    + change (String.concat (String sep "") (String c f :: g :: gs))
        with (String c (f +:+ String sep "" +:+ String.concat (String sep "") (g :: gs))).
      change (String.concat (String sep "") (f :: g :: gs))
        with (f +:+ String sep "" +:+ String.concat (String sep "") (g :: gs)) in IH.
      rewrite IH. reflexivity.
Qed.

Lemma append_inv_head (p x y : string) : p +:+ x = p +:+ y -> x = y.
Proof.
  induction p as [|c p IH]; [trivial|].
  rewrite !append_cons. intros H. injection H as H. auto.
Qed.

Lemma all_chars_impl (p q : ascii -> bool) (s : string) :
  (forall c, p c = true -> q c = true) ->
  PyStr.all_chars p s = true -> PyStr.all_chars q s = true.
Proof.
  intros Hpq. induction s as [|c s IH]; simpl; [trivial|].
  intros H. apply andb_prop in H as [Hc Hs].
  rewrite (Hpq c Hc), (IH Hs). reflexivity.
Qed.

Lemma string_of_uint_digits (d : uint) :
  PyStr.all_chars PyStr.isdigit (NilEmpty.string_of_uint d) = true.
Proof. induction d; simpl; [reflexivity | exact IHd ..]. Qed.

Lemma string_of_uint_nonempty (d : uint) :
  d <> Nil -> NilEmpty.string_of_uint d <> "".
Proof. destruct d; [congruence | discriminate ..]. Qed.

Lemma int_of_digits (s : string) :
  PyStr.all_chars PyStr.isdigit s = true -> s <> "" ->
  PyStr.int s = PyStr.digits_value s.
Proof.
  destruct s as [|c s]; [congruence|]. intros H _.
  simpl in H. apply andb_prop in H as [Hc _].
  unfold PyStr.int.
  destruct (Ascii.eqb_spec c "-") as [->|_]; [discriminate|].
  destruct (Ascii.eqb_spec c "+") as [->|_]; [discriminate|].
  reflexivity.
Qed.

Lemma digits_value_of_uint (d : uint) :
  d <> Nil -> PyStr.digits_value (NilEmpty.string_of_uint d) = Ok (Z.of_uint d).
Proof.
  intros Hd. unfold PyStr.digits_value.
  rewrite string_of_uint_digits, NilEmpty.usu.
  destruct (String.eqb_spec (NilEmpty.string_of_uint d) "") as [He|_].
  - exfalso. exact (string_of_uint_nonempty d Hd He).
  - reflexivity.
Qed.

Lemma to_uint_nonnil (p : positive) : Pos.to_uint p <> Nil.
Proof.
  intros H. pose proof (DecimalPos.Unsigned.of_to p) as Hp.
  rewrite H in Hp. discriminate.
Qed.

Lemma str_numeral (q : Z) :
  0 <= q ->
  exists d, d <> Nil /\ PyStr.str q = NilEmpty.string_of_uint d /\ Z.of_uint d = q.
Proof.
  intros Hq. destruct q as [|p|p]; [| |lia].
  - exists (D0 Nil). split; [discriminate|]. split; reflexivity.
  - exists (Pos.to_uint p). split; [apply to_uint_nonnil|]. split.
    + unfold PyStr.str. simpl. pose proof (to_uint_nonnil p).
      destruct (Pos.to_uint p); [congruence | reflexivity ..].
    + unfold Z.of_uint. rewrite DecimalPos.Unsigned.of_to. reflexivity.
Qed.

Lemma int_str (q : Z) : 0 <= q -> PyStr.int (PyStr.str q) = Ok q.
Proof.
  intros Hq. destruct (str_numeral q Hq) as [d [Hd [-> Hz]]].
  rewrite int_of_digits.
  - rewrite digits_value_of_uint by exact Hd. by rewrite Hz.
  - apply string_of_uint_digits.
  - by apply string_of_uint_nonempty.
Qed.

Lemma str_no_colon (q : Z) :
  0 <= q -> PyStr.all_chars (Spec.differs ":") (PyStr.str q) = true.
Proof.
  intros Hq. destruct (str_numeral q Hq) as [d [_ [-> _]]].
  eapply all_chars_impl; [|apply string_of_uint_digits].
  intros c Hc. unfold Spec.differs.
  destruct (Ascii.eqb_spec c ":") as [->|_]; [discriminate | reflexivity].
Qed.

Lemma str_inj (q q' : Z) : 0 <= q -> 0 <= q' -> PyStr.str q = PyStr.str q' -> q = q'.
Proof.
  intros Hq Hq' H. pose proof (int_str q Hq) as H1.
  rewrite H, (int_str q' Hq') in H1. congruence.
Qed.

(** *** Store ids *)

Lemma consistent_spec (st : gmap string MessageStore.msg_obj) :
  MessageStore.consistent st = true <->
  forall k o, st !! k = Some o -> MessageStore.id o = k.
Proof.
  unfold MessageStore.consistent. rewrite forallb_forall. split.
  - intros H k o Hko. apply String.eqb_eq.
    apply (H (k, o)). apply list_elem_of_In. by apply elem_of_map_to_list.
  - intros H [k o] Hin. apply String.eqb_eq. apply H.
    apply elem_of_map_to_list. by apply list_elem_of_In.
Qed.

Lemma consistent_insert (st : gmap string MessageStore.msg_obj)
    (o : MessageStore.msg_obj) :
  MessageStore.consistent st = true ->
  MessageStore.consistent (<[MessageStore.id o := o]> st) = true.
Proof.
  rewrite !consistent_spec. intros H k o' Hl.
  destruct (decide (MessageStore.id o = k)) as [<-|Hne].
  - rewrite lookup_insert_eq in Hl. congruence.
  - rewrite lookup_insert_ne in Hl by exact Hne. by apply H.
Qed.

Lemma qualified_inj (p : string) (q q' : Z) :
  0 <= q -> 0 <= q' -> Spec.qualified p q = Spec.qualified p q' -> q = q'.
Proof.
  unfold Spec.qualified. intros Hq Hq' H.
  apply append_inv_head in H. apply append_inv_head in H.
  by apply str_inj.
Qed.

Lemma split_qualified (p : string) (q : Z) :
  0 <= q ->
  PyStr.split ":" (Spec.qualified p q) = (PyStr.split ":" p ++ [PyStr.str q])%list.
Proof.
  intros Hq. unfold Spec.qualified.
  change (":" +:+ PyStr.str q) with (String ":" (PyStr.str q)).
  apply split_app_sep. by apply str_no_colon.
Qed.

Lemma next_id_qualified (p : string) (q : Z) :
  0 <= q ->
  MessageStore.next_id (Spec.qualified p q) = Ok (Spec.qualified p (q + 1)).
Proof.
  intros Hq. unfold MessageStore.next_id.
  rewrite split_qualified by exact Hq.
  rewrite last_last, removelast_last, join_split, int_str by exact Hq.
  reflexivity.
Qed.

Lemma tried_all_stored (st : gmap string MessageStore.msg_obj) (p : string)
    (q0 : Z) (k : nat) :
  0 <= q0 ->
  (forall j, (j < k)%nat -> is_Some (st !! Spec.qualified p (q0 + Z.of_nat j))) ->
  (k <= size st)%nat.
Proof.
  intros Hq0 Hall.
  set (c := fun j : nat => Spec.qualified p (q0 + Z.of_nat j)).
  assert (Hinj : Inj (=) (=) c).
  { intros i j Hij. unfold c in Hij. apply qualified_inj in Hij; lia. }
  assert (Hsub : (list_to_set (c <$> seq 0 k) : gset string) ⊆ dom st).
  { intros x Hx. apply elem_of_list_to_set in Hx.
    apply list_elem_of_fmap in Hx as [j [-> Hj]].
    apply elem_of_seq in Hj. apply elem_of_dom. apply Hall. lia. }
  apply subseteq_size in Hsub.
  rewrite size_dom, size_list_to_set in Hsub.
  - by rewrite length_fmap, length_seq in Hsub.
  - apply NoDup_fmap_2; [exact Hinj | apply NoDup_seq].
Qed.

Lemma validate_loop_finds (st : gmap string MessageStore.msg_obj) (p : string)
    (q0 : Z) :
  0 <= q0 ->
  MessageStore.consistent st = true ->
  forall (fuel k : nat),
    (forall j, (j < k)%nat -> is_Some (st !! Spec.qualified p (q0 + Z.of_nat j))) ->
    (size st <= k + fuel)%nat ->
    exists k',
      (k <= k')%nat
      /\ MessageStore.validate_loop fuel st (Spec.qualified p (q0 + Z.of_nat k))
         = Some (Ok (Spec.qualified p (q0 + Z.of_nat k')))
      /\ st !! Spec.qualified p (q0 + Z.of_nat k') = None
      /\ (forall j, (j < k')%nat ->
                    is_Some (st !! Spec.qualified p (q0 + Z.of_nat j))).
Proof.
  intros Hq0 Hwf0. pose proof (proj1 (consistent_spec st) Hwf0) as Hwf.
  induction fuel as [|fuel IH]; intros k Hall Hsize.
  - destruct (st !! Spec.qualified p (q0 + Z.of_nat k)) as [o|] eqn:Hl.
    + exfalso.
      assert (S k <= size st)%nat; [|lia].
      apply (tried_all_stored st p q0 (S k) Hq0).
      intros j Hj. destruct (decide (j = k)) as [->|Hne]; [by rewrite Hl|].
      apply Hall. lia.
    + exists k. simpl. rewrite Hl. auto.
  - destruct (st !! Spec.qualified p (q0 + Z.of_nat k)) as [o|] eqn:Hl.
    + destruct (IH (S k)) as [k' [Hk' [Hrun [Hfree Hused]]]].
      * intros j Hj. destruct (decide (j = k)) as [->|Hne]; [by rewrite Hl|].
        apply Hall. lia.
      * lia.
      * exists k'. split; [lia|]. split; [|auto].
        simpl. rewrite Hl, (Hwf _ _ Hl), next_id_qualified by lia.
        replace (q0 + Z.of_nat k + 1) with (q0 + Z.of_nat (S k)) by lia.
        exact Hrun.
    + exists k. simpl. rewrite Hl. auto.
Qed.

Lemma prompt_loop_store (self : MessageStore.t) (inp : MessageStore.console)
    (b : bool) (self' : MessageStore.t) (inp' : MessageStore.console) :
  MessageStore.prompt_loop self inp = Some (b, self', inp') ->
  MessageStore.store self' = MessageStore.store self.
Proof.
  revert self. induction inp as [|reply inp IH]; intros self; simpl; [discriminate|].
  destruct reply as [|word ws]; [apply IH|].
  destruct (PyStr.contains YES _).
  - intros H. injection H as _ <- _. by destruct (PyStr.contains ALL _).
  - destruct (PyStr.contains NO _); [|apply IH].
    intros H. injection H as _ <- _. by destruct (PyStr.contains ALL _).
Qed.

Lemma _overwrite_store (self : MessageStore.t) (store_id : string)
    (user_input : option (list string)) (inp : MessageStore.console)
    (b : bool) (self' : MessageStore.t) (inp' : MessageStore.console) :
  MessageStore._overwrite self store_id user_input inp = Some (b, self', inp') ->
  MessageStore.store self' = MessageStore.store self.
Proof.
  unfold MessageStore._overwrite.
  destruct (_ && _); [|intros H; by injection H as _ <- _].
  set (self1 := match user_input with Some (u0 :: _) => _ | _ => self end).
  assert (H1 : MessageStore.store self1 = MessageStore.store self).
  { unfold self1. destruct user_input as [[|u0 us]|]; try reflexivity.
    by destruct (MessageStore.str_in u0 _). }
  destruct (MessageStore.opt_in _ [YES_ALL]); [intros H; by injection H as _ <- _|].
  destruct (MessageStore.opt_in _ [NO_ALL]); [intros H; by injection H as _ <- _|].
  intros H. apply prompt_loop_store in H. congruence.
Qed.

Section StoreTheorems.

Variable Message : Type.
Variable get_message_type : Message -> string * string.
Variable BeginString : Message -> string.
Variable msg_to_str : Message -> string.

Lemma gen_MsgStoreID_qualified (m : Message) :
  MessageStore.gen_MsgStoreID Message get_message_type BeginString m
  = Spec.qualified
      (Spec.id_prefix (BeginString m) (snd (get_message_type m))
         (fst (get_message_type m))) 1.
Proof.
  unfold MessageStore.gen_MsgStoreID, Spec.qualified, Spec.id_prefix.
  destruct (get_message_type m) as [ty name]. simpl fst. simpl snd.
  change (PyStr.str 1) with "1".
  rewrite !append_assoc. reflexivity.
Qed.

Lemma update_store_qualifier (self : MessageStore.t) (m : Message)
    (user_input : option (list string)) (inp : MessageStore.console)
    (self1 : MessageStore.t) (inp1 : MessageStore.console) :
  MessageStore.consistent (MessageStore.store self) = true ->
  MessageStore._overwrite self (MessageStore.gen_MsgStoreID Message get_message_type BeginString m) user_input inp = Some (false, self1, inp1) ->
  exists q,
    MessageStore.update_store Message get_message_type BeginString msg_to_str
      (size (MessageStore.store self)) self m user_input None inp
    = Some (Ok (Spec.qualified
                  (Spec.id_prefix (BeginString m) (snd (get_message_type m))
                     (fst (get_message_type m))) q),
            MessageStore.Make
              (<[Spec.qualified
                   (Spec.id_prefix (BeginString m) (snd (get_message_type m))
                      (fst (get_message_type m))) q
                 := MessageStore.MsgObj
                      (Spec.qualified
                         (Spec.id_prefix (BeginString m) (snd (get_message_type m))
                            (fst (get_message_type m))) q)
                      (fst (get_message_type m) +:+ " (" +:+
                       snd (get_message_type m) +:+ ")")
                      (msg_to_str m)]> (MessageStore.store self))
              (MessageStore.auto_resp self1),
            inp1)
    /\ 1 <= q
    /\ MessageStore.store self
       !! Spec.qualified
            (Spec.id_prefix (BeginString m) (snd (get_message_type m))
               (fst (get_message_type m))) q = None
    /\ (forall q', 1 <= q' < q ->
          is_Some (MessageStore.store self
                   !! Spec.qualified
                        (Spec.id_prefix (BeginString m) (snd (get_message_type m))
                           (fst (get_message_type m))) q')).
Proof.
  intros Hwf Hov.
  set (p := Spec.id_prefix (BeginString m) (snd (get_message_type m))
              (fst (get_message_type m))).
  pose proof (_overwrite_store _ _ _ _ _ _ _ Hov) as Hst.
  destruct (validate_loop_finds (MessageStore.store self) p 1 ltac:(lia) Hwf
              (size (MessageStore.store self)) 0%nat) as [k [_ [Hrun [Hfree Hused]]]].
  { intros j Hj. lia. }
  { lia. }
  exists (1 + Z.of_nat k). split; [|split; [lia|split; [exact Hfree|]]].
  - unfold MessageStore.update_store, MessageStore._validate_MsgStoreID.
    rewrite (gen_MsgStoreID_qualified m). fold p.
    rewrite gen_MsgStoreID_qualified in Hov. fold p in Hov.
    destruct (get_message_type m) as [ty name] eqn:Hty.
    rewrite Hov.
    rewrite split_qualified, last_last by lia.
    change (PyStr.isnumeric (PyStr.str 1)) with true. cbn [negb].
    rewrite Hst.
    change (Spec.qualified p 1) with (Spec.qualified p (1 + Z.of_nat 0)).
    rewrite Hrun. cbn [MessageStore.id fst snd]. rewrite Hst. reflexivity.
  - intros q' Hq'.
    replace q' with (1 + Z.of_nat (Z.to_nat (q' - 1))) by lia.
    apply Hused. lia.
Qed.

End StoreTheorems.

(** C5, as worded, fails on its last part: in a store that holds the ids
    with qualifiers 1 and 3 of a message type, two consecutive saves of
    that type return the qualifiers 2 and 4. *)
Lemma save_twice_skips_used_qualifier :
  match Example.save 2 Example.gap_store "B" with
  | Some (Ok id1, store1, _) =>
      id1 = "FIX.4.2:NewOrderSingle-D:2"
      /\ match Example.save 3 store1 "C" with
         | Some (Ok id2, _, _) => id2 = "FIX.4.2:NewOrderSingle-D:4"
         | _ => False
         end
  | _ => False
  end.
Proof. vm_compute. split; reflexivity. Qed.

(** C5, amended.  In a store whose entries sit under their own ids, a save
    without explicit id on which overwriting is not taken ends within as
    many rounds as the store has entries and returns the computed id with
    its qualifier raised from 1 to the first one not in use, so the id is
    new; it is stored and the store stays well formed.  A second save of
    the same message type, right after, returns the same id but for a
    greater qualifier, again the first one not in use: it is the first
    qualifier plus 1 exactly when that id was not in the store before. *)
Theorem save_twice_qualifiers (Message : Type)
    (get_message_type : Message -> string * string)
    (BeginString : Message -> string) (msg_to_str : Message -> string)
    (self : MessageStore.t) (m1 m2 : Message)
    (user_input1 user_input2 : option (list string))
    (inp : MessageStore.console)
    (self1 : MessageStore.t) (inp1 : MessageStore.console) :
  MessageStore.consistent (MessageStore.store self) = true ->
  get_message_type m2 = get_message_type m1 ->
  BeginString m2 = BeginString m1 ->
  MessageStore._overwrite self
    (MessageStore.gen_MsgStoreID Message get_message_type BeginString m1)
    user_input1 inp = Some (false, self1, inp1) ->
  exists (q1 : Z) (selfA : MessageStore.t),
    let p := Spec.id_prefix (BeginString m1) (snd (get_message_type m1))
               (fst (get_message_type m1)) in
    MessageStore.update_store Message get_message_type BeginString msg_to_str
      (size (MessageStore.store self)) self m1 user_input1 None inp
    = Some (Ok (Spec.qualified p q1), selfA, inp1)
    /\ 1 <= q1
    /\ MessageStore.store self !! Spec.qualified p q1 = None
    /\ (forall q, 1 <= q < q1 ->
                  is_Some (MessageStore.store self !! Spec.qualified p q))
    /\ is_Some (MessageStore.store selfA !! Spec.qualified p q1)
    /\ MessageStore.consistent (MessageStore.store selfA) = true
    /\ forall (self2 : MessageStore.t) (inp2 : MessageStore.console),
         MessageStore._overwrite selfA
           (MessageStore.gen_MsgStoreID Message get_message_type BeginString m2)
           user_input2 inp1 = Some (false, self2, inp2) ->
         exists (q2 : Z) (selfB : MessageStore.t),
           MessageStore.update_store Message get_message_type BeginString
             msg_to_str (size (MessageStore.store selfA)) selfA m2 user_input2
             None inp1
           = Some (Ok (Spec.qualified p q2), selfB, inp2)
           /\ q1 < q2
           /\ MessageStore.store self !! Spec.qualified p q2 = None
           /\ (forall q, q1 < q < q2 ->
                         is_Some (MessageStore.store self !! Spec.qualified p q))
           /\ (MessageStore.store self !! Spec.qualified p (q1 + 1) = None <->
               q2 = q1 + 1).
Proof.
  intros Hwf Hty Hbs Hov.
  destruct (update_store_qualifier Message get_message_type BeginString msg_to_str
              self m1 user_input1 inp self1 inp1 Hwf Hov)
    as [q1 [Hrun1 [Hq1 [Hfree1 Hused1]]]].
  set (p := Spec.id_prefix (BeginString m1) (snd (get_message_type m1))
              (fst (get_message_type m1))) in *.
  match type of Hrun1 with
  | _ = Some (_, ?s, _) => set (selfA := s) in *
  end.
  exists q1, selfA. cbn zeta.
  split; [exact Hrun1|]. split; [exact Hq1|]. split; [exact Hfree1|].
  split; [exact Hused1|].
  split; [unfold selfA; cbn [MessageStore.store]; rewrite lookup_insert_eq; eauto|].
  assert (HwfA : MessageStore.consistent (MessageStore.store selfA) = true).
  { unfold selfA. cbn [MessageStore.store].
    apply (consistent_insert _ (MessageStore.MsgObj (Spec.qualified p q1) _ _)).
    exact Hwf. }
  split; [exact HwfA|].
  intros self2 inp2 Hov2.
  destruct (update_store_qualifier Message get_message_type BeginString msg_to_str
              selfA m2 user_input2 inp1 self2 inp2 HwfA Hov2)
    as [q2 [Hrun2 [Hq2 [Hfree2 Hused2]]]].
  rewrite Hty, Hbs in Hrun2, Hfree2, Hused2. fold p in Hrun2, Hfree2, Hused2.
  unfold selfA in Hfree2, Hused2.
  cbn [MessageStore.store] in Hfree2, Hused2.
  assert (Hne : q2 <> q1).
  { intros ->. rewrite lookup_insert_eq in Hfree2. discriminate. }
  assert (Hfree2' : MessageStore.store self !! Spec.qualified p q2 = None).
  { rewrite lookup_insert_ne in Hfree2; [exact Hfree2|].
    intros Heq. apply qualified_inj in Heq; lia. }
  assert (Hlt : q1 < q2).
  { destruct (Z_lt_le_dec q2 q1) as [Hlt|Hge]; [|lia].
    destruct (Hused1 q2 ltac:(lia)) as [o Ho]. congruence. }
  assert (Hbetween : forall q, q1 < q < q2 ->
                      is_Some (MessageStore.store self !! Spec.qualified p q)).
  { intros q Hq. specialize (Hused2 q ltac:(lia)).
    rewrite lookup_insert_ne in Hused2; [exact Hused2|].
    intros Heq. apply qualified_inj in Heq; lia. }
  eexists q2, _. split; [exact Hrun2|]. split; [exact Hlt|].
  split; [exact Hfree2'|]. split; [exact Hbetween|].
  split.
  - intros Hnext. destruct (Z_lt_le_dec (q1 + 1) q2) as [Hgap|Hle]; [|lia].
    destruct (Hbetween (q1 + 1) ltac:(lia)) as [o Ho]. congruence.
  - intros ->. exact Hfree2'.
Qed.

Lemma save_twice_qualifiers_witness :
  exists (q1 : Z) (selfA : MessageStore.t),
    let p := Spec.id_prefix "FIX.4.2" "NewOrderSingle" "D" in
    Example.save 2 Example.gap_store "B" = Some (Ok (Spec.qualified p q1), selfA, [])
    /\ 1 <= q1
    /\ MessageStore.store Example.gap_store !! Spec.qualified p q1 = None
    /\ (forall q, 1 <= q < q1 ->
                  is_Some (MessageStore.store Example.gap_store !! Spec.qualified p q))
    /\ is_Some (MessageStore.store selfA !! Spec.qualified p q1)
    /\ MessageStore.consistent (MessageStore.store selfA) = true
    /\ forall (self2 : MessageStore.t) (inp2 : MessageStore.console),
         MessageStore._overwrite selfA
           (MessageStore.gen_MsgStoreID string Example.order_type
              Example.order_begin_string "C") None [] = Some (false, self2, inp2) ->
         exists (q2 : Z) (selfB : MessageStore.t),
           MessageStore.update_store string Example.order_type
             Example.order_begin_string Example.order_raw
             (size (MessageStore.store selfA)) selfA "C" None None []
           = Some (Ok (Spec.qualified p q2), selfB, inp2)
           /\ q1 < q2
           /\ MessageStore.store Example.gap_store !! Spec.qualified p q2 = None
           /\ (forall q, q1 < q < q2 ->
                 is_Some (MessageStore.store Example.gap_store !! Spec.qualified p q))
           /\ (MessageStore.store Example.gap_store !! Spec.qualified p (q1 + 1) = None
               <-> q2 = q1 + 1).
Proof.
  apply (save_twice_qualifiers string Example.order_type Example.order_begin_string
           Example.order_raw Example.gap_store "B" "C" None None []
           Example.gap_store []).
  - vm_compute. reflexivity.
  - reflexivity.
  - reflexivity.
  - vm_compute. reflexivity.
Defined.

(** *** The logging hook *)

Lemma mbind_ok {A B : Type} (c : App.M A) (k : A -> App.M B) (a a' : App.t) (x : A) :
  c a = (Ok x, a') -> App.mbind c k a = k x a'.
Proof. intros H. unfold App.mbind. rewrite H. reflexivity. Qed.


Lemma _get_session_num_known (sid : string) (a : App.t) :
  exists n, App._get_session_num (Some sid) a = (Ok n, a).
Proof.
  unfold App._get_session_num.
  destruct (map_to_list (App.sessions a)) as [|p l]; [eauto|].
  destruct (List.find _ _); eauto.
Qed.

Section Logging.

Variable E : App.Env.
Variable init : string -> App.M unit.

Lemma _log_to_file_writes (sid : string) (o : App.msg_obj) (a : App.t)
    (log_file : string) :
  App.session_message_log_file a !! sid = Some log_file ->
  App.can_append E log_file = true ->
  App._log_to_file E sid o a
  = (Ok (App.MsgObj (App.gen_timestamp_at E (App.tick a)) (App.uuid o)
           (App.state o) (App.route o) (App.type o) (App.msg o) (App.notes o)
           (App.id o)),
     App.set_files
       (<[log_file :=
            (default [] (App.files a !! log_file) ++
             [App.row (App.MsgObj (App.gen_timestamp_at E (App.tick a))
                         (App.uuid o) (App.state o) (App.route o) (App.type o)
                         (App.msg o) (App.notes o) (App.id o))])%list]>
          (App.files a))
       (App.set_tick (S (App.tick a)) a)).
Proof.
  intros Hf Hc. unfold App._log_to_file. run_monad. app_simpl.
  rewrite Hf, Hc. reflexivity.
Qed.


Lemma record_entry_frame (sid : string) (o : App.msg_obj) (a : App.t) :
  App.files (snd (App.record_entry sid o a)) = App.files a
  /\ App.message_queue (snd (App.record_entry sid o a)) = App.message_queue a.
Proof.
  unfold App.record_entry, App._gen_HistoryID. run_monad.
  destruct (App.session_message_count a !! sid); app_simpl; [|auto].
  destruct (App.session_message_log a !! sid); app_simpl; auto.
Qed.

Lemma append_history_frame (msg_type : string) (message : App.message_ref)
    (sid : string) (o : App.msg_obj) (a : App.t) :
  App.files (snd (App.append_history E msg_type message sid o a)) = App.files a
  /\ App.message_queue (snd (App.append_history E msg_type message sid o a))
     = App.message_queue a.
Proof.
  unfold App.append_history.
  destruct (App.test_req_lookup E message) as [v|e].
  - apply record_entry_frame.
  - destruct e; try (split; reflexivity).
    destruct (MessageStore.str_in _ _); [split; reflexivity|].
    apply record_entry_frame.
Qed.



End Logging.

(** *** Logging out *)

Lemma _get_session_num_unique (session_num sid : string) (a : App.t) :
  App.sessions a !! session_num = Some sid ->
  (forall n, App.sessions a !! n = Some sid -> n = session_num) ->
  App._get_session_num (Some sid) a = (Ok session_num, a).
Proof.
  intros Hs Huniq. unfold App._get_session_num.
  assert (Hin : In (session_num, sid) (map_to_list (App.sessions a))).
  { apply list_elem_of_In. by apply elem_of_map_to_list. }
  destruct (map_to_list (App.sessions a)) as [|p0 l] eqn:Hl; [destruct Hin|].
  destruct (List.find _ (p0 :: l)) as [[n s]|] eqn:Hfind.
  - apply find_some in Hfind as [Hp Heq]. simpl in Heq.
    apply String.eqb_eq in Heq. subst s.
    rewrite <- Hl in Hp. apply list_elem_of_In, elem_of_map_to_list in Hp.
    simpl. f_equal. f_equal. by apply Huniq.
  - exfalso. pose proof (find_none _ _ Hfind _ Hin) as Hn. simpl in Hn.
    by rewrite String.eqb_refl in Hn.
Qed.

Section Logout.

Variable E : App.Env.




End Logout.


(** With an engine that reports the session as logged on up to tick 6,
    [logout] polls four times: three polls find the session logged on
    within the deadline, the fourth finds it logged out. *)
Lemma logout_polls_until_logged_out :
  match App.logout Example.env_slow_logout 20 "0" Example.app0 with
  | Some (Ok _, a') => App.tick a' = 8%nat
  | _ => False
  end.
Proof. vm_compute. reflexivity. Qed.


(** *** The sequence tracker *)

Lemma same_tracker_refl (a : App.t) : App.same_tracker a a.
Proof. unfold App.same_tracker. repeat split. Qed.





Section Tracker.

Variable E : App.Env.
Variable init : string -> App.M unit.



Lemma keeps_item {V : Type} (f : App.t -> gmap string V) (k : string) (a : App.t) :
  App.same_tracker a (snd ((fun a => (App.item (f a) k, a)) a)).
Proof. apply same_tracker_refl. Qed.
















End Tracker.

Section TrackerTheorems.

Variable E : App.Env.
Variable init : string -> App.M unit.



End TrackerTheorems.





(** *** Fields of a raw message *)

Lemma split_cons_nosep (sep : ascii) (a b : string) :
  PyStr.all_chars (Spec.differs sep) a = true ->
  PyStr.split sep (a +:+ String sep b) = a :: PyStr.split sep b.
Proof.
  induction a as [|c a IH]; intros Ha.
  - rewrite append_nil_l. simpl. rewrite Ascii.eqb_refl. reflexivity.
  - simpl in Ha. apply andb_prop in Ha as [Hc Ha].
    rewrite append_cons. simpl.
    unfold Spec.differs in Hc. apply negb_true_iff in Hc. rewrite Hc.
    rewrite (IH Ha). reflexivity.
Qed.

Lemma split_fields_nosep (sep : ascii) (s : string) :
  Forall (fun f => PyStr.all_chars (Spec.differs sep) f = true) (PyStr.split sep s).
Proof.
  induction s as [|c s IH]; simpl.
  - constructor; [reflexivity | constructor].
  - destruct (Ascii.eqb c sep) eqn:Hc.
    + constructor; [reflexivity | exact IH].
    + destruct (PyStr.split sep s) as [|f fs]; inversion IH; subst.
      * constructor; [|constructor]. simpl. unfold Spec.differs. rewrite Hc. reflexivity.
      * constructor; [|assumption]. simpl. unfold Spec.differs at 1. rewrite Hc. simpl. assumption.
Qed.

Lemma join_cons2 (sep : ascii) (x y : string) (l : list string) :
  PyStr.join sep (x :: y :: l) = x +:+ String sep (PyStr.join sep (y :: l)).
Proof. reflexivity. Qed.

Lemma join_singleton (sep : ascii) (x : string) : PyStr.join sep [x] = x.
Proof. reflexivity. Qed.

Lemma split_join (sep : ascii) (l : list string) :
  l <> [] ->
  Forall (fun f => PyStr.all_chars (Spec.differs sep) f = true) l ->
  PyStr.split sep (PyStr.join sep l) = l.
Proof.
  induction l as [|x l IH]; intros Hne Hall; [congruence|].
  inversion Hall as [|? ? Hx Hl]; subst.
  destruct l as [|y l].
  - rewrite join_singleton. apply split_no_sep. exact Hx.
  - rewrite join_cons2, (split_cons_nosep _ _ _ Hx), IH; [reflexivity|discriminate|exact Hl].
Qed.

Lemma join_app (sep : ascii) (l1 l2 : list string) :
  l1 <> [] -> l2 <> [] ->
  PyStr.join sep (l1 ++ l2) = PyStr.join sep l1 +:+ String sep (PyStr.join sep l2).
Proof.
  induction l1 as [|x l1 IH]; intros H1 H2; [congruence|].
  destruct l1 as [|y l1].
  - destruct l2 as [|z l2]; [congruence|]. reflexivity.
  - change ((x :: y :: l1) ++ l2)%list with (x :: y :: (l1 ++ l2))%list.
    rewrite !join_cons2.
    change (y :: (l1 ++ l2))%list with ((y :: l1) ++ l2)%list.
    rewrite IH; [|discriminate|exact H2].
    rewrite append_assoc, append_cons. reflexivity.
Qed.

Lemma endswith_app (c : ascii) (s : string) :
  PyStr.endswith c (s +:+ String c "") = true.
Proof.
  induction s as [|a s IH].
  - simpl. apply Ascii.eqb_refl.
  - rewrite append_cons.
    destruct (s +:+ String c "") as [|b r] eqn:Hs.
    + destruct s; discriminate.
    + simpl. simpl in IH. exact IH.
Qed.

Lemma endswith_inv (c : ascii) (s : string) :
  PyStr.endswith c s = true -> exists s0, s = s0 +:+ String c "".
Proof.
  induction s as [|a s IH]; intros H; [discriminate|].
  destruct s as [|b r].
  - simpl in H. apply Ascii.eqb_eq in H. subst a. exists "". reflexivity.
  - destruct IH as [s0 Hs0]; [exact H|].
    exists (String a s0). rewrite append_cons, <- Hs0. reflexivity.
Qed.

Lemma endswith_nil (c : ascii) : PyStr.endswith c "" = false.
Proof. reflexivity. Qed.

(** The fields of a message that ends with its delimiter: a non-empty
    list of fields and an empty last one. *)
Lemma split_endswith (c : ascii) (s : string) :
  PyStr.endswith c s = true ->
  exists fs, fs <> [] /\ PyStr.split c s = (fs ++ [""])%list
             /\ s = PyStr.join c fs +:+ String c "".
Proof.
  intros H. destruct (endswith_inv _ _ H) as [s0 ->].
  exists (PyStr.split c s0). split; [apply split_nonempty|].
  split; [apply split_app_sep; reflexivity|].
  rewrite join_split. reflexivity.
Qed.

Lemma join_last_empty (sep : ascii) (fs : list string) :
  fs <> [] ->
  PyStr.join sep (fs ++ [""]) = PyStr.join sep fs +:+ String sep "".
Proof. intros H. rewrite join_app; [reflexivity|exact H|discriminate]. Qed.

Lemma detect_SOH_endswith (d : ascii) (s : string) :
  PyStr.endswith d s = true -> Utils.detect_SOH d s = d.
Proof. intros H. unfold Utils.detect_SOH. rewrite H. reflexivity. Qed.

Lemma startswith_nil (tag : string) :
  tag <> "" -> PyStr.startswith tag "" = false.
Proof. destruct tag; [congruence | reflexivity]. Qed.

Lemma tag_nonempty (t : string) : t +:+ "=" <> "".
Proof. destruct t; discriminate. Qed.

Lemma all_chars_app (p : ascii -> bool) (a b : string) :
  PyStr.all_chars p (a +:+ b) = PyStr.all_chars p a && PyStr.all_chars p b.
Proof.
  induction a as [|c a IH]; [reflexivity|].
  rewrite append_cons. simpl. rewrite IH, andb_assoc. reflexivity.
Qed.

Lemma set_field_loop_find (tag new : string) (fs : list string) :
  match list_find (fun f => PyStr.startswith tag f = true) fs with
  | Some (i, _) => Utils.set_field_loop tag new fs = <[i := new]> fs
  | None => Utils.set_field_loop tag new fs = fs
  end.
Proof.
  induction fs as [|f fs IH]; [reflexivity|].
  cbn [list_find Utils.set_field_loop].
  destruct (PyStr.startswith tag f) eqn:Hf.
  - rewrite decide_True; [reflexivity|reflexivity].
  - rewrite decide_False; [|congruence].
    destruct (list_find _ fs) as [[i x]|]; cbn.
    + rewrite IH. reflexivity.
    + rewrite IH. reflexivity.
Qed.

Lemma set_field_loop_last (tag new : string) (fs : list string) :
  tag <> "" ->
  Utils.set_field_loop tag new (fs ++ [""])
  = (Utils.set_field_loop tag new fs ++ [""])%list.
Proof.
  intros Ht. induction fs as [|f fs IH]; cbn [app Utils.set_field_loop].
  - rewrite (startswith_nil _ Ht). reflexivity.
  - destruct (PyStr.startswith tag f); [reflexivity|]. rewrite IH. reflexivity.
Qed.

Lemma set_field_loop_nonempty (tag new : string) (fs : list string) :
  fs <> [] -> Utils.set_field_loop tag new fs <> [].
Proof.
  destruct fs as [|f fs]; [congruence|]. intros _. simpl.
  destruct (PyStr.startswith tag f); discriminate.
Qed.

Lemma set_field_loop_nosep (sep : ascii) (tag new : string) (fs : list string) :
  PyStr.all_chars (Spec.differs sep) new = true ->
  Forall (fun f => PyStr.all_chars (Spec.differs sep) f = true) fs ->
  Forall (fun f => PyStr.all_chars (Spec.differs sep) f = true)
    (Utils.set_field_loop tag new fs).
Proof.
  intros Hn. induction 1 as [|f fs Hf Hfs IH]; simpl; [constructor|].
  destruct (PyStr.startswith tag f); constructor; assumption.
Qed.

(** X1.  On a message that ends with the printable delimiter,
    [msg_str_set_field] rewrites the first field that starts with the tag
    into [tag=value] and leaves every other field, and the number of
    fields, as they were; when no field starts with the tag the message
    comes back unchanged - the field is not added. *)
Theorem msg_str_set_field_rewrites_first (d : ascii) (m : string) (t v : pyval) :
  PyStr.endswith d m = true ->
  PyStr.all_chars (Spec.differs d) (PyStr.format t +:+ "=" +:+ PyStr.format v) = true ->
  match list_find (fun f => PyStr.startswith (PyStr.format t +:+ "=") f = true)
          (PyStr.split d m) with
  | Some (i, _) =>
      PyStr.split d (Utils.msg_str_set_field d m t v)
      = <[i := PyStr.format t +:+ "=" +:+ PyStr.format v]> (PyStr.split d m)
  | None => Utils.msg_str_set_field d m t v = m
  end.
Proof.
  intros Hend Hnew.
  unfold Utils.msg_str_set_field.
  rewrite (detect_SOH_endswith _ _ Hend), append_assoc.
  pose proof (set_field_loop_find (PyStr.format t +:+ "=")
                (PyStr.format t +:+ "=" +:+ PyStr.format v) (PyStr.split d m)) as Hfind.
  destruct (list_find _ (PyStr.split d m)) as [[i x]|] eqn:Hlf.
  - rewrite <- Hfind. clear Hfind Hlf.
    apply split_join.
    + apply set_field_loop_nonempty, split_nonempty.
    + apply set_field_loop_nosep; [exact Hnew|apply split_fields_nosep].
  - rewrite Hfind. apply join_split.
Qed.

Lemma msg_str_set_field_rewrites_first_witness :
  match list_find (fun f => PyStr.startswith (PyStr.format (PInt 35) +:+ "=") f = true)
          (PyStr.split "|" "8=FIX.4.2|9=5|35=A|10=000|") with
  | Some (i, _) =>
      PyStr.split "|"
        (Utils.msg_str_set_field "|" "8=FIX.4.2|9=5|35=A|10=000|" (PInt 35) (PStr "D"))
      = <[i := PyStr.format (PInt 35) +:+ "=" +:+ PyStr.format (PStr "D")]>
          (PyStr.split "|" "8=FIX.4.2|9=5|35=A|10=000|")
  | None =>
      Utils.msg_str_set_field "|" "8=FIX.4.2|9=5|35=A|10=000|" (PInt 35) (PStr "D")
      = "8=FIX.4.2|9=5|35=A|10=000|"
  end.
Proof.
  apply (msg_str_set_field_rewrites_first "|" "8=FIX.4.2|9=5|35=A|10=000|"
           (PInt 35) (PStr "D")); vm_compute; reflexivity.
Defined.

Lemma remove_field_loop_filter (tag : string) (fs acc : list string) :
  Utils.remove_field_loop tag fs acc
  = (acc ++ List.filter (fun f => negb (PyStr.startswith tag f)) fs)%list.
Proof.
  revert acc. induction fs as [|f fs IH]; intros acc;
    cbn [Utils.remove_field_loop List.filter].
  - rewrite app_nil_r. reflexivity.
  - rewrite IH. destruct (PyStr.startswith tag f); cbn [negb].
    + reflexivity.
    + rewrite <- app_assoc. reflexivity.
Qed.

Lemma filter_last_kept (tag : string) (fs : list string) :
  tag <> "" ->
  List.filter (fun f => negb (PyStr.startswith tag f)) (fs ++ [""])
  = (List.filter (fun f => negb (PyStr.startswith tag f)) fs ++ [""])%list.
Proof.
  intros Ht. rewrite List.filter_app. cbn [List.filter].
  rewrite (startswith_nil _ Ht). reflexivity.
Qed.

Lemma get_field_loop_absent (tag : string) (fs : list string) :
  Forall (fun f => PyStr.startswith tag f = false) fs ->
  Utils.get_field_loop tag fs = Ok None.
Proof.
  induction 1 as [|f fs Hf Hfs IH]; cbn [Utils.get_field_loop]; [reflexivity|].
  rewrite Hf. exact IH.
Qed.

Lemma filter_nosep (sep : ascii) (p : string -> bool) (fs : list string) :
  Forall (fun f => PyStr.all_chars (Spec.differs sep) f = true) fs ->
  Forall (fun f => PyStr.all_chars (Spec.differs sep) f = true) (List.filter p fs).
Proof.
  induction 1 as [|f fs Hf Hfs IH]; cbn [List.filter]; [constructor|].
  destruct (p f); [constructor|]; assumption.
Qed.

Lemma filter_tag_absent (tag : string) (fs : list string) :
  Forall (fun f => PyStr.startswith tag f = false)
    (List.filter (fun f => negb (PyStr.startswith tag f)) fs).
Proof.
  induction fs as [|f fs IH]; cbn [List.filter]; [constructor|].
  destruct (PyStr.startswith tag f) eqn:Hf; cbn [negb]; [exact IH|].
  constructor; assumption.
Qed.

(** X2.  After [msg_str_remove_field] has removed a tag from a message
    that ends with the printable delimiter, looking the tag up raises
    [FieldNotFound]: no field with the tag is left, however many there
    were. *)
Theorem msg_str_remove_then_get_not_found (d : ascii) (m : string) (t : Z) :
  PyStr.endswith d m = true ->
  Utils.msg_str_get_field d (Utils.msg_str_remove_field d m (PInt t)) (PInt t)
  = Raise FieldNotFound.
Proof.
  intros Hend.
  destruct (split_endswith _ _ Hend) as [fs [Hne [Hsplit Hm]]].
  unfold Utils.msg_str_remove_field.
  rewrite (detect_SOH_endswith _ _ Hend), Hsplit, remove_field_loop_filter.
  cbn [app PyStr.format].
  rewrite (filter_last_kept _ _ (tag_nonempty _)).
  set (tag := PyStr.str t +:+ "=").
  set (kept := List.filter (fun f => negb (PyStr.startswith tag f)) fs).
  assert (Hsep : Forall (fun f => PyStr.all_chars (Spec.differs d) f = true)
                   (kept ++ [""])).
  { apply Forall_app. split.
    - apply filter_nosep.
      pose proof (split_fields_nosep d m) as H. rewrite Hsplit in H.
      apply Forall_app in H. tauto.
    - constructor; [reflexivity|constructor]. }
  assert (Habs : Forall (fun f => PyStr.startswith tag f = false) (kept ++ [""])).
  { apply Forall_app. split; [apply filter_tag_absent|].
    constructor; [apply startswith_nil, tag_nonempty|constructor]. }
  unfold Utils.msg_str_get_field, Utils.bytes_to_ascii.
  cbn [PyStr.to_int bind].
  fold tag.
  destruct kept as [|k kept'] eqn:Hk.
  - cbn [app]. rewrite join_singleton. unfold Utils.detect_SOH.
    rewrite endswith_nil. cbn [PyStr.split Utils.get_field_loop]. unfold tag.
    rewrite (startswith_nil _ (tag_nonempty _)). reflexivity.
  - rewrite join_last_empty; [|discriminate].
    rewrite (detect_SOH_endswith _ _ (endswith_app _ _)).
    rewrite <- join_last_empty; [|discriminate].
    rewrite split_join; [|destruct kept'; discriminate|exact Hsep].
    rewrite (get_field_loop_absent _ _ Habs). reflexivity.
Qed.

Lemma msg_str_remove_then_get_not_found_witness :
  Utils.msg_str_get_field "|"
    (Utils.msg_str_remove_field "|" "8=FIX.4.2|35=D|58=a|58=b|10=000|" (PInt 58))
    (PInt 58)
  = Raise FieldNotFound.
Proof.
  apply (msg_str_remove_then_get_not_found "|" "8=FIX.4.2|35=D|58=a|58=b|10=000|" 58).
  vm_compute. reflexivity.
Defined.

Lemma startswith_app (a b : string) : PyStr.startswith a (a +:+ b) = true.
Proof.
  unfold PyStr.startswith. apply String.prefix_correct.
  apply substring_append_prefix.
Qed.






Lemma slice_inner {A : Type} (a b x y : A) (l : list A) :
  PyList.slice 2 (-2) (a :: b :: l ++ [x; y]) = l.
Proof.
  unfold PyList.slice, PyList.clamp.
  cbn [length]. rewrite length_app. cbn [length].
  replace (2 <? 0) with false by reflexivity.
  replace (-2 <? 0) with true by reflexivity.
  replace (Z.to_nat (Z.min 2 (Z.of_nat (S (S (length l + 2)))))) with 2%nat by lia.
  replace (Z.to_nat (Z.max (Z.of_nat (S (S (length l + 2))) + -2) 0
                     - Z.min 2 (Z.of_nat (S (S (length l + 2))))))
    with (length l) by lia.
  cbn [drop]. apply take_app_length.
Qed.

Lemma slice_inner_short {A : Type} (l : list A) :
  (length l <= 4)%nat -> PyList.slice 2 (-2) l = [].
Proof.
  intros H. unfold PyList.slice, PyList.clamp.
  replace (2 <? 0) with false by reflexivity.
  replace (-2 <? 0) with true by reflexivity.
  replace (Z.to_nat (Z.max (Z.of_nat (length l) + -2) 0 - Z.min 2 (Z.of_nat (length l))))
    with 0%nat by lia.
  apply take_0.
Qed.

(** X4.  For a message of the shape [f0|f1|body|chk|] - two leading
    fields, any body, the trailing field and the final delimiter, all in
    the printable delimiter - [msg_str_calc_length] is the number of
    characters of the body plus one for the delimiter that ends it. *)
Theorem msg_str_calc_length_body (d : ascii) (f0 f1 body chk : string) :
  PyStr.all_chars (Spec.differs d) f0 = true ->
  PyStr.all_chars (Spec.differs d) f1 = true ->
  PyStr.all_chars (Spec.differs d) chk = true ->
  Utils.msg_str_calc_length d
    (f0 +:+ String d (f1 +:+ String d (body +:+ String d (chk +:+ String d ""))))
  = Z.of_nat (String.length body) + 1.
Proof.
  intros H0 H1 Hc.
  unfold Utils.msg_str_calc_length.
  rewrite (split_cons_nosep _ _ _ H0), (split_cons_nosep _ _ _ H1).
  replace (body +:+ String d (chk +:+ String d ""))
    with ((body +:+ String d chk) +:+ String d "")
    by (rewrite append_assoc, append_cons; reflexivity).
  rewrite split_app_sep by reflexivity.
  rewrite split_app_sep by exact Hc.
  rewrite <- app_assoc. cbn [app].
  rewrite slice_inner, join_split, append_length. cbn [String.length]. lia.
Qed.

Lemma msg_str_calc_length_body_witness :
  Utils.msg_str_calc_length "|" "8=FIX.4.2|9=0|35=D|55=EUR/USD|10=000|" = 16.
Proof.
  apply (msg_str_calc_length_body "|" "8=FIX.4.2" "9=0" "35=D|55=EUR/USD" "10=000");
    vm_compute; reflexivity.
Defined.

(** X5.  [msg_str_calc_length] counts fields between printable
    delimiters only: a message with at most four such fields - in
    particular any message written with SOH delimiters and containing no
    printable delimiter - is given the length 1. *)
Theorem msg_str_calc_length_short (d : ascii) (m : string) :
  (length (PyStr.split d m) <= 4)%nat ->
  Utils.msg_str_calc_length d m = 1.
Proof.
  intros H. unfold Utils.msg_str_calc_length.
  rewrite (slice_inner_short _ H). reflexivity.
Qed.

Lemma msg_str_calc_length_short_witness :
  Utils.msg_str_calc_length "|"
    (PyStr.replace_char "|" SOH_BIN "8=FIX.4.2|9=0|35=D|55=EUR/USD|10=000|") = 1.
Proof.
  apply (msg_str_calc_length_short "|"
           (PyStr.replace_char "|" SOH_BIN "8=FIX.4.2|9=0|35=D|55=EUR/USD|10=000|")).
  vm_compute. lia.
Defined.

(** *** The checksum and the checksum field *)

Lemma replace_char_app (old new : ascii) (a b : string) :
  PyStr.replace_char old new (a +:+ b)
  = PyStr.replace_char old new a +:+ PyStr.replace_char old new b.
Proof.
  induction a as [|c a IH]; [reflexivity|].
  rewrite append_cons. cbn [PyStr.replace_char]. rewrite IH. reflexivity.
Qed.

Lemma replace_char_length (old new : ascii) (s : string) :
  String.length (PyStr.replace_char old new s) = String.length s.
Proof. induction s as [|c s IH]; [reflexivity|]. cbn. rewrite IH. reflexivity. Qed.

Lemma substring_app_within (a b : string) (j n : nat) :
  (j + n <= String.length a)%nat ->
  String.substring j n (a +:+ b) = String.substring j n a.
Proof.
  revert j n. induction a as [|c a IH]; intros j n H.
  - cbn in H. assert (j = 0%nat) by lia. assert (n = 0%nat) by lia. subst.
    rewrite append_nil_l. destruct b; reflexivity.
  - rewrite append_cons. destruct j as [|j].
    + destruct n as [|n]; [reflexivity|].
      cbn [String.substring]. rewrite IH; [reflexivity|]. cbn in H. lia.
    + cbn [String.substring]. apply IH. cbn in H. lia.
Qed.

Lemma startswith_inv (p s : string) :
  PyStr.startswith p s = true -> exists r, s = p +:+ r.
Proof.
  unfold PyStr.startswith. revert s.
  induction p as [|c p IH]; intros s H.
  - exists s. reflexivity.
  - destruct s as [|a s]; [discriminate|]. cbn in H.
    destruct (Ascii.ascii_dec c a) as [->|]; [|discriminate].
    destruct (IH s H) as [r ->]. exists r. reflexivity.
Qed.

Lemma startswith_app_l (p a b : string) :
  PyStr.startswith p a = true -> PyStr.startswith p (a +:+ b) = true.
Proof.
  intros H. destruct (startswith_inv _ _ H) as [r ->].
  rewrite append_assoc. apply startswith_app.
Qed.

(** The two outcomes of the replacement loop of [msg_str_set_field]. *)
Lemma set_field_loop_cases (tag new : string) (fs : list string) :
  (Forall (fun f => PyStr.startswith tag f = false) fs
   /\ Utils.set_field_loop tag new fs = fs)
  \/ exists pre old post,
       fs = (pre ++ old :: post)%list
       /\ Forall (fun f => PyStr.startswith tag f = false) pre
       /\ PyStr.startswith tag old = true
       /\ Utils.set_field_loop tag new fs = (pre ++ new :: post)%list.
Proof.
  induction fs as [|f fs IH]; cbn [Utils.set_field_loop].
  - left. split; [constructor|reflexivity].
  - destruct (PyStr.startswith tag f) eqn:Hf.
    + right. exists [], f, fs. repeat split; [constructor|exact Hf].
    + destruct IH as [[Hall Heq]|[pre [old [post [-> [Hpre [Hold Heq]]]]]]].
      * left. split; [constructor; assumption|]. rewrite Heq. reflexivity.
      * right. exists (f :: pre), old, post.
        split; [reflexivity|]. split; [constructor; assumption|].
        split; [exact Hold|]. rewrite Heq. reflexivity.
Qed.

Lemma join_cons_tail (sep : ascii) (x : string) (l : list string) :
  exists r, PyStr.join sep (x :: l) = x +:+ r
            /\ forall y, PyStr.join sep (y :: l) = y +:+ r.
Proof.
  destruct l as [|z l].
  - exists "". split; [|intros y]; rewrite join_singleton, append_nil_r; reflexivity.
  - exists (String sep (PyStr.join sep (z :: l))). split; [|intros y]; apply join_cons2.
Qed.

Lemma all_chars_substring (p : ascii -> bool) (s : string) (i n : nat) :
  PyStr.all_chars p s = true -> PyStr.all_chars p (String.substring i n s) = true.
Proof.
  revert i n. induction s as [|c s IH]; intros i n H.
  - destruct i, n; reflexivity.
  - cbn in H. apply andb_prop in H as [Hc Hs].
    destruct i as [|i].
    + destruct n as [|n]; [reflexivity|]. cbn. rewrite Hc. apply IH. exact Hs.
    + cbn. apply IH. exact Hs.
Qed.

Lemma replace_char_differs (old new : ascii) (s : string) :
  new <> old ->
  PyStr.all_chars (Spec.differs old) (PyStr.replace_char old new s) = true.
Proof.
  intros Hne. induction s as [|c s IH]; [reflexivity|].
  cbn. rewrite IH, andb_true_r. unfold Spec.differs.
  destruct (Ascii.eqb c old) eqn:Hc.
  - apply negb_true_iff, Ascii.eqb_neq. exact Hne.
  - rewrite Hc. reflexivity.
Qed.

Lemma index_none_missing_char (pat s : string) (c : ascii) :
  PyStr.all_chars (Spec.differs c) s = true ->
  PyStr.all_chars (Spec.differs c) pat = false ->
  String.index 0 pat s = None.
Proof.
  intros Hs Hpat.
  destruct (String.index 0 pat s) as [i|] eqn:Hi; [|reflexivity].
  apply String.index_correct1 in Hi.
  pose proof (all_chars_substring _ _ i (String.length pat) Hs) as H.
  rewrite Hi in H. congruence.
Qed.

(** The first occurrence of a pattern and the characters before it do
    not depend on what follows a prefix that already holds the pattern. *)
Lemma index_common_prefix (pat x a b : string) (q : nat) :
  pat <> "" ->
  String.length x = (q + String.length pat)%nat ->
  String.substring q (String.length pat) x = pat ->
  exists i,
    String.index 0 pat (x +:+ a) = Some i
    /\ String.index 0 pat (x +:+ b) = Some i
    /\ String.substring 0 i (x +:+ a) = String.substring 0 i (x +:+ b).
Proof.
  intros Hne Hlen Hq.
  assert (Hocc : forall r, String.substring q (String.length pat) (x +:+ r) = pat).
  { intros r. rewrite substring_app_within; [exact Hq|lia]. }
  assert (Hsome : forall r, exists i,
             String.index 0 pat (x +:+ r) = Some i /\ (i <= q)%nat).
  { intros r. destruct (String.index 0 pat (x +:+ r)) as [i|] eqn:Hi.
    - exists i. split; [reflexivity|].
      destruct (le_lt_dec i q) as [Hle|Hlt]; [exact Hle|exfalso].
      eapply (String.index_correct2 _ _ _ _ Hi q); [lia|exact Hlt|apply Hocc].
    - exfalso.
      eapply (String.index_correct3 _ q _ _ Hi); [exact Hne|lia|apply Hocc]. }
  destruct (Hsome a) as [i [Hia Hiq]].
  destruct (Hsome b) as [j [Hjb Hjq]].
  assert (Hij : i = j).
  { pose proof (String.index_correct1 _ _ _ _ Hia) as Ha.
    pose proof (String.index_correct1 _ _ _ _ Hjb) as Hb.
    rewrite substring_app_within in Ha by lia.
    rewrite substring_app_within in Hb by lia.
    destruct (Nat.lt_trichotomy i j) as [Hlt|[Heq|Hgt]]; [exfalso|exact Heq|exfalso].
    - eapply (String.index_correct2 _ _ _ _ Hjb i); [lia|exact Hlt|].
      rewrite substring_app_within by lia. exact Ha.
    - eapply (String.index_correct2 _ _ _ _ Hia j); [lia|exact Hgt|].
      rewrite substring_app_within by lia. exact Hb. }
  subst j. exists i. split; [exact Hia|]. split; [exact Hjb|].
  rewrite !substring_app_within by lia. reflexivity.
Qed.

Lemma replace_char_id (old new : ascii) (s : string) :
  PyStr.all_chars (Spec.differs old) s = true -> PyStr.replace_char old new s = s.
Proof.
  induction s as [|c s IH]; intros H; [reflexivity|].
  cbn in H. apply andb_prop in H as [Hc Hs].
  unfold Spec.differs in Hc. apply negb_true_iff in Hc.
  cbn. rewrite Hc, (IH Hs). reflexivity.
Qed.

(** With a delimiter that is one of the characters of "10=", no message
    has a checksum. *)
Lemma msg_str_calc_chksum_no_pattern (d : ascii) (s : string) :
  PyStr.all_chars (Spec.differs d) "10=" = false ->
  Utils.msg_str_calc_chksum d s = Raise ValueError.
Proof.
  intros Hd. unfold Utils.msg_str_calc_chksum.
  rewrite (index_none_missing_char _ _ d); [reflexivity| |].
  - apply replace_char_differs. intros <-. vm_compute in Hd. discriminate.
  - cbn [PyStr.all_chars]. cbn [PyStr.all_chars] in Hd. rewrite Hd.
    apply andb_false_r.
Qed.

Lemma detect_SOH_replaced (d : ascii) (m : string) :
  (if Ascii.eqb (Utils.detect_SOH d m) d then SOH_BIN else Utils.detect_SOH d m)
  = SOH_BIN.
Proof.
  unfold Utils.detect_SOH. destruct (PyStr.endswith d m).
  - rewrite Ascii.eqb_refl. reflexivity.
  - destruct (Ascii.eqb SOH_BIN d); reflexivity.
Qed.

(** The main case: the delimiter is none of the characters of "10=". *)
Lemma chksum_after_set_field_10 (d : ascii) (m : string) (v : pyval) :
  PyStr.all_chars (Spec.differs d) "10=" = true ->
  PyStr.startswith "10=" m = false ->
  Utils.msg_str_calc_chksum d (Utils.msg_str_set_field d m (PInt 10) v)
  = Utils.msg_str_calc_chksum d m.
Proof.
  intros Hd Hstart.
  unfold Utils.msg_str_set_field.
  pose proof (detect_SOH_replaced d m) as Hsoh.
  pose proof (join_split (Utils.detect_SOH d m) m) as Hm.
  set (SOH := Utils.detect_SOH d m) in *. clearbody SOH.
  change (PyStr.format (PInt 10) +:+ "=") with "10=".
  destruct (set_field_loop_cases "10=" ("10=" +:+ PyStr.format v) (PyStr.split SOH m))
    as [[_ Heq]|[pre [old [post [Hfs [Hpre [Hold Heq]]]]]]].
  - rewrite Heq, Hm. reflexivity.
  - rewrite Heq. rewrite Hfs in Hm. clear Heq Hfs.
    destruct (startswith_inv _ _ Hold) as [old' ->].
    destruct (join_cons_tail SOH ("10=" +:+ old') post) as [R [Hr Hr']].
    destruct pre as [|p0 pre'].
    + exfalso. cbn [app] in Hm. rewrite Hr in Hm. rewrite <- Hm in Hstart.
      rewrite startswith_app_l in Hstart; [discriminate|apply startswith_app].
    + rewrite join_app in Hm by discriminate. rewrite Hr in Hm.
      rewrite join_app by discriminate. rewrite (Hr' ("10=" +:+ PyStr.format v)).
      set (P := PyStr.join SOH (p0 :: pre')) in *. clearbody P.
      subst m. clear Hr Hr' Hpre Hold Hstart.
      unfold Utils.msg_str_calc_chksum.
      rewrite !replace_char_app. cbn [PyStr.replace_char]. rewrite Hsoh.
      rewrite !replace_char_app.
      rewrite (replace_char_id d SOH_BIN "10=" Hd).
      set (rc := PyStr.replace_char d SOH_BIN).
      set (pat := String SOH_BIN "10=").
      replace (rc P +:+ String SOH_BIN (("10=" +:+ rc (PyStr.format v)) +:+ rc R))
        with ((rc P +:+ pat) +:+ (rc (PyStr.format v) +:+ rc R))
        by (unfold pat; rewrite !append_assoc, !append_cons; reflexivity).
      replace (rc P +:+ String SOH_BIN (("10=" +:+ rc old') +:+ rc R))
        with ((rc P +:+ pat) +:+ (rc old' +:+ rc R))
        by (unfold pat; rewrite !append_assoc, !append_cons; reflexivity).
      destruct (index_common_prefix pat (rc P +:+ pat)
                  (rc (PyStr.format v) +:+ rc R) (rc old' +:+ rc R)
                  (String.length (rc P)))
        as [i [Hia [Hib Hsub]]].
      * discriminate.
      * rewrite append_length. reflexivity.
      * rewrite substring_append_skip. reflexivity.
      * rewrite Hia, Hib, Hsub. reflexivity.
Qed.

(** X6.  The checksum does not depend on the value the checksum field
    already holds: on a message that does not begin with the checksum
    field, setting field 10 to any value leaves [msg_str_calc_chksum]
    as it was - the same value or the same [ValueError]. *)
Theorem msg_str_calc_chksum_ignores_field_10 (d : ascii) (m : string) (v : pyval) :
  PyStr.startswith "10=" m = false ->
  Utils.msg_str_calc_chksum d (Utils.msg_str_set_field d m (PInt 10) v)
  = Utils.msg_str_calc_chksum d m.
Proof.
  intros Hstart.
  destruct (PyStr.all_chars (Spec.differs d) "10=") eqn:Hd.
  - apply chksum_after_set_field_10; assumption.
  - rewrite (msg_str_calc_chksum_no_pattern d m Hd).
    apply msg_str_calc_chksum_no_pattern. exact Hd.
Qed.

Lemma msg_str_calc_chksum_ignores_field_10_witness :
  Utils.msg_str_calc_chksum "|"
    (Utils.msg_str_set_field "|" "8=FIX.4.2|9=5|35=A|10=000|" (PInt 10) (PStr "178"))
  = Utils.msg_str_calc_chksum "|" "8=FIX.4.2|9=5|35=A|10=000|".
Proof.
  apply (msg_str_calc_chksum_ignores_field_10 "|" "8=FIX.4.2|9=5|35=A|10=000|" (PStr "178")).
  vm_compute. reflexivity.
Defined.

(** *** The message store: batch answers, look-up after saving, deletion *)

Lemma _overwrite_batch (self : MessageStore.t) (store_id : string)
    (user_input : option (list string)) (inp : MessageStore.console) :
  MessageStore.opt_in (MessageStore.auto_resp self) [YES_ALL; NO_ALL] = true ->
  MessageStore._overwrite self store_id user_input inp = Some (false, self, inp).
Proof.
  intros H. unfold MessageStore._overwrite. rewrite H, andb_false_r. reflexivity.
Qed.

Lemma _overwrite_YES_ALL (self : MessageStore.t) (store_id : string)
    (rest : list string) (inp : MessageStore.console) :
  is_Some (MessageStore.store self !! store_id) ->
  MessageStore.auto_resp self = None ->
  MessageStore._overwrite self store_id (Some (YES_ALL :: rest)) inp
  = Some (true, MessageStore.set_auto_resp self YES_ALL, inp).
Proof.
  intros Hin Hauto. unfold MessageStore._overwrite, MessageStore.mem.
  rewrite bool_decide_eq_true_2 by exact Hin.
  rewrite Hauto. reflexivity.
Qed.

Section StoreExtras.

Variable Message : Type.
Variable get_message_type : Message -> string * string.
Variable BeginString : Message -> string.
Variable msg_to_str : Message -> string.

(** X7.  The batch answer YES_ALL overwrites once.  Given with the
    message whose id is taken, it is recorded and that message replaces
    the stored one under the same id; from then on - [auto_resp] being
    YES_ALL - no message overwrites a stored one: the next save, whatever
    is passed as answer, asks nothing, gets an id that was not in use and
    leaves every stored entry as it was. *)
Theorem update_store_YES_ALL_overwrites_once (self : MessageStore.t) (m1 m2 : Message)
    (rest : list string) (user_input2 : option (list string))
    (inp : MessageStore.console) (fuel : nat) :
  MessageStore.consistent (MessageStore.store self) = true ->
  MessageStore.auto_resp self = None ->
  is_Some (MessageStore.store self
           !! MessageStore.gen_MsgStoreID Message get_message_type BeginString m1) ->
  exists selfA,
    MessageStore.update_store Message get_message_type BeginString msg_to_str
      fuel self m1 (Some (YES_ALL :: rest)) None inp
    = Some (Ok (MessageStore.gen_MsgStoreID Message get_message_type BeginString m1),
            selfA, inp)
    /\ MessageStore.auto_resp selfA = Some YES_ALL
    /\ MessageStore.store selfA
       !! MessageStore.gen_MsgStoreID Message get_message_type BeginString m1
       = Some (MessageStore.MsgObj
                 (MessageStore.gen_MsgStoreID Message get_message_type BeginString m1)
                 (fst (get_message_type m1) +:+ " (" +:+ snd (get_message_type m1) +:+ ")")
                 (msg_to_str m1))
    /\ exists id2 selfB,
         MessageStore.update_store Message get_message_type BeginString msg_to_str
           (size (MessageStore.store selfA)) selfA m2 user_input2 None inp
         = Some (Ok id2, selfB, inp)
         /\ MessageStore.store selfA !! id2 = None
         /\ (forall k o, MessageStore.store selfA !! k = Some o ->
                         MessageStore.store selfB !! k = Some o).
Proof.
  intros Hwf Hauto Hin.
  set (id1 := MessageStore.gen_MsgStoreID Message get_message_type BeginString m1) in *.
  set (obj1 := MessageStore.MsgObj id1
                 (fst (get_message_type m1) +:+ " (" +:+ snd (get_message_type m1) +:+ ")")
                 (msg_to_str m1)).
  set (selfA := MessageStore.Make (<[id1 := obj1]> (MessageStore.store self)) (Some YES_ALL)).
  exists selfA. split.
  { unfold MessageStore.update_store, MessageStore._validate_MsgStoreID.
    fold id1. rewrite (surjective_pairing (get_message_type m1)).
    rewrite (_overwrite_YES_ALL _ _ _ _ Hin Hauto). reflexivity. }
  split; [reflexivity|].
  split; [apply lookup_insert_eq|].
  assert (HwfA : MessageStore.consistent (MessageStore.store selfA) = true).
  { unfold selfA. cbn [MessageStore.store].
    apply (consistent_insert _ obj1). exact Hwf. }
  destruct (update_store_qualifier Message get_message_type BeginString msg_to_str
              selfA m2 user_input2 inp selfA inp HwfA)
    as [q [Hrun [Hq [Hfresh _]]]].
  { apply _overwrite_batch. reflexivity. }
  eexists _, _. split; [exact Hrun|].
  split; [exact Hfresh|].
  intros k o Hk. cbn [MessageStore.store].
  rewrite lookup_insert_ne; [exact Hk|].
  intros <-. rewrite Hfresh in Hk. discriminate.
Qed.

(** X8.  Whatever the answers, a message saved by [update_store] can be
    looked up under the id that was returned: the entry holds that id, the
    type line and the rendering of the message; every entry is still
    stored under its own id, and no entry under another id has changed. *)
Theorem update_store_then_lookup (self self' : MessageStore.t) (m : Message)
    (user_input : option (list string)) (store_id : option string)
    (inp inp' : MessageStore.console) (fuel : nat) (id' : string) :
  MessageStore.consistent (MessageStore.store self) = true ->
  MessageStore.update_store Message get_message_type BeginString msg_to_str
    fuel self m user_input store_id inp = Some (Ok id', self', inp') ->
  MessageStore.store self' !! id'
  = Some (MessageStore.MsgObj id'
            (fst (get_message_type m) +:+ " (" +:+ snd (get_message_type m) +:+ ")")
            (msg_to_str m))
  /\ MessageStore.consistent (MessageStore.store self') = true
  /\ (forall k, k <> id' ->
                MessageStore.store self' !! k = MessageStore.store self !! k).
Proof.
  intros Hwf Hrun.
  unfold MessageStore.update_store in Hrun.
  rewrite (surjective_pairing (get_message_type m)) in Hrun.
  unfold MessageStore._validate_MsgStoreID in Hrun.
  destruct (MessageStore._overwrite self _ user_input inp) as [[[b self1] inp1]|] eqn:Hov;
    [|discriminate].
  pose proof (_overwrite_store _ _ _ _ _ _ _ Hov) as Hst.
  assert (Hgoal : forall i s,
            (Some (Ok i, MessageStore.Make
                     (<[i := MessageStore.MsgObj i
                               (fst (get_message_type m) +:+ " (" +:+
                                snd (get_message_type m) +:+ ")")
                               (msg_to_str m)]> (MessageStore.store self1))
                     (MessageStore.auto_resp self1), s)
             = Some (Ok id', self', inp')) ->
            MessageStore.store self' !! id'
            = Some (MessageStore.MsgObj id'
                      (fst (get_message_type m) +:+ " (" +:+ snd (get_message_type m) +:+ ")")
                      (msg_to_str m))
            /\ MessageStore.consistent (MessageStore.store self') = true
            /\ (forall k, k <> id' ->
                   MessageStore.store self' !! k = MessageStore.store self !! k)).
  { intros i s Heq. injection Heq as -> <- _.
    cbn [MessageStore.store]. rewrite Hst.
    split; [apply lookup_insert_eq|].
    split.
    - apply (consistent_insert _ (MessageStore.MsgObj id' _ _)). exact Hwf.
    - intros k Hk. apply lookup_insert_ne. congruence. }
  destruct b.
  - apply (Hgoal _ _ Hrun).
  - destruct (MessageStore.validate_loop fuel (MessageStore.store self1) _)
      as [[i|e]|] eqn:Hloop; [|discriminate..].
    apply (Hgoal _ _ Hrun).
Qed.

End StoreExtras.

Lemma update_store_YES_ALL_overwrites_once_witness :
  exists selfA,
    MessageStore.update_store string Example.order_type Example.order_begin_string
      Example.order_raw 0 Example.single_store "B" (Some [YES_ALL]) None []
    = Some (Ok (MessageStore.gen_MsgStoreID string Example.order_type
                  Example.order_begin_string "B"), selfA, [])
    /\ MessageStore.auto_resp selfA = Some YES_ALL
    /\ MessageStore.store selfA
       !! MessageStore.gen_MsgStoreID string Example.order_type
            Example.order_begin_string "B"
       = Some (MessageStore.MsgObj
                 (MessageStore.gen_MsgStoreID string Example.order_type
                    Example.order_begin_string "B")
                 (fst (Example.order_type "B") +:+ " (" +:+
                  snd (Example.order_type "B") +:+ ")")
                 (Example.order_raw "B"))
    /\ exists id2 selfB,
         MessageStore.update_store string Example.order_type
           Example.order_begin_string Example.order_raw
           (size (MessageStore.store selfA)) selfA "C" (Some [YES_ALL]) None []
         = Some (Ok id2, selfB, [])
         /\ MessageStore.store selfA !! id2 = None
         /\ (forall k o, MessageStore.store selfA !! k = Some o ->
                         MessageStore.store selfB !! k = Some o).
Proof.
  apply (update_store_YES_ALL_overwrites_once string Example.order_type
           Example.order_begin_string Example.order_raw Example.single_store
           "B" "C" [] (Some [YES_ALL]) [] 0).
  - vm_compute. reflexivity.
  - reflexivity.
  - eexists. vm_compute. reflexivity.
Defined.

Lemma update_store_then_lookup_witness :
  MessageStore.store
    (MessageStore.Make
       (<["FIX.4.2:NewOrderSingle-D:2"
          := MessageStore.MsgObj "FIX.4.2:NewOrderSingle-D:2"
               "D (NewOrderSingle)" "8=FIX.4.2|35=D|55=B|"]>
          (MessageStore.store Example.gap_store))
       (Some YES_ALL))
  !! "FIX.4.2:NewOrderSingle-D:2"
  = Some (MessageStore.MsgObj "FIX.4.2:NewOrderSingle-D:2"
            (fst (Example.order_type "B") +:+ " (" +:+ snd (Example.order_type "B") +:+ ")")
            (Example.order_raw "B"))
  /\ MessageStore.consistent
       (MessageStore.store
          (MessageStore.Make
             (<["FIX.4.2:NewOrderSingle-D:2"
                := MessageStore.MsgObj "FIX.4.2:NewOrderSingle-D:2"
                     "D (NewOrderSingle)" "8=FIX.4.2|35=D|55=B|"]>
                (MessageStore.store Example.gap_store))
             (Some YES_ALL))) = true
  /\ (forall k, k <> "FIX.4.2:NewOrderSingle-D:2" ->
        MessageStore.store
          (MessageStore.Make
             (<["FIX.4.2:NewOrderSingle-D:2"
                := MessageStore.MsgObj "FIX.4.2:NewOrderSingle-D:2"
                     "D (NewOrderSingle)" "8=FIX.4.2|35=D|55=B|"]>
                (MessageStore.store Example.gap_store))
             (Some YES_ALL)) !! k
        = MessageStore.store Example.gap_store !! k).
Proof.
  apply (update_store_then_lookup string Example.order_type
           Example.order_begin_string Example.order_raw Example.gap_store _ "B"
           None None [] [] 2 "FIX.4.2:NewOrderSingle-D:2").
  - vm_compute. reflexivity.
  - vm_compute. reflexivity.
Defined.

Lemma confirm_loop_answer (response : string) (inp inp' : MessageStore.console)
    (r : string) :
  Delete.confirm_loop response inp = Some (Ok r, inp') ->
  r = "YES" \/ r = "NO".
Proof.
  revert response. induction inp as [|reply inp IH]; intros response H.
  - cbn [Delete.confirm_loop] in H.
    destruct (MessageStore.str_in response ["YES"; "NO"]) eqn:Hin; [|discriminate].
    injection H as <- _.
    apply In_existsb in Hin. destruct Hin as [<-|[<-|[]]]; auto.
  - cbn [Delete.confirm_loop] in H.
    destruct (MessageStore.str_in response ["YES"; "NO"]) eqn:Hin.
    + injection H as <- _.
      apply In_existsb in Hin. destruct Hin as [<-|[<-|[]]]; auto.
    + destruct reply as [|word ws]; [discriminate|]. eapply IH; eauto.
Qed.

(** X9.  Whatever is typed, the delete command touches no entry but the
    one named and never raises [KeyError]; the named entry is removed only
    on the answer YES, and then "<id> Deleted!" is what the operator is
    told. *)
Theorem Delete_run_frame (self self' : MessageStore.t) (store_id : string)
    (args_trail : list string) (inp : MessageStore.console) (r : Res unit)
    (out : list string) :
  Delete.run self store_id args_trail inp = Some (r, self', out) ->
  (forall k, k <> store_id ->
             MessageStore.store self' !! k = MessageStore.store self !! k)
  /\ MessageStore.auto_resp self' = MessageStore.auto_resp self
  /\ r <> Raise KeyError
  /\ (self' = self
      \/ (r = Ok tt
          /\ out = [store_id +:+ " Deleted!"]
          /\ MessageStore.store self' !! store_id = None
          /\ exists a0 inp',
               args_trail = a0 :: List.tl args_trail
               /\ Delete.confirm_loop (PyStr.upper a0) inp = Some (Ok "YES", inp'))).
Proof.
  unfold Delete.run. intros H.
  destruct (MessageStore.mem self store_id) eqn:Hmem.
  - destruct args_trail as [|a0 rest].
    + injection H as <- <- _. repeat split; try discriminate. left. reflexivity.
    + destruct (Delete.confirm_loop (PyStr.upper a0) inp) as [[[response|e] inp']|] eqn:Hc;
        [| |discriminate].
      * destruct (String.eqb response "YES") eqn:Hyes.
        -- apply String.eqb_eq in Hyes. subst response.
           unfold MessageStore.remove in H.
           destruct (MessageStore.store self !! store_id) as [obj|] eqn:Hl.
           ++ injection H as <- <- <-. cbn [MessageStore.store MessageStore.auto_resp].
              split; [intros k Hk; apply lookup_delete_ne; congruence|].
              split; [reflexivity|]. split; [discriminate|].
              right. split; [reflexivity|]. split; [reflexivity|].
              split; [apply lookup_delete_eq|].
              exists a0, inp'. split; [reflexivity|exact Hc].
           ++ unfold MessageStore.mem in Hmem. rewrite Hl in Hmem.
              apply bool_decide_eq_true_1 in Hmem. destruct Hmem; discriminate.
        -- injection H as <- <- _. repeat split; try discriminate. left. reflexivity.
      * injection H as <- <- _.
        assert (e = IndexError).
        { clear -Hc. revert Hc. generalize (PyStr.upper a0).
          induction inp as [|reply inp IH]; intros s Hc; cbn [Delete.confirm_loop] in Hc.
          - destruct (MessageStore.str_in s ["YES"; "NO"]); discriminate.
          - destruct (MessageStore.str_in s ["YES"; "NO"]); [discriminate|].
            destruct reply as [|w ws]; [congruence|]. eapply IH; eauto. }
        subst e. repeat split; try discriminate. left. reflexivity.
  - injection H as <- <- _. repeat split; try discriminate. left. reflexivity.
Qed.

Lemma Delete_run_frame_witness :
  (forall k, k <> Example.order_id 1 ->
             MessageStore.store (MessageStore.Make ∅ None) !! k
             = MessageStore.store Example.single_store !! k)
  /\ MessageStore.auto_resp (MessageStore.Make ∅ None)
     = MessageStore.auto_resp Example.single_store
  /\ Ok tt <> Raise KeyError
  /\ (MessageStore.Make ∅ None = Example.single_store
      \/ (Ok tt = Ok tt
          /\ [Example.order_id 1 +:+ " Deleted!"] = [Example.order_id 1 +:+ " Deleted!"]
          /\ MessageStore.store (MessageStore.Make ∅ None) !! Example.order_id 1 = None
          /\ exists a0 inp',
               ["maybe"] = a0 :: List.tl ["maybe"]
               /\ Delete.confirm_loop (PyStr.upper a0) [["yes "]] = Some (Ok "YES", inp'))).
Proof.
  apply (Delete_run_frame Example.single_store (MessageStore.Make ∅ None)
           (Example.order_id 1) ["maybe"] [["yes "]] (Ok tt)
           [Example.order_id 1 +:+ " Deleted!"]).
  vm_compute. reflexivity.
Defined.

(** *** Logon *)

Section Logon.

Variable E : App.Env.



End Logon.

(** With an engine that reports the session as logged on from tick 6
    on, [logon] polls three times: two polls find the session not logged
    on within the deadline, the third finds it logged on. *)
Lemma logon_polls_until_logged_on :
  match App.logon Example.env_slow_logon 400 "0" Example.app0 with
  | Some (Ok _, a') =>
      App.tick a' = 7%nat
      /\ App.engine_calls a' = [App.CallLogon Example.sid]
  | _ => False
  end.
Proof. vm_compute. split; reflexivity. Qed.


(** *** History ids *)

Lemma same_history_refl (a : App.t) : App.same_history a a.
Proof. split; reflexivity. Qed.

Lemma same_history_trans (a b c : App.t) :
  App.same_history a b -> App.same_history b c -> App.same_history a c.
Proof. intros [H1 H2] [H3 H4]. split; congruence. Qed.

Lemma history_bind {A B : Type} (c : App.M A) (k : A -> App.M B) :
  (forall a, App.same_history a (snd (c a))) ->
  (forall x a, App.same_history a (snd (k x a))) ->
  forall a, App.same_history a (snd (App.mbind c k a)).
Proof.
  intros Hc Hk a. unfold App.mbind. specialize (Hc a).
  destruct (c a) as [[x|e] a1]; simpl in *; [|exact Hc].
  eapply same_history_trans; [exact Hc | apply Hk].
Qed.

Lemma combine_app_same {A B : Type} (l1 l2 : list A) (k1 k2 : list B) :
  length l1 = length k1 ->
  combine (l1 ++ l2) (k1 ++ k2) = (combine l1 k1 ++ combine l2 k2)%list.
Proof.
  revert k1. induction l1 as [|x l1 IH]; intros [|y k1] H; try discriminate.
  - reflexivity.
  - cbn. rewrite IH; [reflexivity|]. cbn in H. lia.
Qed.

Lemma history_step_numbered (a a' : App.t) (sid sid' : string) :
  App.history_step a a' sid ->
  App.history_numbered a sid' = true ->
  App.history_numbered a' sid' = true.
Proof.
  intros [[Hl Hc]|(n & Hn & Hc & [[Hl Hnone]|(log & o & Hlog & Hl & Hid)])] Hok.
  - unfold App.history_numbered in *. rewrite Hl, Hc. exact Hok.
  - unfold App.history_numbered in *. rewrite Hl, Hc.
    destruct (decide (sid' = sid)) as [->|Hne].
    + rewrite Hnone in Hok. discriminate.
    + rewrite lookup_insert_ne by congruence. exact Hok.
  - unfold App.history_numbered in *. rewrite Hl, Hc.
    destruct (decide (sid' = sid)) as [->|Hne].
    + rewrite !lookup_insert_eq. rewrite Hlog, Hn in Hok.
      apply andb_prop in Hok as [Hcount Hids]. apply Z.eqb_eq in Hcount.
      rewrite length_app. cbn [length].
      apply andb_true_intro. split; [apply Z.eqb_eq; lia|].
      rewrite seq_app. cbn [seq].
      rewrite combine_app_same by (rewrite length_seq; reflexivity).
      rewrite forallb_app, Hids. cbn [combine forallb fst snd].
      rewrite Hid. rewrite andb_true_r. apply Z.eqb_eq. lia.
    + rewrite !lookup_insert_ne by congruence. exact Hok.
Qed.

Lemma history_step_after (a a1 a2 : App.t) (sid : string) :
  App.same_history a a1 -> App.history_step a1 a2 sid -> App.history_step a a2 sid.
Proof.
  intros [Hl Hc] Hstep. unfold App.history_step, App.same_history in *.
  rewrite Hl, Hc in Hstep. exact Hstep.
Qed.

Lemma history_step_bind {A B : Type} (c : App.M A) (k : A -> App.M B) (sid : string) :
  (forall a, App.same_history a (snd (c a))) ->
  (forall x a, App.history_step a (snd (k x a)) sid) ->
  forall a, App.history_step a (snd (App.mbind c k a)) sid.
Proof.
  intros Hc Hk a. unfold App.mbind. specialize (Hc a).
  destruct (c a) as [[x|e] a1]; simpl in *; [|left; exact Hc].
  eapply history_step_after; [exact Hc | apply Hk].
Qed.

Lemma record_entry_step (sid : string) (o : App.msg_obj) (a : App.t) :
  App.history_step a (snd (App.record_entry sid o a)) sid.
Proof.
  unfold App.record_entry, App._gen_HistoryID. run_monad.
  destruct (App.session_message_count a !! sid) as [n|] eqn:Hn; app_simpl;
    [|left; apply same_history_refl].
  right. exists n. split; [exact Hn|].
  destruct (App.session_message_log a !! sid) as [log|] eqn:Hlog; app_simpl.
  - split; [reflexivity|]. right. eexists log, _.
    split; [first [exact Hlog|reflexivity]|]. split; reflexivity.
  - split; [reflexivity|]. left. split; [reflexivity|first [exact Hlog|reflexivity]].
Qed.

Section History.

Variable E : App.Env.
Variable init : string -> App.M unit.

Lemma append_history_step (ty : string) (m : App.message_ref) (sid : string)
    (o : App.msg_obj) (a : App.t) :
  App.history_step a (snd (App.append_history E ty m sid o a)) sid.
Proof.
  unfold App.append_history.
  destruct (App.test_req_lookup E m) as [v|e].
  - apply record_entry_step.
  - destruct e; try (left; apply same_history_refl).
    destruct (MessageStore.str_in _ _);
      [left; apply same_history_refl | apply record_entry_step].
Qed.

Lemma history__log_to_file (sid : string) (o : App.msg_obj) (a : App.t) :
  App.same_history a (snd (App._log_to_file E sid o a)).
Proof.
  revert a. unfold App._log_to_file.
  apply history_bind; [intros a; split; reflexivity | intros now].
  apply history_bind; [intros a; split; reflexivity | intros f].
  apply history_bind; [|intros _ a; apply same_history_refl].
  intros a. unfold App.modify. cbn [snd].
  destruct (App.can_append E f); split; reflexivity.
Qed.

Lemma history_intercept (sid : string) (m : App.message_ref) (o : App.msg_obj)
    (a : App.t) :
  App.same_history a (snd (App.intercept E sid m o a)).
Proof.
  revert a. unfold App.intercept.
  apply history_bind; [intros a; split; reflexivity | intros q].
  destruct q as [|item0 q]; [intros a; split; reflexivity|].
  apply history_bind; [|intros decoded].
  { intros a. unfold App.bytes_to_ascii_queued.
    destruct (App.unicode_escape E item0); split; reflexivity. }
  apply history_bind; [apply history__log_to_file | intros o1].
  apply history_bind; [intros a; split; reflexivity | intros u a].
  apply same_history_refl.
Qed.

Lemma _log_message_step (msg_route : string) (message : App.Message)
    (sid : string) (a : App.t) (n : Z) :
  App.session_message_count a !! sid = Some n ->
  App.history_step a (snd (App._log_message E init msg_route message sid a)) sid.
Proof.
  intros Hn. unfold App._log_message.
  rewrite (mbind_ok _ _ a a (App.session_message_count a)) by reflexivity.
  rewrite Hn.
  rewrite (mbind_ok _ _ a a tt) by reflexivity.
  clear Hn. revert a.
  apply history_step_bind.
  { intros a. destruct (_get_session_num_known sid a) as [num ->].
    apply same_history_refl. }
  intros num. cbn zeta.
  apply history_step_bind.
  { intros a. unfold App.lookupSession.
    destruct (App.engine_sessions a !! sid); split; reflexivity. }
  intros s.
  apply history_step_bind; [intros a; split; reflexivity | intros seq].
  apply history_step_bind; [intros a; split; reflexivity | intros _].
  apply history_step_bind; [intros a; split; reflexivity | intros now].
  apply history_step_bind; [intros a; split; reflexivity | intros u].
  apply history_step_bind; [intros a; apply history_intercept | intros mo].
  apply history_step_bind; [intros a; apply history__log_to_file | intros o].
  intros a. apply append_history_step.
Qed.

Lemma history_step_then (a a1 a2 : App.t) (sid : string) :
  App.history_step a a1 sid -> App.same_history a1 a2 -> App.history_step a a2 sid.
Proof.
  intros Hstep [Hl Hc]. unfold App.history_step, App.same_history in *.
  rewrite Hl, Hc. exact Hstep.
Qed.

Lemma history_toAdmin_logon (message : App.Message) (sid : string) (a : App.t) :
  App.same_history a (snd (App.toAdmin_logon message sid a)).
Proof.
  unfold App.toAdmin_logon, App.set_credentials, App.correct_sender_seq,
    App.correct_expected_seq, App.set_configured_fields, App.try_getString,
    App.lookupSession, App.engine_do.
  run_monad.
  repeat break_match; app_simpl; split; reflexivity.
Qed.

Lemma toAdmin_step (message : App.Message) (sid : string) (a : App.t) (n : Z) :
  App.session_message_count a !! sid = Some n ->
  App.history_step a (snd (App.toAdmin E init message sid a)) sid.
Proof.
  intros Hn. unfold App.toAdmin.
  destruct (App.engine_sessions a !! sid); [|left; apply same_history_refl].
  unfold App.mbind at 1.
  assert (Hc : App.same_history a
                 (snd ((if String.eqb (fst (App.get_message_type E message)) MsgType_Logon
                        then App.toAdmin_logon message sid
                        else App.ret (Some message)) a))).
  { destruct (String.eqb _ _);
      [apply history_toAdmin_logon | apply same_history_refl]. }
  destruct ((if String.eqb (fst (App.get_message_type E message)) MsgType_Logon
             then App.toAdmin_logon message sid
             else App.ret (Some message)) a) as [[r|e] a1];
    cbn [snd] in *; [|left; exact Hc].
  destruct r as [m'|]; [|left; exact Hc].
  assert (Hn1 : App.session_message_count a1 !! sid = Some n)
    by (rewrite (proj2 Hc); exact Hn).
  pose proof (_log_message_step ADM_O m' sid a1 n Hn1) as Hstep.
  unfold App.mbind, App.ret.
  destruct (App._log_message E init ADM_O m' sid a1) as [[[]|e] a2];
    cbn [snd] in *; eapply history_step_after; eauto.
Qed.

Lemma fromAdmin_step (message : App.Message) (sid : string) (a : App.t) (n : Z) :
  App.session_message_count a !! sid = Some n ->
  App.history_step a (snd (App.fromAdmin E init message sid a)) sid.
Proof.
  intros Hn. unfold App.fromAdmin.
  pose proof (_log_message_step ADM_I message sid a n Hn) as Hstep.
  unfold App.mbind at 1.
  destruct (App._log_message E init ADM_I message sid a) as [[[]|e] a1];
    cbn [snd] in *; [|exact Hstep].
  eapply history_step_then; [exact Hstep|].
  destruct (App.getField tag_Text message) as [text|e];
    [|apply same_history_refl].
  unfold App.expecting. run_monad.
  repeat break_match; app_simpl; split; reflexivity.
Qed.

(** X11.  History ids are positions.  If the history of a session is
    numbered by position - entry [i] carries id [i] and the counter holds
    the last id - it still is after any of the four engine callbacks
    [toApp], [fromApp], [toAdmin] and [fromAdmin] has run for a created
    session, whether the message was recorded, skipped as an ignored
    type, or the call failed on the way; this holds for the session
    concerned and for every other one.  It is what lets the history
    commands index the history by id. *)
Theorem history_ids_are_positions (message : App.Message) (sid sid' : string)
    (a : App.t) :
  is_Some (App.session_message_count a !! sid) ->
  App.history_numbered a sid' = true ->
  App.history_numbered (snd (App.toApp E init message sid a)) sid' = true
  /\ App.history_numbered (snd (App.fromApp E init message sid a)) sid' = true
  /\ App.history_numbered (snd (App.toAdmin E init message sid a)) sid' = true
  /\ App.history_numbered (snd (App.fromAdmin E init message sid a)) sid' = true.
Proof.
  intros [n Hn] Hok. unfold App.toApp, App.fromApp.
  split; [|split; [|split]].
  - eapply history_step_numbered; [apply (_log_message_step _ _ _ _ n Hn)|exact Hok].
  - eapply history_step_numbered; [apply (_log_message_step _ _ _ _ n Hn)|exact Hok].
  - eapply history_step_numbered; [apply (toAdmin_step _ _ _ n Hn)|exact Hok].
  - eapply history_step_numbered; [apply (fromAdmin_step _ _ _ n Hn)|exact Hok].
Qed.

End History.

Lemma history_ids_are_positions_witness :
  App.history_numbered
    (snd (App.toApp Example.env Example.init Example.order_msg Example.sid Example.app0))
    Example.sid = true
  /\ App.history_numbered
       (snd (App.fromApp Example.env Example.init Example.order_msg Example.sid Example.app0))
       Example.sid = true
  /\ App.history_numbered
       (snd (App.toAdmin Example.env Example.init Example.order_msg Example.sid Example.app0))
       Example.sid = true
  /\ App.history_numbered
       (snd (App.fromAdmin Example.env Example.init Example.order_msg Example.sid Example.app0))
       Example.sid = true.
Proof.
  apply (history_ids_are_positions Example.env Example.init Example.order_msg
           Example.sid Example.sid Example.app0).
  - eexists. vm_compute. reflexivity.
  - vm_compute. reflexivity.
Defined.

(** *** Ignored message types *)

Lemma str_in_In (x : string) (l : list string) :
  In x l -> MessageStore.str_in x l = true.
Proof.
  intros H. unfold MessageStore.str_in. apply existsb_exists.
  exists x. split; [exact H | apply String.eqb_refl].
Qed.

Section Ignored.

Variable E : App.Env.
Variable init : string -> App.M unit.

(** X12.  A message of an ignored type (by default the Heartbeat) that
    is logged with nothing queued for interception is written to the log
    file of the session as one SENT row, and it is kept out of the history
    - no entry, no id spent - unless it carries a TestReqID: then it is
    recorded like any other message, with the next history id. *)
Theorem _log_message_ignored_type (msg_route : string) (message : App.Message)
    (sid : string) (a : App.t) (n seq : Z) (log_file : string)
    (log : list App.msg_obj) :
  App.session_message_count a !! sid = Some n ->
  App.session_message_log a !! sid = Some log ->
  App.engine_sessions a !! sid = Some seq ->
  App.session_message_log_file a !! sid = Some log_file ->
  App.can_append E log_file = true ->
  App.message_queue a = [] ->
  In (fst (App.get_message_type E message)) (App.ignored_messages a) ->
  exists a' r,
    App._log_message E init msg_route message sid a = (Ok tt, a')
    /\ App.files a' !! log_file
       = Some (default [] (App.files a !! log_file) ++ [App.row r])%list
    /\ App.state r = "SENT"
    /\ App.msg r = App.msg_to_str E (App.AsMessage message)
    /\ match App.body message !! tag_TestReqID with
       | None =>
           App.session_message_log a' = App.session_message_log a
           /\ App.session_message_count a' = App.session_message_count a
       | Some _ =>
           exists o,
             App.session_message_log a' !! sid = Some (log ++ [o])%list
             /\ App.session_message_count a' !! sid = Some (n + 1)
             /\ App.id o = Some (n + 1)
             /\ App.msg o = App.msg r
             /\ App.uuid o = App.uuid r
       end.
Proof.
  intros Hn Hlog Hs Hf Hc Hq Hign.
  unfold App._log_message.
  rewrite (mbind_ok _ _ a a (App.session_message_count a)) by reflexivity.
  rewrite Hn.
  rewrite (mbind_ok _ _ a a tt) by reflexivity.
  destruct (_get_session_num_known sid a) as [num Hnum].
  rewrite (mbind_ok _ _ a a num Hnum).
  cbn zeta.
  rewrite (mbind_ok _ _ a a sid) by (unfold App.lookupSession; rewrite Hs; reflexivity).
  rewrite (mbind_ok _ _ a a seq) by (unfold App.item; rewrite Hs; reflexivity).
  unfold App.intercept.
  run_monad. app_simpl. rewrite Hq.
  rewrite (_log_to_file_writes E sid _ _ log_file) by (app_simpl; assumption).
  app_simpl.
  unfold App.append_history, App.test_req_lookup, App.getField.
  destruct (App.body message !! tag_TestReqID) as [v|] eqn:Hreq.
  - unfold App.record_entry, App._gen_HistoryID. run_monad. app_simpl.
    rewrite Hn. app_simpl. rewrite Hlog.
    eexists _, (App.MsgObj _ _ _ _ _ _ _ _). split; [reflexivity|].
    app_simpl. rewrite !lookup_insert_eq.
    split; [reflexivity|]. split; [reflexivity|]. split; [reflexivity|].
    eexists (App.MsgObj _ _ _ _ _ _ _ _). repeat split; reflexivity.
  - app_simpl. rewrite (str_in_In _ _ Hign).
    eexists _, (App.MsgObj _ _ _ _ _ _ _ _). split; [reflexivity|].
    app_simpl. rewrite !lookup_insert_eq.
    repeat split; reflexivity.
Qed.

End Ignored.

Lemma _log_message_ignored_type_witness :
  exists a' r,
    App._log_message Example.env Example.init APP_I Example.heartbeat_msg
      Example.sid Example.app0 = (Ok tt, a')
    /\ App.files a' !! Example.log_file
       = Some (default [] (App.files Example.app0 !! Example.log_file) ++ [App.row r])%list
    /\ App.state r = "SENT"
    /\ App.msg r = App.msg_to_str Example.env (App.AsMessage Example.heartbeat_msg)
    /\ match App.body Example.heartbeat_msg !! tag_TestReqID with
       | None =>
           App.session_message_log a' = App.session_message_log Example.app0
           /\ App.session_message_count a' = App.session_message_count Example.app0
       | Some _ =>
           exists o,
             App.session_message_log a' !! Example.sid = Some ([] ++ [o])%list
             /\ App.session_message_count a' !! Example.sid = Some (-1 + 1)
             /\ App.id o = Some (-1 + 1)
             /\ App.msg o = App.msg r
             /\ App.uuid o = App.uuid r
       end.
Proof.
  apply (_log_message_ignored_type Example.env Example.init APP_I
           Example.heartbeat_msg Example.sid Example.app0 (-1) 1 Example.log_file []).
  - vm_compute. reflexivity.
  - vm_compute. reflexivity.
  - vm_compute. reflexivity.
  - vm_compute. reflexivity.
  - vm_compute. reflexivity.
  - vm_compute. reflexivity.
  - vm_compute. left. reflexivity.
Defined.

(** *** The list of ignored types *)

Lemma str_in_count (x : string) (l : list string) :
  MessageStore.str_in x l = negb (Nat.eqb (count_occ string_dec l x) 0).
Proof.
  unfold MessageStore.str_in.
  induction l as [|y l IH]; [reflexivity|].
  cbn [existsb count_occ].
  destruct (string_dec y x) as [->|Hne].
  - rewrite String.eqb_refl. reflexivity.
  - assert (String.eqb x y = false) as -> by (apply String.eqb_neq; congruence).
    exact IH.
Qed.

Lemma remove_count (x : string) (l : list string) :
  MessageStore.str_in x l = true ->
  exists r,
    PyList.remove String.eqb x l = Ok r
    /\ count_occ string_dec r x = Nat.pred (count_occ string_dec l x)
    /\ forall y, y <> x -> count_occ string_dec r y = count_occ string_dec l y.
Proof.
  unfold MessageStore.str_in.
  induction l as [|z l IH]; intros Hin; [discriminate|].
  cbn [existsb] in Hin. cbn [PyList.remove].
  destruct (String.eqb z x) eqn:Hz.
  - apply String.eqb_eq in Hz. subst z. exists l.
    split; [reflexivity|]. cbn [count_occ].
    destruct (string_dec x x); [|congruence]. split; [reflexivity|].
    intros y Hy. destruct (string_dec x y); [congruence | reflexivity].
  - assert (String.eqb x z = false) as Hxz
        by (apply String.eqb_neq; apply String.eqb_neq in Hz; congruence).
    rewrite Hxz in Hin. cbn [orb] in Hin.
    destruct (IH Hin) as [r [Hr [Hx Hy]]]. rewrite Hr.
    exists (z :: r). split; [reflexivity|].
    apply String.eqb_neq in Hz. cbn [count_occ].
    destruct (string_dec z x); [congruence|].
    split; [exact Hx|].
    intros y Hyx. destruct (string_dec z y); rewrite (Hy y Hyx); reflexivity.
Qed.

(** X13.  [set_log_heartbeat] switches the Heartbeat type on the list of
    ignored types: after [False] it is on the list, after [True] it is
    not.  It never puts the type on the list twice, which is what makes
    taking one occurrence off enough, and it leaves every other type on
    the list as often as it was. *)
Theorem set_log_heartbeat_switches (value : bool) (self : FixitClient.t) :
  (count_occ string_dec (App.ignored_messages (FixitClient.base self))
     MsgType_Heartbeat <= 1)%nat ->
  exists self',
    FixitClient.set_log_heartbeat value self = Ok self'
    /\ MessageStore.str_in MsgType_Heartbeat
         (App.ignored_messages (FixitClient.base self')) = negb value
    /\ (count_occ string_dec (App.ignored_messages (FixitClient.base self'))
          MsgType_Heartbeat <= 1)%nat
    /\ FixitClient.log_heartbeat self' = value
    /\ forall ty, ty <> MsgType_Heartbeat ->
         count_occ string_dec (App.ignored_messages (FixitClient.base self')) ty
         = count_occ string_dec (App.ignored_messages (FixitClient.base self)) ty.
Proof.
  intros Hone. unfold FixitClient.set_log_heartbeat.
  set (ignored := App.ignored_messages (FixitClient.base self)) in *.
  destruct value; cbn [negb].
  - destruct (MessageStore.str_in MsgType_Heartbeat ignored) eqn:Hin.
    + destruct (remove_count _ _ Hin) as [r [Hr [Hx Hy]]]. rewrite Hr. cbn [bind].
      eexists. split; [reflexivity|].
      cbn [FixitClient.base FixitClient.log_heartbeat App.ignored_messages
           App.set_ignored_messages].
      rewrite str_in_count, Hx.
      assert (count_occ string_dec ignored MsgType_Heartbeat = 1%nat) as Hc.
      { rewrite str_in_count in Hin. apply negb_true_iff, Nat.eqb_neq in Hin. lia. }
      rewrite Hc. repeat split; [lia|exact Hy].
    + cbn [bind]. eexists. split; [reflexivity|].
      cbn [FixitClient.base FixitClient.log_heartbeat App.ignored_messages
           App.set_ignored_messages].
      fold ignored. rewrite Hin. repeat split; exact Hone.
  - destruct (MessageStore.str_in MsgType_Heartbeat ignored) eqn:Hin; cbn [negb bind].
    + eexists. split; [reflexivity|].
      cbn [FixitClient.base FixitClient.log_heartbeat App.ignored_messages
           App.set_ignored_messages].
      fold ignored. rewrite Hin. repeat split; exact Hone.
    + eexists. split; [reflexivity|].
      cbn [FixitClient.base FixitClient.log_heartbeat App.ignored_messages
           App.set_ignored_messages].
      rewrite str_in_count, !count_occ_app.
      rewrite str_in_count in Hin. apply negb_false_iff, Nat.eqb_eq in Hin.
      rewrite Hin. cbn [count_occ].
      destruct (string_dec MsgType_Heartbeat MsgType_Heartbeat); [|congruence].
      repeat split; [lia|].
      intros ty Hty. rewrite count_occ_app. cbn [count_occ].
      destruct (string_dec MsgType_Heartbeat ty); [congruence|lia].
Qed.

Lemma set_log_heartbeat_switches_witness :
  exists self',
    FixitClient.set_log_heartbeat true (FixitClient.Make Example.app0 false false)
    = Ok self'
    /\ MessageStore.str_in MsgType_Heartbeat
         (App.ignored_messages (FixitClient.base self')) = negb true
    /\ (count_occ string_dec (App.ignored_messages (FixitClient.base self'))
          MsgType_Heartbeat <= 1)%nat
    /\ FixitClient.log_heartbeat self' = true
    /\ forall ty, ty <> MsgType_Heartbeat ->
         count_occ string_dec (App.ignored_messages (FixitClient.base self')) ty
         = count_occ string_dec
             (App.ignored_messages
                (FixitClient.base (FixitClient.Make Example.app0 false false))) ty.
Proof.
  apply (set_log_heartbeat_switches true (FixitClient.Make Example.app0 false false)).
  vm_compute. lia.
Defined.

(** *** The printable form of a message *)

Lemma hex2_printable (c : ascii) :
  PyStr.all_chars App.printable (App.hex2 c) = true.
Proof. destruct c as [[] [] [] [] [] [] [] []]; vm_compute; reflexivity. Qed.

Section Encoding.

Variable E : App.Env.

Lemma encode_chars_kept (s : string) :
  PyStr.all_chars
    (fun c => App.printable c || Ascii.eqb c SOH_BIN || Ascii.eqb c (App.SOH_UNI E))
    (App.encode_chars E s) = true.
Proof.
  induction s as [|c s IH]; [reflexivity|].
  cbn [App.encode_chars].
  destruct (App.printable c) eqn:Hp.
  - rewrite append_cons, append_nil_l. cbn [PyStr.all_chars]. rewrite Hp, IH. reflexivity.
  - destruct (Ascii.eqb c SOH_BIN || Ascii.eqb c (App.SOH_UNI E)) eqn:Hs.
    + rewrite append_cons, append_nil_l. cbn [PyStr.all_chars].
      rewrite Hp, IH. cbn [orb]. rewrite Hs. reflexivity.
    + rewrite all_chars_app, IH, andb_true_r.
      rewrite all_chars_app.
      apply andb_true_intro. split; [reflexivity|].
      eapply all_chars_impl; [|apply hex2_printable].
      intros x Hx. rewrite Hx. reflexivity.
Qed.

Lemma encode_chars_id (s : string) :
  PyStr.all_chars
    (fun c => App.printable c || Ascii.eqb c SOH_BIN || Ascii.eqb c (App.SOH_UNI E))
    s = true ->
  App.encode_chars E s = s.
Proof.
  induction s as [|c s IH]; intros H; [reflexivity|].
  cbn [PyStr.all_chars] in H. apply andb_prop in H as [Hc Hs].
  cbn [App.encode_chars]. rewrite (IH Hs).
  destruct (App.printable c); [reflexivity|].
  cbn [orb] in Hc. rewrite Hc. reflexivity.
Qed.

(** X14.  [msg_encode_binary_chars] leaves only printable characters,
    SOH and the printable delimiter in its result, and encoding an
    encoded message changes nothing: a message is escaped once, however
    often it is rendered. *)
Theorem msg_encode_binary_chars_idempotent (message : string) :
  PyStr.all_chars
    (fun c => App.printable c || Ascii.eqb c SOH_BIN || Ascii.eqb c (App.SOH_UNI E))
    (App.msg_encode_binary_chars E message) = true
  /\ App.msg_encode_binary_chars E (App.msg_encode_binary_chars E message)
     = App.msg_encode_binary_chars E message.
Proof.
  unfold App.msg_encode_binary_chars.
  split; [apply encode_chars_kept|].
  apply encode_chars_id, encode_chars_kept.
Qed.

Lemma replace_char_back (a b : ascii) (s : string) :
  PyStr.all_chars (Spec.differs b) s = true ->
  PyStr.replace_char b a (PyStr.replace_char a b s) = s.
Proof.
  induction s as [|c s IH]; intros H; [reflexivity|].
  cbn [PyStr.all_chars] in H. apply andb_prop in H as [Hc Hs].
  unfold Spec.differs in Hc. apply negb_true_iff in Hc.
  cbn [PyStr.replace_char]. rewrite (IH Hs).
  destruct (Ascii.eqb c a) eqn:Ha.
  - rewrite Ascii.eqb_refl. apply Ascii.eqb_eq in Ha. subst. reflexivity.
  - rewrite Hc. reflexivity.
Qed.

(** X15.  A wire message made of printable characters and SOH, with no
    occurrence of the printable delimiter, survives the round trip
    through its printable form: [msg_to_str] with [binary=True] applied
    to [msg_to_str] of the message gives the message back.  This is what
    the history holds and what saving a history entry in binary form
    writes. *)
Theorem msg_to_str_round_trip (wire : string) :
  PyStr.all_chars
    (fun c => (App.printable c || Ascii.eqb c SOH_BIN)
              && negb (Ascii.eqb c (App.SOH_UNI E))) wire = true ->
  FixitClient.msg_to_str E
    (App.AsStr (FixitClient.msg_to_str E (App.AsStr wire) false)) true
  = wire.
Proof.
  intros H.
  unfold FixitClient.msg_to_str, App.msg_to_str, App.msg_encode_binary_chars.
  rewrite encode_chars_id.
  - apply replace_char_back.
    eapply all_chars_impl; [|exact H].
    intros c Hc. apply andb_prop in Hc as [_ Hc]. exact Hc.
  - clear -H. induction wire as [|c s IH]; [reflexivity|].
    cbn [PyStr.all_chars] in H. apply andb_prop in H as [Hc Hs].
    cbn [PyStr.replace_char PyStr.all_chars]. rewrite (IH Hs), andb_true_r.
    apply andb_prop in Hc as [Hc _].
    destruct (Ascii.eqb c SOH_BIN) eqn:Hb.
    + rewrite Ascii.eqb_refl. apply orb_true_r.
    + rewrite orb_false_r in Hc. rewrite Hc. reflexivity.
Qed.

End Encoding.

Lemma msg_to_str_round_trip_witness :
  FixitClient.msg_to_str Example.env
    (App.AsStr
       (FixitClient.msg_to_str Example.env
          (App.AsStr (PyStr.replace_char "|" SOH_BIN "8=FIX.4.2|9=5|35=0|10=000|"))
          false))
    true
  = PyStr.replace_char "|" SOH_BIN "8=FIX.4.2|9=5|35=0|10=000|".
Proof.
  apply (msg_to_str_round_trip Example.env
           (PyStr.replace_char "|" SOH_BIN "8=FIX.4.2|9=5|35=0|10=000|")).
  vm_compute. reflexivity.
Defined.

(** *** Logon attempts and session numbers *)

Section Attempts.

Variable E : App.Env.
Variable init : string -> App.M unit.

(** X16.  From the fifth consecutive Logon on - the counter of attempts
    standing at four or more - [toAdmin] counts the attempt, tells the
    engine to log out and returns at once: the Logon goes back to the
    engine as it came, without credentials or sequence corrections, it is
    not logged, and the pending sequence overrides stay as they are.
    [onLogon] sets the counter back to zero. *)
Theorem toAdmin_logon_attempts_cutoff (message : App.Message) (sid : string)
    (a : App.t) (seq n : Z) :
  App.engine_sessions a !! sid = Some seq ->
  fst (App.get_message_type E message) = MsgType_Logon ->
  App.session_logon_attempts a !! sid = Some n ->
  4 <= n ->
  App.toAdmin E init message sid a
  = (Ok message,
     App.set_engine_calls (App.engine_calls a ++ [App.CallLogout sid])%list
       (App.set_session_logon_attempts
          (<[sid := n + 1]> (App.session_logon_attempts a))
          (App.set_session_attempting_logon
             (<[sid := true]> (App.session_attempting_logon a)) a)))
  /\ forall b,
       App.session_logon_attempts (snd (App.onLogon sid b)) !! sid = Some 0
       /\ App.session_loggedon (snd (App.onLogon sid b)) !! sid = Some true.
Proof.
  intros He Hty Hn Hfour. split.
  - unfold App.toAdmin. rewrite He, Hty.
    replace (String.eqb MsgType_Logon MsgType_Logon) with true by reflexivity.
    unfold App.toAdmin_logon, App.lookupSession, App.engine_do.
    run_monad. app_simpl. rewrite Hn. app_simpl.
    replace (5 <=? n + 1) with true by (symmetry; apply Z.leb_le; lia).
    app_simpl. rewrite He. reflexivity.
  - intros b. unfold App.onLogon. run_monad. app_simpl.
    cbn [App.session_loggedon App.session_logon_attempts
         App.set_session_loggedon App.set_session_logon_attempts].
    rewrite !lookup_insert_eq. split; reflexivity.
Qed.

End Attempts.

Lemma toAdmin_logon_attempts_cutoff_witness :
  App.toAdmin Example.env Example.init Example.logon_msg Example.sid
    (App.set_session_logon_attempts {[ Example.sid := 4 ]} Example.app0)
  = (Ok Example.logon_msg,
     App.set_engine_calls
       (App.engine_calls (App.set_session_logon_attempts {[ Example.sid := 4 ]} Example.app0)
        ++ [App.CallLogout Example.sid])%list
       (App.set_session_logon_attempts
          (<[Example.sid := 4 + 1]>
             (App.session_logon_attempts
                (App.set_session_logon_attempts {[ Example.sid := 4 ]} Example.app0)))
          (App.set_session_attempting_logon
             (<[Example.sid := true]>
                (App.session_attempting_logon
                   (App.set_session_logon_attempts {[ Example.sid := 4 ]} Example.app0)))
             (App.set_session_logon_attempts {[ Example.sid := 4 ]} Example.app0))))
  /\ forall b,
       App.session_logon_attempts (snd (App.onLogon Example.sid b)) !! Example.sid
       = Some 0
       /\ App.session_loggedon (snd (App.onLogon Example.sid b)) !! Example.sid
          = Some true.
Proof.
  apply (toAdmin_logon_attempts_cutoff Example.env Example.init Example.logon_msg
           Example.sid
           (App.set_session_logon_attempts {[ Example.sid := 4 ]} Example.app0) 1 4).
  - vm_compute. reflexivity.
  - vm_compute. reflexivity.
  - vm_compute. reflexivity.
  - lia.
Defined.

(** X17.  Session numbers and session ids.  When no two session numbers
    share a session id, [_get_session_num] of the id that
    [_get_sessionID] gives for a session number is that number again; for
    an id that no session has, [_get_session_num] answers UNKNOWN, and
    for a number that no session has, [_get_sessionID] answers [None] and
    [has_session] false. *)
Theorem session_num_round_trip (a : App.t) :
  (forall n n' sid, App.sessions a !! n = Some sid ->
                    App.sessions a !! n' = Some sid -> n = n') ->
  (forall session_num sid,
     App.sessions a !! session_num = Some sid ->
     App.mbind (App._get_sessionID session_num) App._get_session_num a
     = (Ok session_num, a)
     /\ App.has_session session_num a = (Ok true, a))
  /\ (forall sid,
        (forall n, App.sessions a !! n <> Some sid) ->
        App._get_session_num (Some sid) a = (Ok UNKNOWN, a))
  /\ (forall session_num,
        App.sessions a !! session_num = None ->
        App._get_sessionID session_num a = (Ok None, a)
        /\ App.has_session session_num a = (Ok false, a)).
Proof.
  intros Hinj. split; [|split].
  - intros session_num sid Hs. split.
    + unfold App.mbind, App._get_sessionID, App.get. rewrite Hs.
      apply _get_session_num_unique; [exact Hs|].
      intros n Hn. apply (Hinj _ _ _ Hn Hs).
    + unfold App.has_session, App._get_sessionID. run_monad. rewrite Hs.
      reflexivity.
  - intros sid Hnone. unfold App._get_session_num.
    destruct (map_to_list (App.sessions a)) as [|p0 l] eqn:Hl; [reflexivity|].
    destruct (List.find _ (p0 :: l)) as [[n s]|] eqn:Hfind; [|reflexivity].
    exfalso. apply find_some in Hfind as [Hp Heq]. cbn [snd] in Heq.
    apply String.eqb_eq in Heq. subst s.
    rewrite <- Hl in Hp. apply list_elem_of_In, elem_of_map_to_list in Hp.
    exact (Hnone n Hp).
  - intros session_num Hs. unfold App.has_session, App._get_sessionID.
    run_monad. rewrite Hs. split; reflexivity.
Qed.

Lemma session_num_round_trip_witness :
  (forall session_num sid,
     App.sessions Example.app0 !! session_num = Some sid ->
     App.mbind (App._get_sessionID session_num) App._get_session_num Example.app0
     = (Ok session_num, Example.app0)
     /\ App.has_session session_num Example.app0 = (Ok true, Example.app0))
  /\ (forall sid,
        (forall n, App.sessions Example.app0 !! n <> Some sid) ->
        App._get_session_num (Some sid) Example.app0 = (Ok UNKNOWN, Example.app0))
  /\ (forall session_num,
        App.sessions Example.app0 !! session_num = None ->
        App._get_sessionID session_num Example.app0 = (Ok None, Example.app0)
        /\ App.has_session session_num Example.app0
           = (Ok false, Example.app0)).
Proof.
  apply (session_num_round_trip Example.app0).
  intros n n' sid Hn Hn'. unfold Example.app0 in *. cbn [App.sessions] in *.
  apply lookup_singleton_Some in Hn as [<- _].
  apply lookup_singleton_Some in Hn' as [<- _]. reflexivity.
Defined.

(** *** Raw sends: body length and checksum of what is handed over *)

Lemma digits_nosep (d : ascii) (s : string) :
  PyStr.isdigit d = false ->
  PyStr.all_chars PyStr.isdigit s = true ->
  PyStr.all_chars (Spec.differs d) s = true.
Proof.
  intros Hd. induction s as [|c s IH]; [reflexivity|].
  cbn. intros H. apply andb_prop in H as [Hc Hs].
  rewrite (IH Hs), andb_true_r. unfold Spec.differs.
  destruct (Ascii.eqb_spec c d) as [->|]; [congruence|reflexivity].
Qed.

Lemma str_nosep (d : ascii) (q : Z) :
  PyStr.isdigit d = false -> 0 <= q ->
  PyStr.all_chars (Spec.differs d) (PyStr.str q) = true.
Proof.
  intros Hd Hq. destruct (str_numeral q Hq) as [u [_ [-> _]]].
  apply digits_nosep; [exact Hd|apply string_of_uint_digits].
Qed.

Lemma set_field_loop_skip (tag new : string) (pre post : list string) :
  Forall (fun f => PyStr.startswith tag f = false) pre ->
  Utils.set_field_loop tag new (pre ++ post)
  = (pre ++ Utils.set_field_loop tag new post)%list.
Proof.
  induction 1 as [|f pre Hf _ IH]; [reflexivity|].
  cbn [app Utils.set_field_loop]. rewrite Hf, IH. reflexivity.
Qed.

Lemma set_field_loop_snoc (tag new x : string) (l : list string) :
  PyStr.startswith tag x = false ->
  Utils.set_field_loop tag new (l ++ [x])
  = (Utils.set_field_loop tag new l ++ [x])%list.
Proof.
  intros Hx. induction l as [|f l IH]; cbn [app Utils.set_field_loop].
  - rewrite Hx. reflexivity.
  - destruct (PyStr.startswith tag f); [reflexivity|]. rewrite IH. reflexivity.
Qed.

Lemma set_field_loop_length (tag new : string) (l : list string) :
  length (Utils.set_field_loop tag new l) = length l.
Proof.
  induction l as [|f l IH]; [reflexivity|]. cbn [Utils.set_field_loop].
  destruct (PyStr.startswith tag f); cbn [length]; [reflexivity|].
  rewrite IH. reflexivity.
Qed.

Lemma set_field_loop_keeps (P : string -> Prop) (tag new : string) (l : list string) :
  P new -> Forall P l -> Forall P (Utils.set_field_loop tag new l).
Proof.
  intros Hn. induction 1 as [|f l Hf Hl IH]; cbn [Utils.set_field_loop];
    [constructor|].
  destruct (PyStr.startswith tag f); constructor; assumption.
Qed.

(** [msg_str_set_field] on a message that ends with the delimiter, seen
    on its fields. *)
Lemma split_set_field (d : ascii) (m : string) (fs : list string) (t v : pyval) :
  PyStr.split d m = (fs ++ [""])%list -> fs <> [] ->
  PyStr.all_chars (Spec.differs d) ((PyStr.format t +:+ "=") +:+ PyStr.format v) = true ->
  PyStr.split d (Utils.msg_str_set_field d m t v)
  = (Utils.set_field_loop (PyStr.format t +:+ "=")
       ((PyStr.format t +:+ "=") +:+ PyStr.format v) fs ++ [""])%list.
Proof.
  intros Hsp Hne Hnew.
  assert (Hm : m = PyStr.join d fs +:+ String d "").
  { rewrite <- (join_split d m) at 1. rewrite Hsp. apply join_last_empty. exact Hne. }
  pose proof (split_fields_nosep d m) as Hall. rewrite Hsp in Hall.
  unfold Utils.msg_str_set_field.
  rewrite detect_SOH_endswith by (rewrite Hm; apply endswith_app).
  rewrite Hsp, set_field_loop_last by apply tag_nonempty.
  apply split_join.
  - destruct (Utils.set_field_loop _ _ fs); discriminate.
  - apply Forall_app in Hall as [Hfs He]. apply Forall_app. split; [|exact He].
    apply set_field_loop_nosep; assumption.
Qed.

(** A field other than the second and the last one before the closing
    delimiter is set: the frame of the message stays. *)
Lemma set_field_other (d : ascii) (m f0 f1 chk : string) (body : list string)
    (t v : pyval) :
  PyStr.split d m = (f0 :: f1 :: body ++ [chk; ""])%list ->
  PyStr.startswith (PyStr.format t +:+ "=") f0 = false ->
  PyStr.startswith (PyStr.format t +:+ "=") f1 = false ->
  PyStr.startswith (PyStr.format t +:+ "=") chk = false ->
  PyStr.startswith "10=" ((PyStr.format t +:+ "=") +:+ PyStr.format v) = false ->
  PyStr.all_chars (Spec.differs d) ((PyStr.format t +:+ "=") +:+ PyStr.format v) = true ->
  Forall (fun f => PyStr.startswith "10=" f = false) body ->
  exists body',
    PyStr.split d (Utils.msg_str_set_field d m t v)
    = (f0 :: f1 :: body' ++ [chk; ""])%list
    /\ length body' = length body
    /\ Forall (fun f => PyStr.startswith "10=" f = false) body'.
Proof.
  intros Hsp H0 H1 Hc Hn10 Hnew Hbody.
  exists (Utils.set_field_loop (PyStr.format t +:+ "=")
            ((PyStr.format t +:+ "=") +:+ PyStr.format v) body).
  split; [|split].
  - rewrite (split_set_field d m (f0 :: f1 :: body ++ [chk])%list).
    + cbn [app Utils.set_field_loop]. rewrite H0, H1.
      rewrite set_field_loop_snoc by exact Hc.
      cbn [app]. rewrite <- app_assoc. reflexivity.
    + rewrite Hsp. cbn [app]. rewrite <- app_assoc. reflexivity.
    + discriminate.
    + exact Hnew.
  - apply set_field_loop_length.
  - apply set_field_loop_keeps; assumption.
Qed.

(** The second field is set. *)
Lemma set_field_second (d : ascii) (m f0 f1 : string) (rest : list string)
    (t v : pyval) :
  PyStr.split d m = (f0 :: f1 :: rest ++ [""])%list ->
  PyStr.startswith (PyStr.format t +:+ "=") f0 = false ->
  PyStr.startswith (PyStr.format t +:+ "=") f1 = true ->
  PyStr.all_chars (Spec.differs d) ((PyStr.format t +:+ "=") +:+ PyStr.format v) = true ->
  PyStr.split d (Utils.msg_str_set_field d m t v)
  = (f0 :: ((PyStr.format t +:+ "=") +:+ PyStr.format v) :: rest ++ [""])%list.
Proof.
  intros Hsp H0 H1 Hnew.
  rewrite (split_set_field d m (f0 :: f1 :: rest)%list);
    [|exact Hsp|discriminate|exact Hnew].
  cbn [app Utils.set_field_loop]. rewrite H0, H1. reflexivity.
Qed.

(** The last field before the closing delimiter is set. *)
Lemma set_field_closing (d : ascii) (m x : string) (pre : list string)
    (t v : pyval) :
  PyStr.split d m = (pre ++ [x; ""])%list ->
  Forall (fun f => PyStr.startswith (PyStr.format t +:+ "=") f = false) pre ->
  PyStr.startswith (PyStr.format t +:+ "=") x = true ->
  PyStr.all_chars (Spec.differs d) ((PyStr.format t +:+ "=") +:+ PyStr.format v) = true ->
  PyStr.split d (Utils.msg_str_set_field d m t v)
  = (pre ++ [(PyStr.format t +:+ "=") +:+ PyStr.format v; ""])%list.
Proof.
  intros Hsp Hpre Hx Hnew.
  rewrite (split_set_field d m (pre ++ [x])%list).
  - rewrite set_field_loop_skip by exact Hpre.
    cbn [Utils.set_field_loop]. rewrite Hx. rewrite <- app_assoc. reflexivity.
  - rewrite Hsp, <- app_assoc. reflexivity.
  - destruct pre; discriminate.
  - exact Hnew.
Qed.

Lemma calc_length_fields (d : ascii) (m f0 f1 chk : string) (body : list string) :
  PyStr.split d m = (f0 :: f1 :: body ++ [chk; ""])%list ->
  Utils.msg_str_calc_length d m
  = Z.of_nat (String.length (PyStr.join d body +:+ String d "")).
Proof.
  intros Hsp. unfold Utils.msg_str_calc_length. rewrite Hsp, slice_inner.
  reflexivity.
Qed.

(** On a message whose last field is the checksum field the checksum is
    computed, and is made of digits. *)
Lemma chksum_of_framed (d : ascii) (m chk : string) (pre : list string) :
  pre <> [] ->
  PyStr.split d m = (pre ++ [chk; ""])%list ->
  PyStr.startswith "10=" chk = true ->
  exists c, Utils.msg_str_calc_chksum d m = Ok c
            /\ PyStr.all_chars PyStr.isdigit c = true.
Proof.
  intros Hne Hsp Hchk.
  pose proof (split_fields_nosep d m) as Hall. rewrite Hsp in Hall.
  apply Forall_app in Hall as [_ Hall]. inversion Hall as [|? ? Hc _]; subst.
  destruct (startswith_inv _ _ Hchk) as [r ->].
  rewrite all_chars_app in Hc. apply andb_prop in Hc as [H10 Hr].
  assert (Hm : m = PyStr.join d pre +:+ String d (("10=" +:+ r) +:+ String d "")).
  { rewrite <- (join_split d m) at 1. rewrite Hsp.
    rewrite join_app by (exact Hne || discriminate). reflexivity. }
  unfold Utils.msg_str_calc_chksum. rewrite Hm.
  rewrite replace_char_app. cbn [PyStr.replace_char]. rewrite Ascii.eqb_refl.
  rewrite !replace_char_app, (replace_char_id d SOH_BIN "10=" H10).
  set (rc := PyStr.replace_char d SOH_BIN).
  replace (rc (PyStr.join d pre) +:+ String SOH_BIN (("10=" +:+ rc r) +:+ rc (String d "")))
    with ((rc (PyStr.join d pre) +:+ String SOH_BIN "10=") +:+ (rc r +:+ rc (String d "")))
    by (rewrite !append_assoc, !append_cons; reflexivity).
  destruct (index_common_prefix (String SOH_BIN "10=")
              (rc (PyStr.join d pre) +:+ String SOH_BIN "10=")
              (rc r +:+ rc (String d "")) (rc r +:+ rc (String d ""))
              (String.length (rc (PyStr.join d pre))))
    as [i [Hi _]].
  - discriminate.
  - rewrite append_length. reflexivity.
  - rewrite substring_append_skip. reflexivity.
  - rewrite Hi. eexists. split; [reflexivity|].
    apply checksum_rendering.
    pose proof (Z.mod_pos_bound
      (Utils.sum_ord 0 (String.substring 0 i
         ((rc (PyStr.join d pre) +:+ String SOH_BIN "10=") +:+ (rc r +:+ rc (String d ""))))) 256).
    lia.
Qed.

Lemma startswith_first_field (d : ascii) (p m f0 : string) (l : list string) :
  PyStr.split d m = (f0 :: l)%list ->
  PyStr.startswith p f0 = true ->
  PyStr.startswith p m = true.
Proof.
  intros Hsp Hf. rewrite <- (join_split d m), Hsp.
  destruct l as [|y l]; [rewrite join_singleton; exact Hf|].
  rewrite join_cons2. apply startswith_app_l. exact Hf.
Qed.

(** Body length, then checksum, on a framed message: afterwards the two
    fields hold what [msg_str_calc_length] and [msg_str_calc_chksum]
    return on the result. *)
Lemma length_then_chksum (d : ascii) (m f0 f1 chk : string) (body : list string)
    (t9 t10 : pyval) (as_value : Z -> pyval) :
  PyStr.format t9 = "9" -> PyStr.format t10 = "10" ->
  (forall z, PyStr.format (as_value z) = PyStr.str z) ->
  PyStr.isdigit d = false ->
  PyStr.split d m = (f0 :: f1 :: body ++ [chk; ""])%list ->
  PyStr.startswith "8=" f0 = true ->
  PyStr.startswith "9=" f1 = true ->
  PyStr.startswith "10=" chk = true ->
  Forall (fun f => PyStr.startswith "10=" f = false) body ->
  let m' := Utils.msg_str_set_field d m t9
              (as_value (Utils.msg_str_calc_length d m)) in
  exists c,
    Utils.msg_str_calc_chksum d m' = Ok c
    /\ PyStr.split d (Utils.msg_str_set_field d m' t10 (PStr c))
       = (f0 :: ("9=" +:+ PyStr.str (Utils.msg_str_calc_length d m))
             :: body ++ ["10=" +:+ c; ""])%list
    /\ Utils.msg_str_calc_length d (Utils.msg_str_set_field d m' t10 (PStr c))
       = Utils.msg_str_calc_length d m
    /\ Utils.msg_str_calc_chksum d (Utils.msg_str_set_field d m' t10 (PStr c))
       = Ok c.
Proof.
  intros H9 H10 Hval Hd Hsp Hf0 Hf1 Hchk Hbody m'.
  pose proof (split_fields_nosep d m) as Hall. rewrite Hsp in Hall.
  assert (Hchk_ns : PyStr.all_chars (Spec.differs d) chk = true).
  { inversion Hall as [|? ? _ Hall1]; subst.
    inversion Hall1 as [|? ? _ Hall2]; subst.
    apply Forall_app in Hall2 as [_ Hall3].
    inversion Hall3; subst. assumption. }
  assert (Hf1_ns : PyStr.all_chars (Spec.differs d) f1 = true).
  { inversion Hall as [|? ? _ Hall1]; subst.
    inversion Hall1; subst. assumption. }
  destruct (startswith_inv _ _ Hf0) as [r0 Hr0].
  destruct (startswith_inv _ _ Hf1) as [r1 Hr1].
  destruct (startswith_inv _ _ Hchk) as [rc Hrc].
  assert (Hp10 : PyStr.all_chars (Spec.differs d) "10=" = true).
  { rewrite Hrc, all_chars_app in Hchk_ns. apply andb_prop in Hchk_ns as [H _]. exact H. }
  assert (Hp9 : PyStr.all_chars (Spec.differs d) "9=" = true).
  { rewrite Hr1, all_chars_app in Hf1_ns. apply andb_prop in Hf1_ns as [H _]. exact H. }
  assert (Hlen : 0 <= Utils.msg_str_calc_length d m)
    by (unfold Utils.msg_str_calc_length; lia).
  assert (Hsp' : PyStr.split d m'
                 = (f0 :: ("9=" +:+ PyStr.str (Utils.msg_str_calc_length d m))
                       :: body ++ [chk; ""])%list).
  { unfold m'.
    replace (body ++ [chk; ""])%list with ((body ++ [chk]) ++ [""])%list
      by (rewrite <- app_assoc; reflexivity).
    replace (body ++ [chk; ""])%list with ((body ++ [chk]) ++ [""])%list in Hsp
      by (rewrite <- app_assoc; reflexivity).
    rewrite (set_field_second d m f0 f1 (body ++ [chk])%list t9 _ Hsp);
      rewrite ?H9, ?Hval.
    - reflexivity.
    - rewrite Hr0. reflexivity.
    - exact Hf1.
    - change ("9" +:+ "=") with "9=".
      rewrite all_chars_app, Hp9. apply str_nosep; assumption. }
  destruct (chksum_of_framed d m' chk
              (f0 :: ("9=" +:+ PyStr.str (Utils.msg_str_calc_length d m)) :: body)%list)
    as [c [Hc Hdig]]; [discriminate|exact Hsp'|exact Hchk|].
  exists c. split; [exact Hc|].
  assert (Hsp'' : PyStr.split d (Utils.msg_str_set_field d m' t10 (PStr c))
                  = (f0 :: ("9=" +:+ PyStr.str (Utils.msg_str_calc_length d m))
                        :: body ++ ["10=" +:+ c; ""])%list).
  { rewrite (set_field_closing d m' chk
               (f0 :: ("9=" +:+ PyStr.str (Utils.msg_str_calc_length d m)) :: body)%list);
      rewrite ?H10.
    - reflexivity.
    - exact Hsp'.
    - constructor; [rewrite Hr0; reflexivity|].
      constructor; [reflexivity|exact Hbody].
    - exact Hchk.
    - cbn [PyStr.format]. change ("10" +:+ "=") with "10=".
      rewrite all_chars_app, Hp10.
      apply digits_nosep; assumption. }
  split; [exact Hsp''|]. split.
  - rewrite (calc_length_fields _ _ _ _ _ _ Hsp'').
    rewrite (calc_length_fields _ _ _ _ _ _ Hsp). reflexivity.
  - replace (Utils.msg_str_set_field d m' t10 (PStr c))
      with (Utils.msg_str_set_field d m' (PInt 10) (PStr c))
      by (unfold Utils.msg_str_set_field; rewrite H10; reflexivity).
    rewrite chksum_after_set_field_10; [exact Hc|exact Hp10|].
    destruct (PyStr.startswith "10=" m') eqn:Hs; [|reflexivity].
    pose proof (startswith_first_field d "8=" m' f0 _ Hsp' Hf0) as H8.
    destruct (startswith_inv _ _ H8) as [r8 Hr8]. rewrite Hr8 in Hs. discriminate.
Qed.

Lemma no10_Forall (body : list string) :
  forallb (fun f => negb (PyStr.startswith "10=" f)) body = true ->
  Forall (fun f => PyStr.startswith "10=" f = false) body.
Proof.
  intros H. apply List.Forall_forall. intros f Hf.
  rewrite forallb_forall in H. apply negb_true_iff. apply H. exact Hf.
Qed.

(** A tag of digits and a delimiter-free value make a delimiter-free
    field, when the delimiter is neither a digit nor the equals sign. *)
Lemma tagged_nosep (d : ascii) (tag value : string) :
  PyStr.isdigit d = false ->
  PyStr.all_chars (Spec.differs d) "=" = true ->
  PyStr.all_chars PyStr.isdigit tag = true ->
  PyStr.all_chars (Spec.differs d) value = true ->
  PyStr.all_chars (Spec.differs d) ((tag +:+ "=") +:+ value) = true.
Proof.
  intros Hd He Ht Hv. rewrite !all_chars_app, He, Hv, (digits_nosep d tag Hd Ht).
  reflexivity.
Qed.

Lemma second_field_equals (d : ascii) (m f0 f1 : string) (l : list string) :
  PyStr.split d m = (f0 :: f1 :: l)%list ->
  PyStr.startswith "9=" f1 = true ->
  PyStr.all_chars (Spec.differs d) "=" = true.
Proof.
  intros Hsp Hf1.
  pose proof (split_fields_nosep d m) as Hall. rewrite Hsp in Hall.
  inversion Hall as [|? ? _ Hall1]; subst. inversion Hall1 as [|? ? H1 _]; subst.
  destruct (startswith_inv _ _ Hf1) as [r ->].
  change ("9=" +:+ r) with ("9" +:+ ("=" +:+ r)) in H1.
  rewrite !all_chars_app in H1.
  apply andb_prop in H1 as [_ H1]. apply andb_prop in H1 as [H1 _]. exact H1.
Qed.

(** X18.  A raw send without the modifiers [-UL] and [-UC] hands over a
    self-consistent message.  For a message framed as
    [8=.. | 9=.. | body | 10=.. |] (no body field being a checksum field),
    whatever the other modifiers are, the message handed to
    [send_raw_data] keeps its frame, its second field holds the body
    length [msg_str_calc_length] gives for that very message, and its
    last field the checksum [msg_str_calc_chksum] gives for it. *)
Theorem _send_raw_message_consistent (d : ascii) (m now : string) (next_seq : Z)
    (modifier : list string) (f0 f1 chk : string) (body : list string) :
  PyStr.isdigit d = false ->
  PyStr.all_chars (Spec.differs d) now = true ->
  0 <= next_seq ->
  PyStr.split d m = (f0 :: f1 :: body ++ [chk; ""])%list ->
  PyStr.startswith "8=" f0 = true ->
  PyStr.startswith "9=" f1 = true ->
  PyStr.startswith "10=" chk = true ->
  forallb (fun f => negb (PyStr.startswith "10=" f)) body = true ->
  MessageStore.str_in "-UL" modifier = false ->
  MessageStore.str_in "-UC" modifier = false ->
  exists r c body',
    Send._send_raw_message d m modifier now next_seq = Ok r
    /\ PyStr.split d r
       = (f0 :: ("9=" +:+ PyStr.str (Utils.msg_str_calc_length d r))
             :: body' ++ ["10=" +:+ c; ""])%list
    /\ Utils.msg_str_calc_chksum d r = Ok c
    /\ length body' = length body.
Proof.
  intros Hd Hnow Hseq Hsp Hf0 Hf1 Hchk Hbody HUL HUC.
  apply no10_Forall in Hbody.
  pose proof (second_field_equals d m f0 f1 _ Hsp Hf1) as Heq.
  destruct (startswith_inv _ _ Hf0) as [r0 Hr0].
  destruct (startswith_inv _ _ Hf1) as [r1 Hr1].
  destruct (startswith_inv _ _ Hchk) as [rc Hrc].
  unfold Send._send_raw_message. cbv zeta. rewrite HUL, HUC. cbn [negb].
  set (m1 := if negb (MessageStore.str_in "-UT" modifier)
             then Utils.msg_str_set_field d m (PInt 52) (PStr now) else m).
  assert (H1 : exists body1,
             PyStr.split d m1 = (f0 :: f1 :: body1 ++ [chk; ""])%list
             /\ length body1 = length body
             /\ Forall (fun f => PyStr.startswith "10=" f = false) body1).
  { unfold m1. destruct (negb (MessageStore.str_in "-UT" modifier)).
    - apply set_field_other; try assumption.
      + rewrite Hr0. reflexivity.
      + rewrite Hr1. reflexivity.
      + rewrite Hrc. reflexivity.
      + reflexivity.
      + apply tagged_nosep; try assumption. reflexivity.
    - exists body. auto. }
  destruct H1 as [body1 [Hsp1 [Hlen1 Hbody1]]]. clearbody m1.
  set (m2 := if negb (MessageStore.str_in "-US" modifier)
             then Utils.msg_str_set_field d m1 (PInt 34) (PStr (PyStr.str next_seq))
             else m1).
  assert (H2 : exists body2,
             PyStr.split d m2 = (f0 :: f1 :: body2 ++ [chk; ""])%list
             /\ length body2 = length body1
             /\ Forall (fun f => PyStr.startswith "10=" f = false) body2).
  { unfold m2. destruct (negb (MessageStore.str_in "-US" modifier)).
    - apply set_field_other; try assumption.
      + rewrite Hr0. reflexivity.
      + rewrite Hr1. reflexivity.
      + rewrite Hrc. reflexivity.
      + reflexivity.
      + apply tagged_nosep; try assumption; [reflexivity|].
        apply str_nosep; assumption.
    - exists body1. auto. }
  destruct H2 as [body2 [Hsp2 [Hlen2 Hbody2]]]. clearbody m2.
  destruct (length_then_chksum d m2 f0 f1 chk body2 (PInt 9) (PInt 10)
              (fun z => PStr (PyStr.str z)))
    as [c [Hc [Hsplit [Hlen Hsum]]]]; try assumption; try reflexivity.
  rewrite Hc. cbn [bind].
  eexists. exists c, body2. split; [reflexivity|].
  split; [|split; [exact Hsum|congruence]].
  rewrite Hlen. exact Hsplit.
Qed.

Lemma _send_raw_message_consistent_witness :
  exists r c body',
    Send._send_raw_message "|" "8=FIX.4.2|9=0|35=D|34=1|52=x|55=EUR/USD|10=000|"
      ["-US"] "20240102-03:04:05" 7 = Ok r
    /\ PyStr.split "|" r
       = ("8=FIX.4.2" :: ("9=" +:+ PyStr.str (Utils.msg_str_calc_length "|" r))
             :: body' ++ ["10=" +:+ c; ""])%list
    /\ Utils.msg_str_calc_chksum "|" r = Ok c
    /\ length body' = length ["35=D"; "34=1"; "52=x"; "55=EUR/USD"].
Proof.
  apply (_send_raw_message_consistent "|"
           "8=FIX.4.2|9=0|35=D|34=1|52=x|55=EUR/USD|10=000|" "20240102-03:04:05" 7
           ["-US"] "8=FIX.4.2" "9=0" "10=000"
           ["35=D"; "34=1"; "52=x"; "55=EUR/USD"]);
    vm_compute; first [reflexivity | discriminate].
Defined.

Section CleanUp.

Variable E : App.Env.

(** X19.  The clean-up of [send_raw_data] leaves a self-consistent
    message: on a message framed as [8=.. | 9=.. | body | 10=.. |] it
    keeps the frame, the second field holds the body length
    [msg_str_calc_length] gives for the result and the last field the
    checksum [msg_str_calc_chksum] gives for it. *)
Theorem clean_up_consistent (data : string) (nextSeqNum : Z)
    (f0 f1 chk : string) (body : list string) :
  PyStr.isdigit (App.SOH_UNI E) = false ->
  0 <= nextSeqNum ->
  PyStr.split (App.SOH_UNI E) data = (f0 :: f1 :: body ++ [chk; ""])%list ->
  PyStr.startswith "8=" f0 = true ->
  PyStr.startswith "9=" f1 = true ->
  PyStr.startswith "10=" chk = true ->
  forallb (fun f => negb (PyStr.startswith "10=" f)) body = true ->
  exists r c body',
    FixitClient.clean_up E data nextSeqNum = Ok r
    /\ PyStr.split (App.SOH_UNI E) r
       = (f0 :: ("9=" +:+ PyStr.str (Utils.msg_str_calc_length (App.SOH_UNI E) r))
             :: body' ++ ["10=" +:+ c; ""])%list
    /\ Utils.msg_str_calc_chksum (App.SOH_UNI E) r = Ok c
    /\ length body' = length body.
Proof.
  intros Hd Hseq Hsp Hf0 Hf1 Hchk Hbody.
  apply no10_Forall in Hbody.
  pose proof (second_field_equals _ data f0 f1 _ Hsp Hf1) as Heq.
  destruct (startswith_inv _ _ Hf0) as [r0 Hr0].
  destruct (startswith_inv _ _ Hf1) as [r1 Hr1].
  destruct (startswith_inv _ _ Hchk) as [rc Hrc].
  unfold FixitClient.clean_up, Utils.bytes_to_ascii. cbv zeta.
  set (d := App.SOH_UNI E) in *.
  set (m1 := Utils.msg_str_set_field d data (PStr "34") (PInt nextSeqNum)).
  destruct (set_field_other d data f0 f1 chk body (PStr "34") (PInt nextSeqNum))
    as [body1 [Hsp1 [Hlen1 Hbody1]]]; try assumption.
  { rewrite Hr0. reflexivity. }
  { rewrite Hr1. reflexivity. }
  { rewrite Hrc. reflexivity. }
  { reflexivity. }
  { apply tagged_nosep; try assumption; [reflexivity|].
    apply str_nosep; assumption. }
  fold m1 in Hsp1. clearbody m1.
  destruct (length_then_chksum d m1 f0 f1 chk body1 (PStr "9") (PStr "10") PInt)
    as [c [Hc [Hsplit [Hlen Hsum]]]]; try assumption; try reflexivity.
  rewrite Hc. cbn [bind].
  eexists. exists c, body1. split; [reflexivity|].
  split; [|split; [exact Hsum|exact Hlen1]].
  rewrite Hlen. exact Hsplit.
Qed.

End CleanUp.

Lemma clean_up_consistent_witness :
  exists r c body',
    FixitClient.clean_up Example.env
      "8=FIX.4.2|9=0|35=D|34=1|55=EUR/USD|10=000|" 7 = Ok r
    /\ PyStr.split (App.SOH_UNI Example.env) r
       = ("8=FIX.4.2"
            :: ("9=" +:+ PyStr.str (Utils.msg_str_calc_length (App.SOH_UNI Example.env) r))
            :: body' ++ ["10=" +:+ c; ""])%list
    /\ Utils.msg_str_calc_chksum (App.SOH_UNI Example.env) r = Ok c
    /\ length body' = length ["35=D"; "34=1"; "55=EUR/USD"].
Proof.
  apply (clean_up_consistent Example.env
           "8=FIX.4.2|9=0|35=D|34=1|55=EUR/USD|10=000|" 7
           "8=FIX.4.2" "9=0" "10=000" ["35=D"; "34=1"; "55=EUR/USD"]);
    vm_compute; first [reflexivity | discriminate].
Defined.

(** *** Editing: a message expanded and compressed again *)

Lemma split1_inv (c : ascii) (f a b : string) :
  PyStr.split1 c f = [a; b] ->
  f = a +:+ String c b /\ PyStr.all_chars (Spec.differs c) a = true.
Proof.
  revert a. induction f as [|x f IH]; intros a H; [discriminate|].
  cbn [PyStr.split1] in H. destruct (Ascii.eqb_spec x c) as [->|Hx].
  - inversion H; subst. split; reflexivity.
  - destruct (PyStr.split1 c f) as [|g gs] eqn:Hg; [discriminate|].
    inversion H; subst. destruct (IH g eq_refl) as [-> Hg'].
    split; [reflexivity|]. cbn. rewrite Hg', andb_true_r.
    unfold Spec.differs. apply negb_true_iff. apply Ascii.eqb_neq. exact Hx.
Qed.

Lemma split1_nosep (c : ascii) (a b : string) :
  PyStr.all_chars (Spec.differs c) a = true ->
  PyStr.split1 c (a +:+ String c b) = [a; b].
Proof.
  induction a as [|x a IH]; intros Ha.
  - rewrite append_nil_l. cbn. rewrite Ascii.eqb_refl. reflexivity.
  - cbn in Ha. apply andb_prop in Ha as [Hx Ha].
    rewrite append_cons. cbn [PyStr.split1].
    unfold Spec.differs in Hx. apply negb_true_iff in Hx. rewrite Hx.
    rewrite (IH Ha). reflexivity.
Qed.

Lemma split_all_chars (p : ascii -> bool) (sep : ascii) (s : string) :
  PyStr.all_chars p s = true ->
  Forall (fun f => PyStr.all_chars p f = true) (PyStr.split sep s).
Proof.
  induction s as [|c s IH]; intros H; cbn.
  - constructor; [reflexivity|constructor].
  - cbn in H. apply andb_prop in H as [Hc Hs]. specialize (IH Hs).
    destruct (Ascii.eqb c sep).
    + constructor; [reflexivity|exact IH].
    + destruct (PyStr.split sep s) as [|f fs]; inversion IH; subst.
      * constructor; [|constructor]. cbn. rewrite Hc. reflexivity.
      * constructor; [|assumption]. cbn. rewrite Hc. assumption.
Qed.

Lemma lstrip_keeps (s : string) :
  PyStr.all_chars PyStr.isspace s = false ->
  PyStr.all_chars PyStr.isspace (PyStr.lstrip s) = false.
Proof.
  induction s as [|c s IH]; intros H; [discriminate|].
  cbn [PyStr.lstrip]. destruct (PyStr.isspace c) eqn:Hc; [|exact H].
  apply IH. cbn in H. rewrite Hc in H. exact H.
Qed.

Lemma rstrip_nonempty (s : string) :
  PyStr.all_chars PyStr.isspace s = false -> PyStr.rstrip s <> "".
Proof.
  induction s as [|c s IH]; intros H; [discriminate|].
  cbn [PyStr.rstrip]. cbn in H.
  destruct (PyStr.rstrip s) eqn:Hr; [|discriminate].
  destruct (PyStr.isspace c); [|discriminate].
  exfalso. apply IH; [exact H|reflexivity].
Qed.

Lemma strip_nonblank (a b : string) (c : ascii) :
  PyStr.isspace c = false ->
  (String.length (PyStr.strip (a +:+ String c b)) =? 0)%nat = false.
Proof.
  intros Hc. apply Nat.eqb_neq. unfold PyStr.strip.
  assert (H : PyStr.all_chars PyStr.isspace (a +:+ String c b) = false).
  { rewrite all_chars_app. cbn. rewrite Hc. apply andb_false_r. }
  pose proof (rstrip_nonempty _ (lstrip_keeps _ H)) as Hne.
  destruct (PyStr.rstrip (PyStr.lstrip (a +:+ String c b)));
    [congruence|discriminate].
Qed.

Section RoundTrip.

Variable E : App.Env.
Variable msg_data_dict : gmap string (string -> bool).
Variable msg_field_dict : gmap string (gmap string (gmap string string)).
Variable prompt : nat -> string.
Variable click_edit : nat -> string -> option string.

Lemma expand_rows_acc (ds : list FixitClient.field_details) (acc : string) :
  Edit.expand_rows ds acc = acc +:+ Edit.expand_rows ds "".
Proof.
  revert acc. induction ds as [|d ds IH]; intros acc; cbn [Edit.expand_rows].
  - rewrite append_nil_r. reflexivity.
  - rewrite IH. rewrite (IH ("" +:+ _)). rewrite append_nil_l, !append_assoc.
    reflexivity.
Qed.

(** The fields of a message, expanded and then compressed row by row. *)
Lemma fields_round_trip (spec : string) (fs : list string) :
  forallb (fun f =>
     match PyStr.split1 "=" f with
     | [num; _] =>
         PyStr.all_chars (Spec.differs "(") num
         && PyStr.all_chars (fun c => Spec.differs "=" c && Spec.differs "010" c)
              (FixitClient.lookup_field_name msg_field_dict spec num)
     | _ => false
     end) fs = true ->
  Forall (fun f => PyStr.all_chars (Spec.differs "010") f = true) fs ->
  exists ds,
    FixitClient._get_field_details msg_field_dict
      (map (PyStr.split1 "=") (fs ++ [""])) spec = Ok ds
    /\ length ds = length fs
    /\ forall msg acc k,
         Edit.compress_rows E prompt click_edit msg
           (PyStr.split "010" (Edit.expand_rows ds "")) acc k
         = Edit.Compressed (acc +:+ PyStr.join (App.SOH_UNI E) (fs ++ [""])) k.
Proof.
  induction fs as [|f fs IH]; intros Hok Hnl.
  - exists []. split; [reflexivity|]. split; [reflexivity|].
    intros msg acc k. cbn. rewrite append_nil_r. reflexivity.
  - cbn [forallb] in Hok. apply andb_prop in Hok as [Hf Hok].
    inversion Hnl as [|? ? Hfnl Hnl']; subst.
    destruct (IH Hok Hnl') as [ds [Hds [Hlen Hrows]]]. clear IH.
    destruct (PyStr.split1 "=" f) as [|num [|val [|? ?]]] eqn:Hsp;
      try discriminate.
    apply andb_prop in Hf as [Hparen Hname].
    destruct (split1_inv _ _ _ _ Hsp) as [-> Hnum].
    set (name := FixitClient.lookup_field_name msg_field_dict spec num) in *.
    exists (FixitClient.MkDetails num name val :: ds).
    split; [|split].
    + cbn [app map FixitClient._get_field_details]. rewrite Hsp.
      change (map (PyStr.split1 "=") (fs ++ [""])) with
        (map (PyStr.split1 "=") (fs ++ [""])%list) in *.
      rewrite Hds. reflexivity.
    + cbn [length]. rewrite Hlen. reflexivity.
    + intros msg acc k.
      rewrite !all_chars_app in Hfnl. apply andb_prop in Hfnl as [Hnum_nl Hval_nl].
      cbn [PyStr.all_chars] in Hval_nl. apply andb_prop in Hval_nl as [_ Hval_nl].
      assert (Hname_eq : PyStr.all_chars (Spec.differs "=") name = true
                         /\ PyStr.all_chars (Spec.differs "010") name = true).
      { clear - Hname. induction name as [|c n IHn]; [split; reflexivity|].
        cbn in Hname. apply andb_prop in Hname as [Hc Hn].
        apply andb_prop in Hc as [Hc1 Hc2]. destruct (IHn Hn) as [H1 H2].
        cbn. rewrite Hc1, Hc2, H1, H2. split; reflexivity. }
      destruct Hname_eq as [Hname_eq Hname_nl].
      cbn [Edit.expand_rows FixitClient.field_num FixitClient.field_name
           FixitClient.field_val].
      rewrite expand_rows_acc, append_nil_l.
      set (head := num +:+ "(" +:+ name +:+ ")").
      replace ((num +:+ "(" +:+ name +:+ ")=" +:+ val +:+ String "010" "")
               +:+ Edit.expand_rows ds "")
        with ((head +:+ String "=" val) +:+ String "010" (Edit.expand_rows ds ""))
        by (unfold head; rewrite !append_assoc, !append_cons, !append_nil_l;
            reflexivity).
      rewrite split_cons_nosep.
      2:{ unfold head. rewrite !all_chars_app. cbn [PyStr.all_chars].
          rewrite Hnum_nl, Hname_nl, Hval_nl. reflexivity. }
      cbn [Edit.compress_rows].
      rewrite strip_nonblank by reflexivity.
      rewrite split1_nosep.
      2:{ unfold head. rewrite !all_chars_app. cbn [PyStr.all_chars].
          rewrite Hnum, Hname_eq. reflexivity. }
      unfold head at 1.
      replace (num +:+ "(" +:+ name +:+ ")") with (num +:+ String "(" (name +:+ ")"))
        by reflexivity.
      rewrite split_cons_nosep by exact Hparen. cbn [List.hd].
      rewrite Hrows. f_equal.
      cbn [app].
      destruct (fs ++ [""])%list as [|y l] eqn:Hl; [destruct fs; discriminate|].
      rewrite join_cons2. rewrite !append_assoc, !append_cons, !append_nil_l.
      reflexivity.
Qed.

(** X20.  Expanding a message for the editor and compressing the
    unchanged text gives the message back.  For a message that ends with
    the printable delimiter, holds no line feed and resolves to a
    specification, whose fields all have the form [tag=value] with no
    opening bracket in the tag and no equals sign or line feed in the
    field name the specification gives, [_expand_message] returns a text
    on which [_compress_message] returns the message itself, without
    a prompt and without opening the editor. *)
Theorem expand_then_compress (m spec : string) (dd : string -> bool)
    (fs : list string) :
  PyStr.split (App.SOH_UNI E) m = (fs ++ [""])%list ->
  fs <> [] ->
  PyStr.all_chars (Spec.differs "010") m = true ->
  FixitClient._get_message_spec_dict E msg_data_dict m
  = FixitClient.Returns (spec, dd) ->
  forallb (fun f =>
     match PyStr.split1 "=" f with
     | [num; _] =>
         PyStr.all_chars (Spec.differs "(") num
         && PyStr.all_chars (fun c => Spec.differs "=" c && Spec.differs "010" c)
              (FixitClient.lookup_field_name msg_field_dict spec num)
     | _ => false
     end) fs = true ->
  exists text,
    Edit._expand_message E msg_data_dict msg_field_dict m = Ok (Some text)
    /\ forall fuel k,
         Edit._compress_message E prompt click_edit (S fuel) text k = Some (m, k).
Proof.
  intros Hsp Hne Hnl Hspec Hok.
  assert (Hm : m = PyStr.join (App.SOH_UNI E) fs +:+ String (App.SOH_UNI E) "").
  { rewrite <- (join_split (App.SOH_UNI E) m) at 1. rewrite Hsp.
    apply join_last_empty. exact Hne. }
  pose proof (split_all_chars _ (App.SOH_UNI E) m Hnl) as Hall.
  rewrite Hsp in Hall. apply Forall_app in Hall as [Hall _].
  destruct (fields_round_trip spec fs Hok Hall) as [ds [Hds [Hlen Hrows]]].
  exists (Edit.expand_rows ds ""). split.
  - unfold Edit._expand_message, FixitClient.msg_expand, FixitClient._msg_expand.
    rewrite Hspec. cbn [fst]. unfold FixitClient.msg_to_list.
    rewrite detect_SOH_endswith by (rewrite Hm; apply endswith_app).
    rewrite Hsp, Hds. cbn [bind].
    destruct ds as [|d0 ds]; [destruct fs; [congruence|discriminate]|].
    reflexivity.
  - intros fuel k. cbn [Edit._compress_message]. rewrite Hrows.
    rewrite append_nil_l, <- Hsp, join_split. reflexivity.
Qed.

End RoundTrip.

Lemma expand_then_compress_witness :
  exists text,
    Edit._expand_message Example.env Example.data_dicts Example.field_dicts
      "8=FIX.4.2|35=D|55=EUR/USD|58=a=b|" = Ok (Some text)
    /\ forall fuel k,
         Edit._compress_message Example.env (fun _ => "") (fun _ _ => None)
           (S fuel) text k
         = Some ("8=FIX.4.2|35=D|55=EUR/USD|58=a=b|", k).
Proof.
  apply (expand_then_compress Example.env Example.data_dicts Example.field_dicts
           (fun _ => "") (fun _ _ => None)
           "8=FIX.4.2|35=D|55=EUR/USD|58=a=b|" "FIX42"
           (fun ty => String.eqb ty "D" || String.eqb ty "0")
           ["8=FIX.4.2"; "35=D"; "55=EUR/USD"; "58=a=b"]);
    vm_compute; first [reflexivity | discriminate].
Defined.

(** *** Editing: operations given on the command line *)



Section AutoEdit.

Variable E : App.Env.






End AutoEdit.


(** *** Output cut to the width of the terminal *)

Lemma substring_length_min (n : nat) (s : string) :
  String.length (String.substring 0 n s) = Nat.min n (String.length s).
Proof.
  revert n. induction s as [|c s IH]; intros [|n]; cbn; try reflexivity.
  rewrite IH. reflexivity.
Qed.

(** X22.  What [limit] returns fits the terminal: when the terminal is at
    least three columns wider than the margin, the result is never longer
    than the columns less the margin.  A text shorter than that less
    three is returned as it is; any other text is cut to that many
    characters and followed by three dots, filling the line exactly. *)
Theorem limit_fits (columns margin : Z) (text : string) :
  3 <= columns - margin ->
  Z.of_nat (String.length (Writer.limit columns text margin)) <= columns - margin
  /\ (Z.of_nat (String.length text) < columns - 3 - margin ->
      Writer.limit columns text margin = text)
  /\ (columns - 3 - margin <= Z.of_nat (String.length text) ->
      Writer.limit columns text margin
      = String.substring 0 (Z.to_nat (columns - 3 - margin)) text +:+ "..."
      /\ Z.of_nat (String.length (Writer.limit columns text margin))
         = columns - margin).
Proof.
  intros Hw. unfold Writer.limit, PyList.clamp. cbv zeta.
  destruct (Z.ltb_spec (Z.of_nat (String.length text)) (columns - 3 - margin))
    as [Hlt|Hge].
  - split; [lia|]. split; [reflexivity|lia].
  - replace (columns - 3 - margin <? 0) with false by (symmetry; apply Z.ltb_ge; lia).
    rewrite Z.min_l by exact Hge.
    rewrite append_length, substring_length_min. cbn [String.length].
    split; [lia|]. split; [lia|].
    intros _. split; [reflexivity|lia].
Qed.

Lemma limit_fits_witness :
  Z.of_nat (String.length (Writer.limit 20 "8=FIX.4.2|9=5|35=0|10=000|" 2)) <= 20 - 2
  /\ (Z.of_nat (String.length "8=FIX.4.2|9=5|35=0|10=000|") < 20 - 3 - 2 ->
      Writer.limit 20 "8=FIX.4.2|9=5|35=0|10=000|" 2 = "8=FIX.4.2|9=5|35=0|10=000|")
  /\ (20 - 3 - 2 <= Z.of_nat (String.length "8=FIX.4.2|9=5|35=0|10=000|") ->
      Writer.limit 20 "8=FIX.4.2|9=5|35=0|10=000|" 2
      = String.substring 0 (Z.to_nat (20 - 3 - 2)) "8=FIX.4.2|9=5|35=0|10=000|" +:+ "..."
      /\ Z.of_nat (String.length (Writer.limit 20 "8=FIX.4.2|9=5|35=0|10=000|" 2))
         = 20 - 2).
Proof.
  apply (limit_fits 20 2 "8=FIX.4.2|9=5|35=0|10=000|"). lia.
Defined.
